(* ===================================================================== *)
(* APTrust exchange: the bag validator (validation/validator.go), the    *)
(* S3 upload client (network/s3_upload.go) and the Glacier restore-init  *)
(* stage, embedded in Rocq and checked against the written specification. *)
(* ===================================================================== *)

From Stdlib Require Import ZArith List Ascii String Bool Lia.
From stdpp Require Import base option gmap strings.

Import ListNotations.
Local Open Scope string_scope.
Local Open Scope Z_scope.

(* ===================================================================== *)
(* Bytes and strings                                                     *)
(* ===================================================================== *)

(** A Go string is a sequence of bytes; it is embedded as [string], whose
    characters are the 256 byte values. *)
Module Bytes.

Definition code (a : ascii) : Z := Z.of_N (N_of_ascii a).

Definition of_string (s : string) : list Z := map code (list_ascii_of_string s).

Definition hexdigit (d : Z) : ascii :=
  if d <? 10 then ascii_of_N (Z.to_N (48 + d)) else ascii_of_N (Z.to_N (87 + d)).

(** fmt.Sprintf("%x", bs): two lower-case hexadecimal digits per byte. *)
Fixpoint hex (bs : list Z) : string :=
  match bs with
  | [] => EmptyString
  | b :: r => String (hexdigit (Z.shiftr b 4)) (String (hexdigit (Z.land b 15)) (hex r))
  end.

(** The 64-byte blocks of a padded message. *)
Fixpoint blocks (n : nat) (bs : list Z) : list (list Z) :=
  match n with
  | O => []
  | S n' => firstn 64 bs :: blocks n' (skipn 64 bs)
  end.

(** 4-byte groups of a block. *)
Fixpoint quads (n : nat) (bs : list Z) : list (list Z) :=
  match n with
  | O => []
  | S n' => firstn 4 bs :: quads n' (skipn 4 bs)
  end.

Definition le_word (q : list Z) : Z :=
  fold_right (fun b acc => b + 256 * acc) 0 q.

Definition be_word (q : list Z) : Z :=
  fold_left (fun acc b => 256 * acc + b) q 0.

Fixpoint le_bytes (n : nat) (x : Z) : list Z :=
  match n with
  | O => []
  | S n' => (x mod 256) :: le_bytes n' (x / 256)
  end.

Definition be_bytes (n : nat) (x : Z) : list Z := rev (le_bytes n x).

(** Message padding shared by MD5 and SHA-256: a 0x80 byte, zero bytes up to
    56 modulo 64, then the bit length in eight bytes. *)
Definition pad (len_bytes : Z -> list Z) (msg : list Z) : list Z :=
  let l := Z.of_nat (length msg) in
  let z := (55 - l) mod 64 in
  msg ++ [128] ++ repeat 0 (Z.to_nat z) ++ len_bytes (8 * l).

End Bytes.

(* ===================================================================== *)
(* crypto/md5 and crypto/sha256                                          *)
(* ===================================================================== *)

(** The Go standard library's digests, written out (RFC 1321, FIPS 180-4)
    so that the validator's computed checksums evaluate on concrete files. *)
Module Hash.

Definition w32 (x : Z) : Z := x mod 4294967296.
Definition add32 (x y : Z) : Z := w32 (x + y).
Definition not32 (x : Z) : Z := Z.lxor x 4294967295.
Definition rotl32 (x n : Z) : Z := w32 (Z.lor (Z.shiftl x n) (Z.shiftr x (32 - n))).
Definition rotr32 (x n : Z) : Z := rotl32 x (32 - n).

Definition md5K : list Z :=
  [3614090360; 3905402710; 606105819; 3250441966; 4118548399; 1200080426;
   2821735955; 4249261313; 1770035416; 2336552879; 4294925233; 2304563134;
   1804603682; 4254626195; 2792965006; 1236535329; 4129170786; 3225465664;
   643717713; 3921069994; 3593408605; 38016083; 3634488961; 3889429448;
   568446438; 3275163606; 4107603335; 1163531501; 2850285829; 4243563512;
   1735328473; 2368359562; 4294588738; 2272392833; 1839030562; 4259657740;
   2763975236; 1272893353; 4139469664; 3200236656; 681279174; 3936430074;
   3572445317; 76029189; 3654602809; 3873151461; 530742520; 3299628645;
   4096336452; 1126891415; 2878612391; 4237533241; 1700485571; 2399980690;
   4293915773; 2240044497; 1873313359; 4264355552; 2734768916; 1309151649;
   4149444226; 3174756917; 718787259; 3951481745].

Definition md5S : list Z :=
  [7; 12; 17; 22; 7; 12; 17; 22; 7; 12; 17; 22; 7; 12; 17; 22;
   5; 9; 14; 20; 5; 9; 14; 20; 5; 9; 14; 20; 5; 9; 14; 20;
   4; 11; 16; 23; 4; 11; 16; 23; 4; 11; 16; 23; 4; 11; 16; 23;
   6; 10; 15; 21; 6; 10; 15; 21; 6; 10; 15; 21; 6; 10; 15; 21].

Definition md5_step (m : list Z) (st : Z * Z * Z * Z) (i : nat) : Z * Z * Z * Z :=
  let '(a, b, c, d) := st in
  let iz := Z.of_nat i in
  let '(f, g) :=
    if iz <? 16 then (Z.lor (Z.land b c) (Z.land (not32 b) d), iz)
    else if iz <? 32 then (Z.lor (Z.land d b) (Z.land (not32 d) c), (5 * iz + 1) mod 16)
    else if iz <? 48 then (Z.lxor (Z.lxor b c) d, (3 * iz + 5) mod 16)
    else (Z.lxor c (Z.lor b (not32 d)), (7 * iz) mod 16) in
  let f' := add32 (add32 (add32 f a) (nth i md5K 0)) (nth (Z.to_nat g) m 0) in
  (d, add32 b (rotl32 f' (nth i md5S 0)), b, c).

Definition md5_block (st : Z * Z * Z * Z) (blk : list Z) : Z * Z * Z * Z :=
  let m := map Bytes.le_word (Bytes.quads 16 blk) in
  let '(a0, b0, c0, d0) := st in
  let '(a, b, c, d) := fold_left (md5_step m) (seq 0 64) st in
  (add32 a0 a, add32 b0 b, add32 c0 c, add32 d0 d).

(** md5.Sum: the 16 digest bytes. *)
Definition md5_sum (msg : list Z) : list Z :=
  let p := Bytes.pad (Bytes.le_bytes 8) msg in
  let '(a, b, c, d) :=
    fold_left md5_block (Bytes.blocks (length p / 64) p)
              (1732584193, 4023233417, 2562383102, 271733878) in
  Bytes.le_bytes 4 a ++ Bytes.le_bytes 4 b ++ Bytes.le_bytes 4 c ++ Bytes.le_bytes 4 d.

Definition shaK : list Z :=
  [1116352408; 1899447441; 3049323471; 3921009573; 961987163; 1508970993;
   2453635748; 2870763221; 3624381080; 310598401; 607225278; 1426881987;
   1925078388; 2162078206; 2614888103; 3248222580; 3835390401; 4022224774;
   264347078; 604807628; 770255983; 1249150122; 1555081692; 1996064986;
   2554220882; 2821834349; 2952996808; 3210313671; 3336571891; 3584528711;
   113926993; 338241895; 666307205; 773529912; 1294757372; 1396182291;
   1695183700; 1986661051; 2177026350; 2456956037; 2730485921; 2820302411;
   3259730800; 3345764771; 3516065817; 3600352804; 4094571909; 275423344;
   430227734; 506948616; 659060556; 883997877; 958139571; 1322822218;
   1537002063; 1747873779; 1955562222; 2024104815; 2227730452; 2361852424;
   2428436474; 2756734187; 3204031479; 3329325298].

Definition shaH : list Z :=
  [1779033703; 3144134277; 1013904242; 2773480762;
   1359893119; 2600822924; 528734635; 1541459225].

(** Message schedule: w is kept newest-first, so w[i-k] is entry k-1. *)
Definition sha_extend (w : list Z) (_ : nat) : list Z :=
  let w2 := nth 1 w 0 in
  let w7 := nth 6 w 0 in
  let w15 := nth 14 w 0 in
  let w16 := nth 15 w 0 in
  let s0 := Z.lxor (Z.lxor (rotr32 w15 7) (rotr32 w15 18)) (Z.shiftr w15 3) in
  let s1 := Z.lxor (Z.lxor (rotr32 w2 17) (rotr32 w2 19)) (Z.shiftr w2 10) in
  add32 (add32 (add32 w16 s0) w7) s1 :: w.

Definition sha_schedule (blk : list Z) : list Z :=
  rev (fold_left sha_extend (seq 16 48) (rev (map Bytes.be_word (Bytes.quads 16 blk)))).

Definition sha_round (w : list Z) (st : list Z) (i : nat) : list Z :=
  match st with
  | [a; b; c; d; e; f; g; h] =>
      let s1 := Z.lxor (Z.lxor (rotr32 e 6) (rotr32 e 11)) (rotr32 e 25) in
      let ch := Z.lxor (Z.land e f) (Z.land (not32 e) g) in
      let t1 := add32 (add32 (add32 (add32 h s1) ch) (nth i shaK 0)) (nth i w 0) in
      let s0 := Z.lxor (Z.lxor (rotr32 a 2) (rotr32 a 13)) (rotr32 a 22) in
      let maj := Z.lxor (Z.lxor (Z.land a b) (Z.land a c)) (Z.land b c) in
      let t2 := add32 s0 maj in
      [add32 t1 t2; a; b; c; add32 d t1; e; f; g]
  | _ => st
  end.

Fixpoint add32_all (xs ys : list Z) : list Z :=
  match xs, ys with
  | x :: xs', y :: ys' => add32 x y :: add32_all xs' ys'
  | _, _ => []
  end.

Definition sha_block (st : list Z) (blk : list Z) : list Z :=
  add32_all st (fold_left (sha_round (sha_schedule blk)) (seq 0 64) st).

(** sha256.Sum256: the 32 digest bytes. *)
Definition sha256_sum (msg : list Z) : list Z :=
  let p := Bytes.pad (Bytes.be_bytes 8) msg in
  flat_map (Bytes.be_bytes 4)
           (fold_left sha_block (Bytes.blocks (length p / 64) p) shaH).

Definition md5_hex (content : string) : string :=
  Bytes.hex (md5_sum (Bytes.of_string content)).

Definition sha256_hex (content : string) : string :=
  Bytes.hex (sha256_sum (Bytes.of_string content)).

End Hash.

(* ===================================================================== *)
(* The Go library functions the validator calls                          *)
(* ===================================================================== *)

Module Go.

Definition is_empty (s : string) : bool :=
  match s with EmptyString => true | _ => false end.

Definition byte_is (c : Z) (a : ascii) : bool := Bytes.code a =? c.

(** The class \s of Go's regexp package: tab, newline, form feed, carriage
    return and space (no vertical tab). \S is its complement. *)
Definition regexSpace (a : ascii) : bool :=
  let c := Bytes.code a in
  (c =? 9) || (c =? 10) || (c =? 12) || (c =? 13) || (c =? 32).

(** unicode.IsSpace on the UTF-8 encoding: the width in bytes of a leading
    white-space rune, 0 when the text does not start with one. The runes are
    U+0009..U+000D, U+0020, U+0085, U+00A0, U+1680, U+2000..U+200A, U+2028,
    U+2029, U+202F, U+205F and U+3000. *)
Definition spaceWidth (bs : list Z) : nat :=
  match bs with
  | [] => O
  | b0 :: r =>
      if ((9 <=? b0) && (b0 <=? 13)) || (b0 =? 32) then 1%nat
      else
        match r with
        | [] => O
        | b1 :: r' =>
            if (b0 =? 194) && ((b1 =? 133) || (b1 =? 160)) then 2%nat
            else
              match r' with
              | [] => O
              | b2 :: _ =>
                  if (b0 =? 225) && (b1 =? 154) && (b2 =? 128) then 3%nat
                  else if (b0 =? 226) && (b1 =? 128) &&
                          (((128 <=? b2) && (b2 <=? 138)) || (b2 =? 168)
                           || (b2 =? 169) || (b2 =? 175)) then 3%nat
                  else if (b0 =? 226) && (b1 =? 129) && (b2 =? 159) then 3%nat
                  else if (b0 =? 227) && (b1 =? 128) && (b2 =? 128) then 3%nat
                  else O
              end
        end
  end.

Fixpoint allSpace (fuel : nat) (bs : list Z) : bool :=
  match bs with
  | [] => true
  | _ =>
      match fuel with
      | O => false
      | S fuel' =>
          match spaceWidth bs with
          | O => false
          | w => allSpace fuel' (skipn w bs)
          end
      end
  end.

(** strings.TrimSpace(line) is the empty string: every rune of the line is
    white space. *)
Definition isBlank (line : string) : bool :=
  let bs := Bytes.of_string line in allSpace (length bs) bs.

(** strings.Trim(s, " "): all leading and all trailing space bytes go. *)
Fixpoint TrimLeftSpaces (s : string) : string :=
  match s with
  | EmptyString => EmptyString
  | String a r => if byte_is 32 a then TrimLeftSpaces r else s
  end.

Fixpoint TrimRightSpaces (s : string) : string :=
  match s with
  | EmptyString => EmptyString
  | String a r =>
      let r' := TrimRightSpaces r in
      if byte_is 32 a && is_empty r' then EmptyString else String a r'
  end.

Definition Trim (s : string) : string := TrimRightSpaces (TrimLeftSpaces s).

(** strings.Replace of the first colon by nothing (n = 1). *)
Fixpoint ReplaceFirstColon (s : string) : string :=
  match s with
  | EmptyString => EmptyString
  | String a r => if byte_is 58 a then r else String a (ReplaceFirstColon r)
  end.

Definition HasPrefix (s p : string) : bool := String.prefix p s.

Definition HasSuffix (s suf : string) : bool :=
  let n := String.length s in
  let k := String.length suf in
  (k <=? n)%nat && String.eqb (String.substring (n - k) k s) suf.

Fixpoint Contains (s sub : string) : bool :=
  String.prefix sub s ||
  match s with
  | EmptyString => false
  | String _ r => Contains r sub
  end.

(** strings.ToLower. ASCII letters are folded; of the other runes only
    U+0130 and U+212A lower-case to an ASCII letter (i and k). Every other
    byte is kept, so a comparison of the result with an ASCII constant comes
    out as in Go. *)
Fixpoint ToLower (s : string) : string :=
  match s with
  | EmptyString => EmptyString
  | String a r =>
      let c := Bytes.code a in
      if (65 <=? c) && (c <=? 90) then String (ascii_of_N (Z.to_N (c + 32))) (ToLower r)
      else
        match r with
        | String b r1 =>
            if (c =? 196) && byte_is 176 b then String "i"%char (ToLower r1)
            else
              match r1 with
              | String d r2 =>
                  if (c =? 226) && byte_is 132 b && byte_is 170 d
                  then String "k"%char (ToLower r2)
                  else String a (ToLower r)
              | EmptyString => String a (ToLower r)
              end
        | EmptyString => String a (ToLower r)
        end
  end.

(** strings.Join(parts, sep). *)
Fixpoint Join (parts : list string) (sep : string) : string :=
  match parts with
  | [] => EmptyString
  | [p] => p
  | p :: rest => p ++ sep ++ Join rest sep
  end.

(** util.StringListContains. *)
Definition StringListContains (l : list string) (item : string) : bool :=
  existsb (String.eqb item) l.

(* --------------------------------------------------------------------- *)
(* bufio.Scanner with the default ScanLines split function               *)
(* --------------------------------------------------------------------- *)

Definition MaxScanTokenSize : Z := 65536.

(** The segments between newline bytes; the last one is what follows the
    final newline (empty when the text ends in a newline or is empty). *)
Fixpoint segments (s : string) : list string :=
  match s with
  | EmptyString => [EmptyString]
  | String a r =>
      if byte_is 10 a then EmptyString :: segments r
      else
        match segments r with
        | l :: ls => String a l :: ls
        | [] => [String a EmptyString]
        end
  end.

(** dropCR: one trailing carriage return is dropped from a token. *)
Fixpoint dropCR (s : string) : string :=
  match s with
  | EmptyString => EmptyString
  | String a r => if byte_is 13 a && is_empty r then EmptyString else String a (dropCR r)
  end.

Definition tooLong (seg : string) : bool :=
  MaxScanTokenSize <=? Z.of_nat (String.length seg).

(** The tokens Scan() yields, and whether scanning stopped on
    bufio.ErrTooLong (a line that fills the 64 KiB buffer). *)
Fixpoint scanTokens (segs : list string) : list string * bool :=
  match segs with
  | [] => ([], false)
  | [last] =>
      if is_empty last then ([], false)
      else if tooLong last then ([], true)
      else ([dropCR last], false)
  | seg :: rest =>
      if tooLong seg then ([], true)
      else let '(ls, e) := scanTokens rest in (dropCR seg :: ls, e)
  end.

Definition ScanLines (content : string) : list string * bool :=
  scanTokens (segments content).

(* --------------------------------------------------------------------- *)
(* The two regular expressions                                           *)
(* --------------------------------------------------------------------- *)

(** The longest prefix of \S bytes, and what follows it. *)
Fixpoint spanNonSpace (s : string) : string * string :=
  match s with
  | EmptyString => (EmptyString, EmptyString)
  | String a r =>
      if regexSpace a then (EmptyString, s)
      else let '(run, rest) := spanNonSpace r in (String a run, rest)
  end.

Fixpoint dropRegexSpace (s : string) : string :=
  match s with
  | EmptyString => EmptyString
  | String a r => if regexSpace a then dropRegexSpace r else s
  end.

Fixpoint endsWithColon (s : string) : bool :=
  match s with
  | EmptyString => false
  | String a r => if is_empty r then byte_is 58 a else endsWithColon r
  end.

(** The tag-line pattern of parseTags on one line (a line holds no
    newline): anchored at both ends, an optional group 1 (a run of \S bytes
    and then a colon) followed by an optional group 2 (one \s byte and then
    any bytes). Group 1 can only end at a colon that closes the leading run of \S
    bytes, because group 2 must start with \s or be absent; without group 1
    the line must start with \s or be empty. The result is
    FindStringSubmatch's data[1] and data[2], [None] when MatchString is
    false. *)
Definition tagLineMatch (line : string) : option (string * string) :=
  let '(run, rest) := spanNonSpace line in
  if endsWithColon run then Some (run, rest)
  else if is_empty run then Some (EmptyString, rest)
  else None.

(** The manifest-line pattern of parseManifest on one line: group 1 (a run
    of \S bytes), any \s bytes, group 2 (the remaining bytes). It always
    matches; data[1] is the leading run of \S bytes, data[2] the rest after
    its leading \s bytes. *)
Definition manifestLineMatch (line : string) : string * string :=
  let '(run, rest) := spanNonSpace line in (run, dropRegexSpace rest).

(* --------------------------------------------------------------------- *)
(* fmt.Sprintf on a format with no operands                              *)
(* --------------------------------------------------------------------- *)

Definition isDigit (a : ascii) : bool :=
  let c := Bytes.code a in (48 <=? c) && (c <=? 57).

(** The flags of a verb: sharp, zero, plus, minus and space. *)
Definition isFlag (a : ascii) : bool :=
  let c := Bytes.code a in
  (c =? 35) || (c =? 48) || (c =? 43) || (c =? 45) || (c =? 32).

Fixpoint dropFlags (s : string) : string :=
  match s with
  | EmptyString => EmptyString
  | String a r => if isFlag a then dropFlags r else s
  end.

(** parsenum of package fmt on the text up to its end: whether a number was
    read, and the text after its digits. Once the number has passed 10^6 a
    further digit makes fmt give the number up and skip to the end. *)
Fixpoint parsenumFrom (num : Z) (isnum : bool) (s : string) : bool * string :=
  match s with
  | EmptyString => (isnum, EmptyString)
  | String a r =>
      if isDigit a then
        if 1000000 <? num then (false, EmptyString)
        else parsenumFrom (num * 10 + (Bytes.code a - 48)) true r
      else (isnum, s)
  end.

Definition parsenum (s : string) : bool * string := parsenumFrom 0 false s.

(** The text before the first closing bracket and the text after it. *)
Fixpoint cutBracket (s : string) : option (string * string) :=
  match s with
  | EmptyString => None
  | String a r =>
      if byte_is 93 a then Some (EmptyString, r)
      else
        match cutBracket r with
        | Some (inner, after) => Some (String a inner, after)
        | None => None
        end
  end.

(** argNumber of package fmt when there is no operand. The text starts an
    argument index when its first byte is an opening bracket; no index is in
    range, so the verb is then marked as having a bad index. The result is
    whether the verb is still good, the text after the index, and whether a
    well-formed index was read. *)
Definition argNumber (s : string) : bool * string * bool :=
  match s with
  | String a r =>
      if byte_is 91 a then
        if (String.length s <? 3)%nat then (false, r, false)
        else
          match cutBracket r with
          | Some (inner, after) =>
              let '(isnum, remains) := parsenum inner in
              (false, after, isnum && is_empty remains)
          | None => (false, r, false)
          end
      else (true, s, false)
  | EmptyString => (true, s, false)
  end.

Definition tail (s : string) : string :=
  match s with
  | String _ r => r
  | EmptyString => EmptyString
  end.

Definition startsWith (c : Z) (s : string) : bool :=
  match s with
  | String a _ => byte_is c a
  | EmptyString => false
  end.

Definition continuation (a : ascii) : bool :=
  let c := Bytes.code a in (128 <=? c) && (c <=? 191).

(** utf8.DecodeRuneInString followed by WriteRune: the bytes written for the
    first rune of the text and the text after that rune. Bytes that are not
    the UTF-8 encoding of a rune count as one byte and are written as
    U+FFFD. *)
Definition writeRune (a : ascii) (r : string) : string * string :=
  let replacement := String "239" (String "191" (String "189" EmptyString)) in
  let c := Bytes.code a in
  if c <? 128 then (String a EmptyString, r)
  else
    let size := if (194 <=? c) && (c <=? 223) then 2
                else if (224 <=? c) && (c <=? 239) then 3
                else if (240 <=? c) && (c <=? 244) then 4
                else 0 in
    let lo := if c =? 224 then 160 else if c =? 240 then 144 else 128 in
    let hi := if c =? 237 then 159 else if c =? 244 then 143 else 191 in
    if size =? 0 then (replacement, r)
    else
      match r with
      | String b1 r1 =>
          if (Z.of_nat (String.length r) <? size - 1)
             || negb ((lo <=? Bytes.code b1) && (Bytes.code b1 <=? hi))
          then (replacement, r)
          else if size =? 2 then (String a (String b1 EmptyString), r1)
          else
            match r1 with
            | String b2 r2 =>
                if negb (continuation b2) then (replacement, r)
                else if size =? 3
                then (String a (String b1 (String b2 EmptyString)), r2)
                else
                  match r2 with
                  | String b3 r3 =>
                      if negb (continuation b3) then (replacement, r)
                      else (String a (String b1 (String b2 (String b3 EmptyString))), r3)
                  | EmptyString => (replacement, r)
                  end
            | EmptyString => (replacement, r)
            end
      | EmptyString => (replacement, r)
      end.

(** The width of a verb: a star finds no operand to take the width from;
    a number is read and has no effect, except that a number after an
    argument index makes the index bad. The state is whether the verb is
    still good, the text ahead, and whether an argument index was just
    read. *)
Definition width (state : bool * string * bool) : string * (bool * string * bool) :=
  let '(good, s, afterIndex) := state in
  if startsWith 42 s then ("%!(BADWIDTH)", (good, tail s, false))
  else
    let '(widPresent, s') := parsenum s in
    (EmptyString, (good && negb (afterIndex && widPresent), s', afterIndex)).

(** The precision of a verb: a period that is not the last byte of the
    format starts it; a period after an argument index makes the index bad,
    and a star finds no operand. *)
Definition precision (state : bool * string * bool) : string * (bool * string * bool) :=
  let '(good, s, afterIndex) := state in
  if startsWith 46 s && (1 <? String.length s)%nat then
    let '(good', s', afterIndex') := argNumber (tail s) in
    let good := good && negb afterIndex && good' in
    if startsWith 42 s' then ("%!(BADPREC)", (good, tail s', false))
    else (EmptyString, (good, snd (parsenum s'), afterIndex'))
  else (EmptyString, state).

(** An argument index right before the verb, unless one was just read. *)
Definition lastIndex (state : bool * string * bool) : bool * string :=
  let '(good, s, afterIndex) := state in
  if afterIndex then (good, s)
  else let '(good', s', _) := argNumber s in (good && good', s').

(** The verb itself: none at the end of the format; a percent sign gives
    a percent sign; any other rune is reported as missing its operand, or as
    having a bad index. The result is what is written and the text after the
    verb. *)
Definition verb (good : bool) (s : string) : string * string :=
  match s with
  | EmptyString => ("%!(NOVERB)", EmptyString)
  | String a r =>
      let '(rune, rest) := writeRune a r in
      if byte_is 37 a then ("%", rest)
      else if good then ("%!" ++ rune ++ "(MISSING)", rest)
      else ("%!" ++ rune ++ "(BADINDEX)", rest)
  end.

(** What doPrintf writes for one verb when there is no operand, [s] being
    the text after the percent sign, and the text after the verb: flags, an
    argument index, the width, the precision, an argument index, the verb. *)
Definition directive (s : string) : string * string :=
  let '(outW, state) := width (argNumber (dropFlags s)) in
  let '(outP, state) := precision state in
  let '(good, s) := lastIndex state in
  let '(out, rest) := verb good s in
  (outW ++ outP ++ out, rest).

(** doPrintf over the format; every round takes at least one byte, so the
    length of the format is fuel enough. *)
Fixpoint doPrintf (fuel : nat) (format : string) : string :=
  match fuel with
  | O => EmptyString
  | S fuel' =>
      match format with
      | EmptyString => EmptyString
      | String a r =>
          if byte_is 37 a
          then let '(out, rest) := directive r in out ++ doPrintf fuel' rest
          else String a (doPrintf fuel' r)
      end
  end.

(** fmt.Sprintf(format) with no operands, which is what
    summary.AddError(err.Error()) makes of the message: text without a
    percent sign is kept, a doubled percent sign gives one, and every other
    verb is rendered as missing its operand. *)
Definition Sprintf (format : string) : string :=
  doPrintf (String.length format) format.

End Go.

(* ===================================================================== *)
(* Data model                                                            *)
(* ===================================================================== *)

(** Go's (value, error) results where exactly one of the two is set. *)
Inductive Result (A : Type) : Type :=
| Ok (a : A)
| Err (msg : string).
Arguments Ok {A} a.
Arguments Err {A} msg.

Module Constants.

(** Modelled from the spec: the constants package is not among the sources.
    The algorithm names are the ones the spec gives for manifests
    (manifest-md5.txt, manifest-sha256.txt); the four file types are the ones
    the comment on GenericFile.IngestFileType lists, and no statement below
    depends on how they are spelled. *)
Definition AlgMd5 : string := "md5".
Definition AlgSha256 : string := "sha256".
Definition PAYLOAD_FILE : string := "payload_file".
Definition PAYLOAD_MANIFEST : string := "payload_manifest".
Definition TAG_MANIFEST : string := "tag_manifest".
Definition TAG_FILE : string := "tag_file".

End Constants.

Module Tag.

(** Modelled from the spec: models.Tag is not among the sources; parseTags
    and setIntelObjTagValue use its SourceFile, Label and Value. *)
Record t : Type := Build { SourceFile : string; Label : string; Value : string }.

Definition set_Value (v : string) (x : t) : t := Build (SourceFile x) (Label x) v.

(** models.NewTag(sourceFile, label, value). *)
Definition New (sourceFile label value : string) : t := Build sourceFile label value.

End Tag.

Module WorkSummary.

(** Modelled from the spec: models.WorkSummary is not among the sources. The
    summary carries the attempted flag, the started and finished times, the
    attempt number and the ordered error list; it succeeded iff no error was
    accumulated. *)
Record t : Type := Build {
  Attempted : bool;
  AttemptNumber : Z;
  Errors : list string;
  StartedAt : Z;
  FinishedAt : Z
}.

Definition New : t := Build false 0 [] 0 0.

Definition Start (now : Z) (s : t) : t :=
  Build (Attempted s) (AttemptNumber s) (Errors s) now (FinishedAt s).

Definition Finish (now : Z) (s : t) : t :=
  Build (Attempted s) (AttemptNumber s) (Errors s) (StartedAt s) now.

Definition set_Attempted (b : bool) (s : t) : t :=
  Build b (AttemptNumber s) (Errors s) (StartedAt s) (FinishedAt s).

Definition set_AttemptNumber (n : Z) (s : t) : t :=
  Build (Attempted s) n (Errors s) (StartedAt s) (FinishedAt s).

(** AddError appends the formatted message. *)
Definition AddError (msg : string) (s : t) : t :=
  Build (Attempted s) (AttemptNumber s) (Errors s ++ [msg]) (StartedAt s)
        (FinishedAt s).

Definition HasErrors (s : t) : bool :=
  match Errors s with [] => false | _ => true end.

(** AllErrorsAsString: the messages concatenated, one per line. *)
Definition AllErrorsAsString (s : t) : string :=
  Go.Join (Errors s) (String "010" EmptyString).

End WorkSummary.

Module IntellectualObject.

(** models.IntellectualObject, the fields the validator reads or writes. *)
Record t : Type := Build {
  Identifier : string;
  Title : string;
  Description : string;
  Access : string;
  Institution : string;
  AltIdentifier : string;
  IngestTarFilePath : string;
  IngestUntarredPath : string;
  IngestTags : list Tag.t
}.

Definition set_Identifier (v : string) (x : t) : t :=
  Build v (Title x) (Description x) (Access x) (Institution x) (AltIdentifier x)
        (IngestTarFilePath x) (IngestUntarredPath x) (IngestTags x) .

Definition set_Title (v : string) (x : t) : t :=
  Build (Identifier x) v (Description x) (Access x) (Institution x)
        (AltIdentifier x) (IngestTarFilePath x) (IngestUntarredPath x)
        (IngestTags x) .

Definition set_Description (v : string) (x : t) : t :=
  Build (Identifier x) (Title x) v (Access x) (Institution x) (AltIdentifier x)
        (IngestTarFilePath x) (IngestUntarredPath x) (IngestTags x) .

Definition set_Access (v : string) (x : t) : t :=
  Build (Identifier x) (Title x) (Description x) v (Institution x) (AltIdentifier x)
        (IngestTarFilePath x) (IngestUntarredPath x) (IngestTags x) .

Definition set_Institution (v : string) (x : t) : t :=
  Build (Identifier x) (Title x) (Description x) (Access x) v (AltIdentifier x)
        (IngestTarFilePath x) (IngestUntarredPath x) (IngestTags x) .

Definition set_AltIdentifier (v : string) (x : t) : t :=
  Build (Identifier x) (Title x) (Description x) (Access x) (Institution x) v
        (IngestTarFilePath x) (IngestUntarredPath x) (IngestTags x) .

Definition set_IngestTarFilePath (v : string) (x : t) : t :=
  Build (Identifier x) (Title x) (Description x) (Access x) (Institution x)
        (AltIdentifier x) v (IngestUntarredPath x) (IngestTags x) .

Definition set_IngestUntarredPath (v : string) (x : t) : t :=
  Build (Identifier x) (Title x) (Description x) (Access x) (Institution x)
        (AltIdentifier x) (IngestTarFilePath x) v (IngestTags x) .

Definition set_IngestTags (v : list Tag.t) (x : t) : t :=
  Build (Identifier x) (Title x) (Description x) (Access x) (Institution x)
        (AltIdentifier x) (IngestTarFilePath x) (IngestUntarredPath x) v.

(** models.NewIntellectualObject: every field at its zero value. *)
Definition New : t :=
  Build EmptyString EmptyString EmptyString EmptyString EmptyString EmptyString
        EmptyString EmptyString [].

End IntellectualObject.

Module GenericFile.

(** models.GenericFile (models/generic_file.go), the fields the validator
    reads or writes. Times are seconds, 0 being Go's zero time. *)
Record t : Type := Build {
  Identifier : string;
  IntellectualObjectIdentifier : string;
  FileFormat : string;
  Size : Z;
  FileModified : Z;
  IngestFileType : string;
  IngestLocalPath : string;
  IngestManifestMd5 : string;
  IngestMd5 : string;
  IngestMd5GeneratedAt : Z;
  IngestManifestSha256 : string;
  IngestSha256 : string;
  IngestSha256GeneratedAt : Z;
  IngestUUID : string;
  IngestUUIDGeneratedAt : Z;
  IngestPreviousVersionExists : bool;
  IngestNeedsSave : bool;
  IngestFileUid : Z;
  IngestFileGid : Z
}.

Definition set_Identifier (v : string) (x : t) : t :=
  Build v (IntellectualObjectIdentifier x) (FileFormat x) (Size x) (FileModified x)
        (IngestFileType x) (IngestLocalPath x) (IngestManifestMd5 x) (IngestMd5 x)
        (IngestMd5GeneratedAt x) (IngestManifestSha256 x) (IngestSha256 x)
        (IngestSha256GeneratedAt x) (IngestUUID x) (IngestUUIDGeneratedAt x)
        (IngestPreviousVersionExists x) (IngestNeedsSave x) (IngestFileUid x)
        (IngestFileGid x) .

Definition set_IntellectualObjectIdentifier (v : string) (x : t) : t :=
  Build (Identifier x) v (FileFormat x) (Size x) (FileModified x) (IngestFileType x)
        (IngestLocalPath x) (IngestManifestMd5 x) (IngestMd5 x)
        (IngestMd5GeneratedAt x) (IngestManifestSha256 x) (IngestSha256 x)
        (IngestSha256GeneratedAt x) (IngestUUID x) (IngestUUIDGeneratedAt x)
        (IngestPreviousVersionExists x) (IngestNeedsSave x) (IngestFileUid x)
        (IngestFileGid x) .

Definition set_FileFormat (v : string) (x : t) : t :=
  Build (Identifier x) (IntellectualObjectIdentifier x) v (Size x) (FileModified x)
        (IngestFileType x) (IngestLocalPath x) (IngestManifestMd5 x) (IngestMd5 x)
        (IngestMd5GeneratedAt x) (IngestManifestSha256 x) (IngestSha256 x)
        (IngestSha256GeneratedAt x) (IngestUUID x) (IngestUUIDGeneratedAt x)
        (IngestPreviousVersionExists x) (IngestNeedsSave x) (IngestFileUid x)
        (IngestFileGid x) .

Definition set_Size (v : Z) (x : t) : t :=
  Build (Identifier x) (IntellectualObjectIdentifier x) (FileFormat x) v
        (FileModified x) (IngestFileType x) (IngestLocalPath x)
        (IngestManifestMd5 x) (IngestMd5 x) (IngestMd5GeneratedAt x)
        (IngestManifestSha256 x) (IngestSha256 x) (IngestSha256GeneratedAt x)
        (IngestUUID x) (IngestUUIDGeneratedAt x) (IngestPreviousVersionExists x)
        (IngestNeedsSave x) (IngestFileUid x) (IngestFileGid x) .

Definition set_FileModified (v : Z) (x : t) : t :=
  Build (Identifier x) (IntellectualObjectIdentifier x) (FileFormat x) (Size x) v
        (IngestFileType x) (IngestLocalPath x) (IngestManifestMd5 x) (IngestMd5 x)
        (IngestMd5GeneratedAt x) (IngestManifestSha256 x) (IngestSha256 x)
        (IngestSha256GeneratedAt x) (IngestUUID x) (IngestUUIDGeneratedAt x)
        (IngestPreviousVersionExists x) (IngestNeedsSave x) (IngestFileUid x)
        (IngestFileGid x) .

Definition set_IngestFileType (v : string) (x : t) : t :=
  Build (Identifier x) (IntellectualObjectIdentifier x) (FileFormat x) (Size x)
        (FileModified x) v (IngestLocalPath x) (IngestManifestMd5 x) (IngestMd5 x)
        (IngestMd5GeneratedAt x) (IngestManifestSha256 x) (IngestSha256 x)
        (IngestSha256GeneratedAt x) (IngestUUID x) (IngestUUIDGeneratedAt x)
        (IngestPreviousVersionExists x) (IngestNeedsSave x) (IngestFileUid x)
        (IngestFileGid x) .

Definition set_IngestLocalPath (v : string) (x : t) : t :=
  Build (Identifier x) (IntellectualObjectIdentifier x) (FileFormat x) (Size x)
        (FileModified x) (IngestFileType x) v (IngestManifestMd5 x) (IngestMd5 x)
        (IngestMd5GeneratedAt x) (IngestManifestSha256 x) (IngestSha256 x)
        (IngestSha256GeneratedAt x) (IngestUUID x) (IngestUUIDGeneratedAt x)
        (IngestPreviousVersionExists x) (IngestNeedsSave x) (IngestFileUid x)
        (IngestFileGid x) .

Definition set_IngestManifestMd5 (v : string) (x : t) : t :=
  Build (Identifier x) (IntellectualObjectIdentifier x) (FileFormat x) (Size x)
        (FileModified x) (IngestFileType x) (IngestLocalPath x) v (IngestMd5 x)
        (IngestMd5GeneratedAt x) (IngestManifestSha256 x) (IngestSha256 x)
        (IngestSha256GeneratedAt x) (IngestUUID x) (IngestUUIDGeneratedAt x)
        (IngestPreviousVersionExists x) (IngestNeedsSave x) (IngestFileUid x)
        (IngestFileGid x) .

Definition set_IngestMd5 (v : string) (x : t) : t :=
  Build (Identifier x) (IntellectualObjectIdentifier x) (FileFormat x) (Size x)
        (FileModified x) (IngestFileType x) (IngestLocalPath x)
        (IngestManifestMd5 x) v (IngestMd5GeneratedAt x) (IngestManifestSha256 x)
        (IngestSha256 x) (IngestSha256GeneratedAt x) (IngestUUID x)
        (IngestUUIDGeneratedAt x) (IngestPreviousVersionExists x)
        (IngestNeedsSave x) (IngestFileUid x) (IngestFileGid x) .

Definition set_IngestMd5GeneratedAt (v : Z) (x : t) : t :=
  Build (Identifier x) (IntellectualObjectIdentifier x) (FileFormat x) (Size x)
        (FileModified x) (IngestFileType x) (IngestLocalPath x)
        (IngestManifestMd5 x) (IngestMd5 x) v (IngestManifestSha256 x)
        (IngestSha256 x) (IngestSha256GeneratedAt x) (IngestUUID x)
        (IngestUUIDGeneratedAt x) (IngestPreviousVersionExists x)
        (IngestNeedsSave x) (IngestFileUid x) (IngestFileGid x) .

Definition set_IngestManifestSha256 (v : string) (x : t) : t :=
  Build (Identifier x) (IntellectualObjectIdentifier x) (FileFormat x) (Size x)
        (FileModified x) (IngestFileType x) (IngestLocalPath x)
        (IngestManifestMd5 x) (IngestMd5 x) (IngestMd5GeneratedAt x) v
        (IngestSha256 x) (IngestSha256GeneratedAt x) (IngestUUID x)
        (IngestUUIDGeneratedAt x) (IngestPreviousVersionExists x)
        (IngestNeedsSave x) (IngestFileUid x) (IngestFileGid x) .

Definition set_IngestSha256 (v : string) (x : t) : t :=
  Build (Identifier x) (IntellectualObjectIdentifier x) (FileFormat x) (Size x)
        (FileModified x) (IngestFileType x) (IngestLocalPath x)
        (IngestManifestMd5 x) (IngestMd5 x) (IngestMd5GeneratedAt x)
        (IngestManifestSha256 x) v (IngestSha256GeneratedAt x) (IngestUUID x)
        (IngestUUIDGeneratedAt x) (IngestPreviousVersionExists x)
        (IngestNeedsSave x) (IngestFileUid x) (IngestFileGid x) .

Definition set_IngestSha256GeneratedAt (v : Z) (x : t) : t :=
  Build (Identifier x) (IntellectualObjectIdentifier x) (FileFormat x) (Size x)
        (FileModified x) (IngestFileType x) (IngestLocalPath x)
        (IngestManifestMd5 x) (IngestMd5 x) (IngestMd5GeneratedAt x)
        (IngestManifestSha256 x) (IngestSha256 x) v (IngestUUID x)
        (IngestUUIDGeneratedAt x) (IngestPreviousVersionExists x)
        (IngestNeedsSave x) (IngestFileUid x) (IngestFileGid x) .

Definition set_IngestUUID (v : string) (x : t) : t :=
  Build (Identifier x) (IntellectualObjectIdentifier x) (FileFormat x) (Size x)
        (FileModified x) (IngestFileType x) (IngestLocalPath x)
        (IngestManifestMd5 x) (IngestMd5 x) (IngestMd5GeneratedAt x)
        (IngestManifestSha256 x) (IngestSha256 x) (IngestSha256GeneratedAt x) v
        (IngestUUIDGeneratedAt x) (IngestPreviousVersionExists x)
        (IngestNeedsSave x) (IngestFileUid x) (IngestFileGid x) .

Definition set_IngestUUIDGeneratedAt (v : Z) (x : t) : t :=
  Build (Identifier x) (IntellectualObjectIdentifier x) (FileFormat x) (Size x)
        (FileModified x) (IngestFileType x) (IngestLocalPath x)
        (IngestManifestMd5 x) (IngestMd5 x) (IngestMd5GeneratedAt x)
        (IngestManifestSha256 x) (IngestSha256 x) (IngestSha256GeneratedAt x)
        (IngestUUID x) v (IngestPreviousVersionExists x) (IngestNeedsSave x)
        (IngestFileUid x) (IngestFileGid x) .

Definition set_IngestFileUid (v : Z) (x : t) : t :=
  Build (Identifier x) (IntellectualObjectIdentifier x) (FileFormat x) (Size x)
        (FileModified x) (IngestFileType x) (IngestLocalPath x)
        (IngestManifestMd5 x) (IngestMd5 x) (IngestMd5GeneratedAt x)
        (IngestManifestSha256 x) (IngestSha256 x) (IngestSha256GeneratedAt x)
        (IngestUUID x) (IngestUUIDGeneratedAt x) (IngestPreviousVersionExists x)
        (IngestNeedsSave x) v (IngestFileGid x) .

Definition set_IngestFileGid (v : Z) (x : t) : t :=
  Build (Identifier x) (IntellectualObjectIdentifier x) (FileFormat x) (Size x)
        (FileModified x) (IngestFileType x) (IngestLocalPath x)
        (IngestManifestMd5 x) (IngestMd5 x) (IngestMd5GeneratedAt x)
        (IngestManifestSha256 x) (IngestSha256 x) (IngestSha256GeneratedAt x)
        (IngestUUID x) (IngestUUIDGeneratedAt x) (IngestPreviousVersionExists x)
        (IngestNeedsSave x) (IngestFileUid x) v.

(** NewGenericFile: zero values, IngestPreviousVersionExists false and
    IngestNeedsSave true. *)
Definition New : t :=
  Build EmptyString EmptyString EmptyString 0 0 EmptyString EmptyString
        EmptyString EmptyString 0 EmptyString EmptyString 0
        EmptyString 0 false true 0 0.

End GenericFile.

(* ===================================================================== *)
(* validation/validator.go                                               *)
(* ===================================================================== *)

Module Fileutil.

(** Modelled from the spec: the fileutil package is not among the sources.
    A FileSummary carries the relative path, the absolute path (empty for
    tar), the size, the modification time, owner and group ids and the
    regular-file flag. *)
Record FileSummary : Type := Build {
  RelPath : string;
  AbsPath : string;
  IsRegularFile : bool;
  Size : Z;
  ModTime : Z;
  Uid : Z;
  Gid : Z
}.

(** What one call of ReadIterator.Next() gives before the end of the bag:
    an entry with the bytes its reader holds, or an error other than io.EOF
    with its message. After the last item Next() returns io.EOF. *)
Inductive IterItem : Type :=
| Entry (fs : FileSummary) (content : string)
| NextError (msg : string).

End Fileutil.

Module Validation.

Import Fileutil.

(** Modelled from the spec: the storage package (BoltDB) is not among the
    sources. The side-index is a key-value store of serialized records, keyed
    by the object identifier and by each file identifier; get returns the
    record or absent, save overwrites and is durable on return. Reading a key
    as the other kind of record is an error. *)
Inductive DbRecord : Type :=
| ObjRecord (o : IntellectualObject.t)
| FileRecord (gf : GenericFile.t).

(** A Go call either returns or panics. *)
Inductive Outcome (A : Type) : Type :=
| Returned (a : A)
| Panicked (msg : string).
Arguments Returned {A} a.
Arguments Panicked {A} msg.

Definition nilDereference : string :=
  "runtime error: invalid memory address or nil pointer dereference".

(** The fields of Validator that NewValidator fixes. *)
Record Validator : Type := BuildValidator {
  PathToBag : string;
  PreserveExtendedAttributes : bool;
  objIdentifier : string;
  tagFilesToParse : list string;
  calculateMd5 : bool;
  calculateSha256 : bool
}.

(** The fields of Validator that validation mutates, with the contents of
    the side-index behind validator.db and the number of UUIDs drawn. *)
Record State : Type := BuildState {
  summary : WorkSummary.t;
  manifests : list string;
  tagManifests : list string;
  db : gmap string DbRecord;
  uuids : nat
}.

Definition M (A : Type) : Type := State -> Outcome (A * State).

Definition ret {A : Type} (a : A) : M A := fun st => Returned (a, st).

Definition bind {A B : Type} (c : M A) (k : A -> M B) : M B :=
  fun st =>
    match c st with
    | Returned (a, st') => k a st'
    | Panicked msg => Panicked msg
    end.

Definition panic {A : Type} (msg : string) : M A := fun _ => Panicked msg.

Notation "x <- c ;; k" := (bind c (fun x => k))
  (at level 100, c at next level, right associativity).
Notation "c ;;; k" := (bind c (fun _ => k))
  (at level 100, right associativity).

(** validator.summary.AddError, [msg] being the formatted message. *)
Definition AddError (msg : string) : M unit :=
  fun st => Returned (tt, BuildState (WorkSummary.AddError msg (summary st))
                                     (manifests st) (tagManifests st) (db st) (uuids st)).

Definition HasErrors : M bool :=
  fun st => Returned (WorkSummary.HasErrors (summary st), st).

Definition updSummary (f : WorkSummary.t -> WorkSummary.t) : M unit :=
  fun st => Returned (tt, BuildState (f (summary st)) (manifests st) (tagManifests st)
                                     (db st) (uuids st)).

(** db.Save(key, record). The store of the model never fails, so the
    branches of the source on a save error are not taken. *)
Definition Save (key : string) (r : DbRecord) : M unit :=
  fun st => Returned (tt, BuildState (summary st) (manifests st) (tagManifests st)
                                     (<[key := r]> (db st)) (uuids st)).

(** db.GetGenericFile(key): (nil, nil) when the key is absent. *)
Definition GetGenericFile (key : string) : M (Result (option GenericFile.t)) :=
  fun st =>
    match db st !! key with
    | None => Returned (Ok None, st)
    | Some (FileRecord gf) => Returned (Ok (Some gf), st)
    | Some (ObjRecord _) => Returned (Err "record is not a GenericFile", st)
    end.

(** db.GetIntellectualObject(key). *)
Definition GetIntellectualObject (key : string) : M (Result (option IntellectualObject.t)) :=
  fun st =>
    match db st !! key with
    | None => Returned (Ok None, st)
    | Some (ObjRecord o) => Returned (Ok (Some o), st)
    | Some (FileRecord _) => Returned (Err "record is not an IntellectualObject", st)
    end.

Definition appendManifest (p : string) : M unit :=
  fun st => Returned (tt, BuildState (summary st) (manifests st ++ [p]) (tagManifests st)
                                     (db st) (uuids st)).

Definition appendTagManifest (p : string) : M unit :=
  fun st => Returned (tt, BuildState (summary st) (manifests st) (tagManifests st ++ [p])
                                     (db st) (uuids st)).

Definition getManifests : M (list string) := fun st => Returned (manifests st, st).
Definition getTagManifests : M (list string) := fun st => Returned (tagManifests st, st).

Section Validator.

(** The surroundings: the clock, the UUID generator (the n-th UUID drawn),
    and platform.GuessMimeTypeByBuffer, which is not among the sources. *)
Variable now : Z.
Variable NewV4 : nat -> string.
Variable GuessMimeTypeByBuffer : string -> string * option string.

Variable validator : Validator.

Definition drawUUID : M string :=
  fun st => Returned (NewV4 (uuids st),
                      BuildState (summary st) (manifests st) (tagManifests st)
                                 (db st) (S (uuids st))).

Definition VALIDATION_DB_SUFFIX : string := ".valdb".

(** DBName: the bag path without a .tar suffix and without one trailing
    path separator, followed by .valdb. *)
Definition DBName : string :=
  let bagPath := PathToBag validator in
  let bagPath :=
    if Go.HasSuffix bagPath ".tar"
    then String.substring 0 (String.length bagPath - 4) bagPath else bagPath in
  let bagPath :=
    if Go.HasSuffix bagPath "/"
    then String.substring 0 (String.length bagPath - 1) bagPath else bagPath in
  bagPath ++ VALIDATION_DB_SUFFIX.

(** initIntellectualObject. *)
Definition initIntellectualObject : M (Result IntellectualObject.t) :=
  let obj := IntellectualObject.set_Identifier (objIdentifier validator)
               IntellectualObject.New in
  let obj :=
    if Go.HasSuffix (PathToBag validator) ".tar"
    then IntellectualObject.set_IngestTarFilePath (PathToBag validator) obj
    else IntellectualObject.set_IngestUntarredPath (PathToBag validator) obj in
  Save (IntellectualObject.Identifier obj) (ObjRecord obj) ;;;
  ret (Ok obj).

(** getIntellectualObject. *)
Definition getIntellectualObject : M (Result IntellectualObject.t) :=
  r <- GetIntellectualObject (objIdentifier validator) ;;
  match r with
  | Err e => ret (Err e)
  | Ok None => initIntellectualObject
  | Ok (Some obj) => ret (Ok obj)
  end.

(** calculateChecksums(reader, gf). The reader is the text not yet read;
    io.Copy reads all of it. The result is the reader afterwards and the
    GenericFile; the returned error is always nil. *)
Definition calculateChecksums (reader : string) (gf : GenericFile.t)
  : string * GenericFile.t :=
  let hashes := (if calculateMd5 validator then 1 else 0)
                + (if calculateSha256 validator then 1 else 0) in
  if 0 <? hashes then
    let utcNow := now in
    let gf :=
      if calculateMd5 validator then
        let gf := GenericFile.set_IngestMd5 (Hash.md5_hex reader) gf in
        if PreserveExtendedAttributes validator
        then GenericFile.set_IngestMd5GeneratedAt utcNow gf else gf
      else gf in
    let gf :=
      if calculateSha256 validator then
        let gf := GenericFile.set_IngestSha256 (Hash.sha256_hex reader) gf in
        if PreserveExtendedAttributes validator
        then GenericFile.set_IngestSha256GeneratedAt utcNow gf else gf
      else gf in
    (EmptyString, gf)
  else (reader, gf).

(** setFileType. *)
Definition setFileType (gf : GenericFile.t) (fs : FileSummary) : M GenericFile.t :=
  if Go.HasPrefix (RelPath fs) "tagmanifest-" then
    appendTagManifest (RelPath fs) ;;;
    ret (GenericFile.set_FileFormat "text/plain"
           (GenericFile.set_IngestFileType Constants.TAG_MANIFEST gf))
  else if Go.HasPrefix (RelPath fs) "manifest-" then
    appendManifest (RelPath fs) ;;;
    ret (GenericFile.set_FileFormat "text/plain"
           (GenericFile.set_IngestFileType Constants.PAYLOAD_MANIFEST gf))
  else if Go.HasPrefix (RelPath fs) "data/" then
    ret (GenericFile.set_IngestFileType Constants.PAYLOAD_FILE gf)
  else
    ret (GenericFile.set_IngestFileType Constants.TAG_FILE gf).

(** addFile: the error it returns, if any. *)
Definition addFile (item : IterItem) : M (option string) :=
  match item with
  | NextError e => ret (Some e)
  | Entry fs content =>
      if negb (IsRegularFile fs) then ret None
      else
        let gf := GenericFile.set_Identifier
                    (objIdentifier validator ++ "/" ++ RelPath fs) GenericFile.New in
        gf <- setFileType gf fs ;;
        gf <- (if PreserveExtendedAttributes validator then
                 _uuid <- drawUUID ;;
                 ret (GenericFile.set_IngestFileGid (Gid fs)
                     (GenericFile.set_IngestFileUid (Uid fs)
                     (GenericFile.set_IngestUUIDGeneratedAt now
                     (GenericFile.set_IngestUUID _uuid
                     (GenericFile.set_IngestLocalPath (AbsPath fs)
                     (GenericFile.set_FileModified (ModTime fs)
                     (GenericFile.set_Size (Size fs)
                     (GenericFile.set_IntellectualObjectIdentifier
                        (objIdentifier validator) gf))))))))
               else ret gf) ;;
        let '(_, gf) := calculateChecksums content gf in
        Save (GenericFile.Identifier gf) (FileRecord gf) ;;;
        ret None
  end.

(** The loop of addFiles over what the iterator yields. The listing is
    finite and ends in io.EOF; an iterator that never returns EOF keeps the
    loop of the source running and has no listing. The message of an error
    is handed to AddError as its format, with no operands. *)
Fixpoint addFilesLoop (items : list IterItem) : M unit :=
  match items with
  | [] => ret tt
  | item :: rest =>
      err <- addFile item ;;
      match err with
      | Some e =>
          if String.eqb e "EOF" then ret tt
          else AddError (Go.Sprintf e) ;;; addFilesLoop rest
      | None => addFilesLoop rest
      end
  end.

(** addFiles; [bag] is what getIterator returns. *)
Definition addFiles (bag : Result (list IterItem)) : M unit :=
  match bag with
  | Err e => AddError ("Error getting file iterator: " ++ e)
  | Ok items => addFilesLoop items
  end.

(** setIntelObjTagValue. *)
Definition setIntelObjTagValue (obj : IntellectualObject.t) (tag : Tag.t)
  : IntellectualObject.t :=
  let label := Go.ToLower (Tag.Label tag) in
  if String.eqb (Tag.SourceFile tag) "aptrust-info.txt" then
    if String.eqb label "title" then IntellectualObject.set_Title (Tag.Value tag) obj
    else if String.eqb label "access" then IntellectualObject.set_Access (Tag.Value tag) obj
    else obj
  else if String.eqb (Tag.SourceFile tag) "bag-info.txt" then
    if String.eqb label "source-organization"
    then IntellectualObject.set_Institution (Tag.Value tag) obj
    else if String.eqb label "internal-sender-description"
    then IntellectualObject.set_Description (Tag.Value tag) obj
    else if String.eqb label "internal-sender-identifier"
    then IntellectualObject.set_AltIdentifier (Tag.Value tag) obj
    else obj
  else obj.

Definition appendTag (obj : IntellectualObject.t) (tag : Tag.t) : IntellectualObject.t :=
  IntellectualObject.set_IngestTags (IntellectualObject.IngestTags obj ++ [tag]) obj.

(** One round of the scanner loop of parseTags on [line]; the loop variables
    are obj and tag, a nil tag being [None]. *)
Definition parseTagLine (relFilePath : string)
    (vars : IntellectualObject.t * option Tag.t) (line : string)
  : M (IntellectualObject.t * option Tag.t) :=
  let '(obj, tag) := vars in
  if Go.isBlank line then ret (obj, tag)
  else
    match Go.tagLineMatch line with
    | Some (data1, data2) =>
        let data1 := Go.ReplaceFirstColon data1 in
        if negb (Go.is_empty data1) then
          let obj :=
            match tag with
            | Some t => if negb (Go.is_empty (Tag.Label t)) then appendTag obj t else obj
            | None => obj
            end in
          let t := Tag.New relFilePath data1 (Go.Trim data2) in
          ret (setIntelObjTagValue obj t, Some t)
        else
          let value := Go.Trim data2 in
          match tag with
          | None => panic nilDereference
          | Some t =>
              let t := Tag.set_Value (Go.Join [Tag.Value t; value] " ") t in
              ret (setIntelObjTagValue obj t, Some t)
          end
    | None =>
        AddError ("Unable to parse tag data from line: '" ++ line ++ "'") ;;;
        ret (obj, tag)
    end.

Fixpoint parseTagLines (relFilePath : string)
    (vars : IntellectualObject.t * option Tag.t) (lines : list string)
  : M (IntellectualObject.t * option Tag.t) :=
  match lines with
  | [] => ret vars
  | line :: rest =>
      vars <- parseTagLine relFilePath vars line ;;
      parseTagLines relFilePath vars rest
  end.

(** parseTags(reader, relFilePath). *)
Definition parseTags (reader : string) (relFilePath : string) : M unit :=
  r <- getIntellectualObject ;;
  match r with
  | Err e => AddError ("Error getting IntelObj from validation db: " ++ e)
  | Ok obj =>
      let '(lines, scanErr) := Go.ScanLines reader in
      vars <- parseTagLines relFilePath (obj, None) lines ;;
      let '(obj, tag) := vars in
      match tag with
      | None => panic nilDereference
      | Some t =>
          let obj := if negb (Go.is_empty (Tag.Label t)) then appendTag obj t else obj in
          (if scanErr
           then AddError ("Error reading tag file '" ++ relFilePath
                          ++ "': bufio.Scanner: token too long")
           else ret tt) ;;;
          Save (objIdentifier validator) (ObjRecord obj)
      end
  end.

(** The body of the scanner loop of parseManifest for one line of the
    manifest at [relPath], [alg] being the manifest's algorithm. *)
Definition parseManifestLine (alg : string) (relPath : string) (line : string) : M unit :=
  if Go.isBlank line then ret tt
  else
    let '(digest, filePath) := Go.manifestLineMatch line in
    let gfIdentifier := objIdentifier validator ++ "/" ++ relPath in
    r <- GetGenericFile filePath ;;
    (match r with
     | Err _ => AddError ("Error finding generic file '" ++ gfIdentifier
                          ++ "' in db: %!v(MISSING)")
     | Ok _ => ret tt
     end) ;;;
    match r with
    | Ok (Some genericFile) =>
        if String.eqb alg Constants.AlgMd5 then
          Save gfIdentifier (FileRecord (GenericFile.set_IngestManifestMd5 digest genericFile))
        else if String.eqb alg Constants.AlgSha256 then
          Save gfIdentifier (FileRecord (GenericFile.set_IngestManifestSha256 digest genericFile))
        else ret tt
    | _ =>
        AddError ("File '" ++ filePath ++ "' in manifest '" ++ relPath
                  ++ "' is missing from bag")
    end.

Fixpoint parseManifestLines (alg relPath : string) (lines : list string) : M unit :=
  match lines with
  | [] => ret tt
  | line :: rest =>
      parseManifestLine alg relPath line ;;; parseManifestLines alg relPath rest
  end.

(** parseManifest(reader, fileSummary). A manifest of another algorithm is
    only reported on standard error. The scanner's error is not looked at. *)
Definition parseManifest (reader : string) (fs : FileSummary) : M unit :=
  if Go.Contains (RelPath fs) Constants.AlgSha256 then
    parseManifestLines Constants.AlgSha256 (RelPath fs) (fst (Go.ScanLines reader))
  else if Go.Contains (RelPath fs) Constants.AlgMd5 then
    parseManifestLines Constants.AlgMd5 (RelPath fs) (fst (Go.ScanLines reader))
  else ret tt.

Definition wrap64 (x : Z) : Z :=
  (x + 9223372036854775808) mod 18446744073709551616 - 9223372036854775808.

(** The largest slice make([]byte, n) allocates on a 64-bit platform. *)
Definition maxAlloc : Z := 281474976710656.

(** reader.Read(buf) on a buffer of [n] >= 1 zero bytes: the buffer
    afterwards, and io.EOF when the reader holds nothing. *)
Definition readBuffer (reader : string) (n : Z) : string * option string :=
  let got := String.substring 0 (Z.to_nat n) reader in
  let fill := string_of_list_ascii
                (repeat zero (Z.to_nat n - String.length got)) in
  (got ++ fill, if Go.is_empty reader then Some "EOF" else None).

(** setMimeType(reader, gf): the GenericFile in memory afterwards. The
    message of an error is handed to AddError as its format. *)
Definition setMimeType (reader : string) (gf : GenericFile.t) : M GenericFile.t :=
  let bufLen := if GenericFile.Size gf <? 128
                then wrap64 (GenericFile.Size gf - 1) else 128 in
  if (GenericFile.Size gf <? 128) && (bufLen <? 1) then
    ret (GenericFile.set_FileFormat "text/empty" gf)
  else if maxAlloc <? bufLen then
    panic "runtime error: makeslice: len out of range"
  else
    let '(buf, err) := readBuffer reader bufLen in
    (match err with Some e => AddError (Go.Sprintf e) | None => ret tt end) ;;;
    let '(format, err) := GuessMimeTypeByBuffer buf in
    (match err with Some e => AddError (Go.Sprintf e) | None => ret tt end) ;;;
    ret (GenericFile.set_FileFormat format gf).

(** parseOrSetMimeType(reader, gf, fileSummary), called with a non-nil gf:
    the GenericFile in memory afterwards. *)
Definition parseOrSetMimeType (reader : string) (gf : GenericFile.t) (fs : FileSummary)
  : M GenericFile.t :=
  ms <- getManifests ;;
  tms <- getTagManifests ;;
  let parseAsTagFile := Go.StringListContains (tagFilesToParse validator) (RelPath fs) in
  let parseAsManifest := Go.StringListContains ms (RelPath fs)
                         || Go.StringListContains tms (RelPath fs) in
  let weCareAboutMimeTypes := PreserveExtendedAttributes validator in
  if parseAsTagFile then
    parseTags reader (RelPath fs) ;;;
    if weCareAboutMimeTypes then
      if Go.HasSuffix (GenericFile.Identifier gf) ".txt"
      then ret (GenericFile.set_FileFormat "text/plain" gf)
      else ret (GenericFile.set_FileFormat "application/binary" gf)
    else ret gf
  else if parseAsManifest then
    parseManifest reader fs ;;; ret gf
  else if weCareAboutMimeTypes then
    setMimeType reader gf
  else ret gf.

(** The loop of parseManifestsTagFilesAndMimeTypes. The GenericFile that
    parseOrSetMimeType changes is the copy read from the side-index; the
    loop does not save it back. The message of an iterator error is handed
    to AddError as its format. *)
Fixpoint secondPassLoop (items : list IterItem) : M unit :=
  match items with
  | [] => ret tt
  | NextError e :: rest => AddError (Go.Sprintf e) ;;; secondPassLoop rest
  | Entry fs content :: rest =>
      let gfIdentifier := objIdentifier validator ++ "/" ++ RelPath fs in
      r <- GetGenericFile gfIdentifier ;;
      match r with
      | Err e =>
          AddError ("Error finding '" ++ gfIdentifier ++ "' in validation db: " ++ e) ;;;
          secondPassLoop rest
      | Ok None =>
          AddError ("Cannot find '" ++ gfIdentifier ++ "' in validation db") ;;;
          secondPassLoop rest
      | Ok (Some gf) =>
          parseOrSetMimeType content gf fs ;;; secondPassLoop rest
      end
  end.

(** parseManifestsTagFilesAndMimeTypes, on a second iterator. *)
Definition parseManifestsTagFilesAndMimeTypes (bag : Result (list IterItem)) : M unit :=
  match bag with
  | Err e => AddError ("Error getting file iterator: " ++ e)
  | Ok items => secondPassLoop items
  end.

(** readBag. getIterator is called once for each pass and gives the same
    listing of the bag both times. *)
Definition readBag (bag : Result (list IterItem)) : M unit :=
  r <- getIntellectualObject ;;
  match r with
  | Err e => AddError ("Could not init object: " ++ e)
  | Ok _ =>
      addFiles bag ;;;
      errs <- HasErrors ;;
      if errs then ret tt
      else parseManifestsTagFilesAndMimeTypes bag
  end.

Definition openDB (contents : gmap string DbRecord) : M unit :=
  fun st => Returned (tt, BuildState (summary st) (manifests st) (tagManifests st)
                                     contents (uuids st)).

(** Validate. [boltDB] is what storage.NewBoltDB(DBName()) gives: an error,
    or the store with the records the file already holds. The block after
    readBag that is guarded by !HasErrors() is empty in the source. *)
Definition Validate (boltDB : Result (gmap string DbRecord))
    (bag : Result (list IterItem)) : M (Result WorkSummary.t) :=
  match boltDB with
  | Err e => ret (Err e)
  | Ok contents =>
      openDB contents ;;;
      updSummary (WorkSummary.Start now) ;;;
      updSummary (WorkSummary.set_Attempted true) ;;;
      updSummary (fun s => WorkSummary.set_AttemptNumber (WorkSummary.AttemptNumber s + 1) s) ;;;
      readBag bag ;;;
      errs <- HasErrors ;;
      (if negb errs then ret tt else ret tt) ;;;
      updSummary (WorkSummary.Finish now) ;;;
      fun st => Returned (Ok (summary st), st)
  end.

End Validator.

(** The mutable fields as NewValidator leaves them. *)
Definition newState : State := BuildState WorkSummary.New [] [] ∅ O.

End Validation.

(* ===================================================================== *)
(* network/s3_upload.go                                                  *)
(* ===================================================================== *)

Module Network.

(** s3manager.UploadOutput, with the field callers read. *)
Record UploadOutput : Type := BuildOutput { Location : string }.

(** S3Upload. The AWS session is known by its region; the upload input by
    bucket, key, content type, metadata and, once Send has set it, the body. *)
Record UploadInput : Type := BuildInput {
  Bucket : string;
  Key : string;
  ContentType : string;
  Metadata : gmap string string;
  Body : option string
}.

Record S3Upload : Type := BuildUpload {
  AWSRegion : string;
  LocalPath : string;
  ErrorMessage : string;
  Input : UploadInput;
  Response : option UploadOutput;
  session : option string
}.

(** NewS3Upload(region, bucket, key, localPath, contentType). *)
Definition NewS3Upload (region bucket key localPath contentType : string) : S3Upload :=
  BuildUpload region localPath EmptyString
              (BuildInput bucket key contentType ∅ None) None None.

(** AddMetadata(key, value). *)
Definition AddMetadata (key value : string) (client : S3Upload) : S3Upload :=
  let i := Input client in
  BuildUpload (AWSRegion client) (LocalPath client) (ErrorMessage client)
              (BuildInput (Bucket i) (Key i) (ContentType i)
                          (<[key := value]> (Metadata i)) (Body i))
              (Response client) (session client).

Section Upload.

(** The surroundings of an upload: os.Open on a path (the file's bytes or an
    error), GetS3Session on a region (a session pointer, possibly nil, and an
    error, possibly nil) and uploader.Upload (likewise). *)
Variable os_Open : string -> Result string.
Variable GetS3Session : string -> option string * option string.
Variable Upload : string -> UploadInput -> option UploadOutput * option string.

(** GetSession. The error variable is declared, tested while it is still
    nil, and only then assigned by the call to GetS3Session; the test cannot
    succeed and the assigned error is not looked at. *)
Definition GetSession (client : S3Upload) : S3Upload * option string :=
  match session client with
  | None =>
      let err : option string := None in
      let client :=
        match err with
        | Some e => BuildUpload (AWSRegion client) (LocalPath client) e (Input client)
                                (Response client) (session client)
        | None => client
        end in
      let '(s, _) := GetS3Session (AWSRegion client) in
      (BuildUpload (AWSRegion client) (LocalPath client) (ErrorMessage client)
                   (Input client) (Response client) s, s)
  | Some s => (client, Some s)
  end.

(** Send. *)
Definition Send (client : S3Upload) : S3Upload :=
  match os_Open (LocalPath client) with
  | Err e =>
      BuildUpload (AWSRegion client) (LocalPath client) e (Input client)
                  (Response client) (session client)
  | Ok file =>
      let '(client, _session) := GetSession client in
      match _session with
      | None => client
      | Some s =>
          let i := Input client in
          let input := BuildInput (Bucket i) (Key i) (ContentType i) (Metadata i) (Some file) in
          let '(response, err) := Upload s input in
          BuildUpload (AWSRegion client) (LocalPath client)
                      (match err with Some e => e | None => ErrorMessage client end)
                      input response (session client)
      end
  end.

End Upload.

End Network.

(* ===================================================================== *)
(* The Glacier restore-init stage                                        *)
(* ===================================================================== *)

Module WorkItem.

(** Modelled from the spec: models.WorkItem and the constants package are not
    among the sources. The spec gives the actions and statuses of a work
    item; the fields are the ones the test of the stage fills in. *)
Inductive action : Type :=
| ActionIngest | ActionRestore | ActionDelete | ActionGlacierRestore
| ActionPeerIngest | ActionPeerReplicate.

Inductive stage : Type :=
| StageRequested | StageFetch | StageStore | StageRecord | StageCleanup.

Inductive status : Type :=
| StatusPending | StatusStarted | StatusSuccess | StatusFailed | StatusCancelled.

Record t : Type := Build {
  Id : Z;
  ObjectIdentifier : string;
  GenericFileIdentifier : string;
  Name : string;
  Bucket : string;
  ETag : string;
  Size : Z;
  BagDate : Z;
  InstitutionId : Z;
  User : string;
  Date : Z;
  Note : string;
  Action : action;
  Stage : stage;
  Status : status;
  Outcome : string;
  Retry : bool;
  Node : string;
  Pid : Z;
  NeedsAdminReview : bool
}.

Definition set_Note (v : string) (x : t) : t :=
  Build (Id x) (ObjectIdentifier x) (GenericFileIdentifier x) (Name x)
        (Bucket x) (ETag x) (Size x) (BagDate x) (InstitutionId x) (User x)
        (Date x) v (Action x) (Stage x) (Status x) (Outcome x) (Retry x)
        (Node x) (Pid x) (NeedsAdminReview x).

Definition set_Status (v : status) (x : t) : t :=
  Build (Id x) (ObjectIdentifier x) (GenericFileIdentifier x) (Name x)
        (Bucket x) (ETag x) (Size x) (BagDate x) (InstitutionId x) (User x)
        (Date x) (Note x) (Action x) (Stage x) v (Outcome x) (Retry x)
        (Node x) (Pid x) (NeedsAdminReview x).

Definition set_Retry (v : bool) (x : t) : t :=
  Build (Id x) (ObjectIdentifier x) (GenericFileIdentifier x) (Name x)
        (Bucket x) (ETag x) (Size x) (BagDate x) (InstitutionId x) (User x)
        (Date x) (Note x) (Action x) (Stage x) (Status x) (Outcome x) v
        (Node x) (Pid x) (NeedsAdminReview x).

Definition set_NeedsAdminReview (v : bool) (x : t) : t :=
  Build (Id x) (ObjectIdentifier x) (GenericFileIdentifier x) (Name x)
        (Bucket x) (ETag x) (Size x) (BagDate x) (InstitutionId x) (User x)
        (Date x) (Note x) (Action x) (Stage x) (Status x) (Outcome x)
        (Retry x) (Node x) (Pid x) v.

End WorkItem.

Module Glacier.

(** time.Minute and time.Hour, in nanoseconds. *)
Definition Minute : Z := 60000000000.
Definition Hour : Z := 60 * Minute.

(** What the stage did with its queue message, as the test's delegate
    records it. *)
Inductive Operation : Type :=
| OpNone
| OpFinish
| OpRequeue (delay : Z)
| OpTouch.

(** Modelled from the spec: models.GlacierRestoreRequest is not among the
    sources. The per-file record: file identifier, target bucket, target key,
    requested-at, request-accepted, is-available-in-primary,
    someone-else-requested, estimated-deletion-from-primary, last-checked. *)
Record GlacierRestoreRequest : Type := BuildRequest {
  GenericFileIdentifier : string;
  GlacierBucket : string;
  GlacierKey : string;
  RequestedAt : Z;
  RequestAccepted : bool;
  IsAvailableInS3 : bool;
  SomeoneElseRequested : bool;
  EstimatedDeletionFromS3 : Z;
  LastChecked : Z
}.

(** Modelled from the spec: models.GlacierRestoreState is not among the
    sources. The state of one pass: the work item, its summary, the per-file
    requests, what was done with the queue message, and the work items
    created in the registry. *)
Record GlacierRestoreState : Type := BuildState {
  WorkItem : WorkItem.t;
  WorkSummary : WorkSummary.t;
  Requests : list GlacierRestoreRequest;
  Message : Operation;
  Created : list WorkItem.t
}.

(** Modelled from the spec: the stage worker
    (workers/apt_glacier_restore_init.go) is not among the sources. fail-fatal
    sets status=failed, retry=false, needs-admin-review=true and acknowledges
    the message; the note carries the full concatenated error list. *)
Definition FinishWithError (state : GlacierRestoreState) : GlacierRestoreState :=
  let item := WorkItem state in
  let item := WorkItem.set_Note (WorkSummary.AllErrorsAsString (WorkSummary state)) item in
  let item := WorkItem.set_Status WorkItem.StatusFailed item in
  let item := WorkItem.set_Retry false item in
  let item := WorkItem.set_NeedsAdminReview true item in
  BuildState item (WorkSummary state) (Requests state) OpFinish (Created state).

(** Modelled from the spec: the stage worker is not among the sources.
    requeue(1 minute) for more requests to make; note, status, retry and
    needs-admin-review as TestRequeueForAdditionalRequests expects them. *)
Definition RequeueForAdditionalRequests (state : GlacierRestoreState) : GlacierRestoreState :=
  let item := WorkItem state in
  let item := WorkItem.set_Note "Requeued to make additional Glacier restore requests." item in
  let item := WorkItem.set_Status WorkItem.StatusStarted item in
  let item := WorkItem.set_Retry true item in
  let item := WorkItem.set_NeedsAdminReview false item in
  BuildState item (WorkSummary state) (Requests state) (OpRequeue (1 * Minute))
             (Created state).

(** Modelled from the spec: the stage worker is not among the sources.
    requeue(2 hours) while waiting on the cold tier; note, status, retry and
    needs-admin-review as TestRequeueToCheckState expects them. *)
Definition RequeueToCheckState (state : GlacierRestoreState) : GlacierRestoreState :=
  let item := WorkItem state in
  let item := WorkItem.set_Note "Requeued to check on status of Glacier restore requests." item in
  let item := WorkItem.set_Status WorkItem.StatusStarted item in
  let item := WorkItem.set_Retry true item in
  let item := WorkItem.set_NeedsAdminReview false item in
  BuildState item (WorkSummary state) (Requests state) (OpRequeue (2 * Hour))
             (Created state).

(** Modelled from the spec: the stage worker is not among the sources. The
    downstream restore WorkItem (action=restore, stage=requested,
    status=pending, retry) copies the identifying fields that
    TestCreateRestoreWorkItem compares; the message is finished with
    status=success. *)
Definition CreateRestoreWorkItem (state : GlacierRestoreState) : GlacierRestoreState :=
  let item := WorkItem state in
  let restore :=
    WorkItem.Build 0 (WorkItem.ObjectIdentifier item) (WorkItem.GenericFileIdentifier item)
                   (WorkItem.Name item) (WorkItem.Bucket item) (WorkItem.ETag item)
                   (WorkItem.Size item) (WorkItem.BagDate item)
                   (WorkItem.InstitutionId item) (WorkItem.User item) 0 EmptyString
                   WorkItem.ActionRestore WorkItem.StageRequested WorkItem.StatusPending
                   EmptyString true EmptyString 0 false in
  BuildState (WorkItem.set_Status WorkItem.StatusSuccess item) (WorkSummary state)
             (Requests state) OpFinish (Created state ++ [restore]).

Definition allAvailable (reqs : list GlacierRestoreRequest) : bool :=
  forallb IsAvailableInS3 reqs.

Definition anyToBeMade (reqs : list GlacierRestoreRequest) : bool :=
  existsb (fun r => negb (RequestAccepted r)) reqs.

(** Modelled from the spec: the stage worker is not among the sources. After
    scanning all files: if every request is available-in-primary, create the
    restore WorkItem and finish; if any request still needs to be made,
    requeue(1 minute); otherwise requeue(2 hours). *)
Definition Cleanup (state : GlacierRestoreState) : GlacierRestoreState :=
  if allAvailable (Requests state) then CreateRestoreWorkItem state
  else if anyToBeMade (Requests state) then RequeueForAdditionalRequests state
  else RequeueToCheckState state.

(** The object store's answers: to restoreColdTier, and to HEAD on a
    cold-tier object (restore pending, or completed with the estimated
    deletion from primary). *)
Inductive RestoreResponse : Type :=
| RestoreAccepted | RestoreRejected | RestoreAlreadyInProgress.

Inductive HeadResponse : Type :=
| HeadInProgress | HeadCompleted (estimatedDeletion : Z).

Record Store : Type := BuildStore {
  restoreColdTier : string -> string -> RestoreResponse;
  head : string -> string -> HeadResponse
}.

(** A target file with the bucket and key that step 1 determined from its
    storage option. *)
Record Target : Type := BuildTarget {
  identifier : string;
  bucket : string;
  key : string
}.

(** FindRequest: the first record of the file, if any. *)
Definition FindRequest (reqs : list GlacierRestoreRequest) (id : string)
  : option GlacierRestoreRequest :=
  find (fun r => String.eqb (GenericFileIdentifier r) id) reqs.

(** Step 2: read the per-file request record, create it if absent. *)
Definition GetRequestRecord (reqs : list GlacierRestoreRequest) (t : Target)
  : GlacierRestoreRequest :=
  match FindRequest reqs (identifier t) with
  | Some r => r
  | None => BuildRequest (identifier t) (bucket t) (key t) 0 false false false 0 0
  end.

(** The records with [r] in place of the file's first record, or appended. *)
Fixpoint putRequest (r : GlacierRestoreRequest) (reqs : list GlacierRestoreRequest)
  : list GlacierRestoreRequest :=
  match reqs with
  | [] => [r]
  | q :: rest =>
      if String.eqb (GenericFileIdentifier q) (GenericFileIdentifier r)
      then r :: rest else q :: putRequest r rest
  end.

Section Pass.

Variable store : Store.
Variable now : Z.

(** Modelled from the spec: the stage worker is not among the sources. Step
    3: if request-accepted is false, issue restoreColdTier; accepted sets
    request-accepted and requested-at; already in progress sets
    request-accepted, requested-at and last-checked; rejected leaves
    request-accepted unset. For a rejected request the spec names two
    reactions, fail-retry (4.8) and a requeue after one minute (7,
    throttling responses). The stage's tests expect a request that was not
    accepted to keep its record with requested-at set (TestRequestFile) and
    want an object whose requests do not all succeed requeued for retry, so
    the record stays to be requested again and the outcome of the pass is
    left to Cleanup, which requeues after one minute while a request is
    still to be made. *)
Definition InitializeRetrieval (r : GlacierRestoreRequest) : GlacierRestoreRequest :=
  if RequestAccepted r then r
  else
    match restoreColdTier store (GlacierBucket r) (GlacierKey r) with
    | RestoreAccepted =>
        BuildRequest (GenericFileIdentifier r) (GlacierBucket r) (GlacierKey r) now true
                     (IsAvailableInS3 r) (SomeoneElseRequested r)
                     (EstimatedDeletionFromS3 r) (LastChecked r)
    | RestoreRejected =>
        BuildRequest (GenericFileIdentifier r) (GlacierBucket r) (GlacierKey r) now false
                     (IsAvailableInS3 r) (SomeoneElseRequested r)
                     (EstimatedDeletionFromS3 r) (LastChecked r)
    | RestoreAlreadyInProgress =>
        BuildRequest (GenericFileIdentifier r) (GlacierBucket r) (GlacierKey r) now true
                     (IsAvailableInS3 r) (SomeoneElseRequested r)
                     (EstimatedDeletionFromS3 r) now
    end.

(** Modelled from the spec: the stage worker is not among the sources. Step
    4: if request-accepted is true, HEAD the object; in progress updates
    last-checked; completed sets is-available-in-primary and the estimated
    deletion from primary. *)
Definition CheckStatus (r : GlacierRestoreRequest) : GlacierRestoreRequest :=
  if RequestAccepted r then
    match head store (GlacierBucket r) (GlacierKey r) with
    | HeadInProgress =>
        BuildRequest (GenericFileIdentifier r) (GlacierBucket r) (GlacierKey r)
                     (RequestedAt r) (RequestAccepted r) (IsAvailableInS3 r)
                     (SomeoneElseRequested r) (EstimatedDeletionFromS3 r) now
    | HeadCompleted est =>
        BuildRequest (GenericFileIdentifier r) (GlacierBucket r) (GlacierKey r)
                     (RequestedAt r) (RequestAccepted r) true
                     (SomeoneElseRequested r) est (LastChecked r)
    end
  else r.

(** Steps 2 to 4 for one target file. *)
Definition RequestFile (reqs : list GlacierRestoreRequest) (t : Target)
  : list GlacierRestoreRequest :=
  putRequest (CheckStatus (InitializeRetrieval (GetRequestRecord reqs t))) reqs.

(** One pass of the stage over the target files: the scan, then Cleanup. *)
Definition Pass (state : GlacierRestoreState) (targets : list Target) : GlacierRestoreState :=
  let reqs := fold_left RequestFile targets (Requests state) in
  Cleanup (BuildState (WorkItem state) (WorkSummary state) reqs (Message state)
                      (Created state)).

End Pass.

End Glacier.

(* ===================================================================== *)
(* Concrete bags, stores and the statements that are put to the test     *)
(* ===================================================================== *)

Module Scenario.

Import Fileutil Validation.

Definition LF : string := String "010" EmptyString.

Definition clock : Z := 1500000000.

Definition uuid (_ : nat) : string := "3f1c2f0a-6d0e-4e0b-9d53-b5e0c4f4a111".

Definition guessMime (_ : string) : string * option string :=
  ("application/octet-stream", None).

(** A regular file of a bag as the iterator yields it. *)
Definition regularFile (relPath content : string) : IterItem :=
  Entry (Build relPath EmptyString true (Z.of_nat (String.length content)) 0 0 0) content.

(** The validator NewValidator makes for the tarred bag [name].tar with both
    algorithms enabled. *)
Definition tarValidator (name : string) (preserve : bool) (tagFiles : list string)
  : Validator :=
  BuildValidator ("/mnt/apt/" ++ name ++ ".tar") preserve name tagFiles true true.

(** Validate on a fresh side-index. *)
Definition validate (v : Validator) (bag : list IterItem)
  : Outcome (Result WorkSummary.t * State) :=
  Validate clock uuid guessMime v (Ok ∅) (Ok bag) newState.

Definition errorsOf (o : Outcome (Result WorkSummary.t * State)) : option (list string) :=
  match o with
  | Returned (Ok s, _) => Some (WorkSummary.Errors s)
  | _ => None
  end.

(** The GenericFile the side-index holds under [key] after validation. *)
Definition recordOf (key : string) (o : Outcome (Result WorkSummary.t * State))
  : option GenericFile.t :=
  match o with
  | Returned (_, st) =>
      match db st !! key with
      | Some (FileRecord gf) => Some gf
      | _ => None
      end
  | Panicked _ => None
  end.

Definition zeros32 : string := "00000000000000000000000000000000".

(** Spec scenario 2: manifest-md5.txt lists data/a.pdf with a wrong digest. *)
Definition badChecksumBag : list IterItem :=
  [regularFile "data/a.pdf" "hello";
   regularFile "manifest-md5.txt" (zeros32 ++ "  data/a.pdf" ++ LF)].

(** The same bag with the right digest in the manifest. *)
Definition goodChecksumBag : list IterItem :=
  [regularFile "data/a.pdf" "hello";
   regularFile "manifest-md5.txt" ("5d41402abc4b2a76b9719d911017c592  data/a.pdf" ++ LF)].

(** A bag bag1 whose manifest names the payload file by its file identifier
    and gives a wrong digest. *)
Definition prefixedManifestBag : list IterItem :=
  [regularFile "data/a.pdf" "hello";
   regularFile "manifest-md5.txt" (zeros32 ++ "  bag1/data/a.pdf" ++ LF)].

(** Bags whose bag-info.txt, marked parse-as-tag-file, is empty, holds only
    white space, or starts with a continuation line. *)
Definition emptyTagFileBag : list IterItem := [regularFile "bag-info.txt" EmptyString].

Definition blankTagFileBag : list IterItem :=
  [regularFile "bag-info.txt" ("   " ++ LF ++ LF)].

Definition continuationFirstBag : list IterItem :=
  [regularFile "bag-info.txt" ("  Virginia" ++ LF ++ "Source-Organization: UVA" ++ LF)].

(** Spec scenario 1: a zero-byte payload file listed in manifest-sha256.txt
    with the digest of the empty input. *)
Definition emptySha256 : string :=
  "e3b0c44298fc1c149afbf4c8996fb92427ae41e4649b934ca495991b7852b855".

Definition emptyMd5 : string := "d41d8cd98f00b204e9800998ecf8427e".

Definition emptyPayloadBag : list IterItem :=
  [regularFile "data/empty.txt" EmptyString;
   regularFile "manifest-sha256.txt" (emptySha256 ++ "  data/empty.txt" ++ LF)].

(** The tags parseTags records for a tag file with the given content. *)
Definition tagsOf (relFilePath content : string) : option (list Tag.t) :=
  match parseTags (tarValidator "bag1" false [relFilePath]) content relFilePath newState with
  | Returned (_, st) =>
      match db st !! "bag1" with
      | Some (ObjRecord obj) => Some (IntellectualObject.IngestTags obj)
      | _ => None
      end
  | Panicked _ => None
  end.

(** The statement that a blank line is a tag boundary, for a tag file that
    continues [before] with a blank line and then the line [continuation]:
    the tags of [before] are recorded as they are. *)
Definition blankLineIsBoundary (relFilePath before continuation : string) : Prop :=
  forall tags, tagsOf relFilePath before = Some tags ->
    exists tags', tagsOf relFilePath (before ++ LF ++ continuation) = Some tags'
                  /\ forall t, In t tags -> In t tags'.

(** The value of the tag that one line starts. *)
Definition tagValueOfLine (relFilePath line : string) : option string :=
  match parseTagLine relFilePath (IntellectualObject.New, None) line newState with
  | Returned ((_, Some t), _) => Some (Tag.Value t)
  | _ => None
  end.

(** The statement that exactly one leading space after the colon is removed:
    the line [label], colon, space, [rest] stores [rest]. *)
Definition removesOneLeadingSpace (label rest : string) : Prop :=
  tagValueOfLine "bag-info.txt" (label ++ ": " ++ rest) = Some rest.

(** The statement that calculateChecksums reads the reader to the end. *)
Definition readsToEOF (v : Validator) (reader : string) : Prop :=
  fst (calculateChecksums clock v reader GenericFile.New) = EmptyString.

Definition noAlgorithmValidator : Validator :=
  BuildValidator "/mnt/apt/bag1.tar" false "bag1" [] false false.

End Scenario.

(** Properties of tag lines that the statements below are about. *)
Module TagGrammar.

Definition spaces (n : nat) : string := string_of_list_ascii (repeat " "%char n).

Definition startsWithSpace (s : string) : bool :=
  match s with
  | EmptyString => false
  | String a _ => Go.byte_is 32 a
  end.

Fixpoint endsWithSpace (s : string) : bool :=
  match s with
  | EmptyString => false
  | String a r => if Go.is_empty r then Go.byte_is 32 a else endsWithSpace r
  end.

(** A label as the tag grammar takes it: no \s byte and no colon. *)
Fixpoint plainLabel (s : string) : bool :=
  match s with
  | EmptyString => true
  | String a r => negb (Go.regexSpace a) && negb (Go.byte_is 58 a) && plainLabel r
  end.

(** What may follow the colon of a tag line: nothing, or text that starts
    with a \s byte. *)
Definition valuePart (s : string) : bool :=
  match s with
  | EmptyString => true
  | String a _ => Go.regexSpace a
  end.

End TagGrammar.

Module GlacierScenario.

Import Glacier.

Definition item : WorkItem.t :=
  WorkItem.Build 1000 "test.edu/glacier_bag" EmptyString "glacier_bag.tar"
                 "aptrust.receiving.test.edu" "0000000000000000" 0 0 33
                 "frank.zappa@example.com" 0 EmptyString WorkItem.ActionGlacierRestore
                 WorkItem.StageRequested WorkItem.StatusPending EmptyString true
                 EmptyString 0 false.

Definition startState (reqs : list GlacierRestoreRequest) : GlacierRestoreState :=
  BuildState item WorkSummary.New reqs OpNone [].

Definition target (n : string) : Target :=
  BuildTarget ("test.edu/glacier_bag/file_" ++ n ++ ".txt") "aptrust.glacier.oh" ("uuid-" ++ n).

Definition twelveFiles : list Target :=
  map target ["0"; "1"; "2"; "3"; "4"; "5"; "6"; "7"; "8"; "9"; "10"; "11"].

Definition twoFiles : list Target := [target "0"; target "1"].

(** Requests for every target, none accepted yet. *)
Definition unaccepted (ts : list Target) : list GlacierRestoreRequest :=
  map (fun t => BuildRequest (identifier t) (bucket t) (key t) 0 false false false 0 0) ts.

(** Requests for every target, all accepted earlier. *)
Definition accepted (ts : list Target) : list GlacierRestoreRequest :=
  map (fun t => BuildRequest (identifier t) (bucket t) (key t) 1400000000 true false false 0 0)
      ts.

(** A store that accepts every restore request and reports every restore as
    still in progress. *)
Definition acceptingStore : Store :=
  BuildStore (fun _ _ => RestoreAccepted) (fun _ _ => HeadInProgress).

(** A store that rejects every restore request. *)
Definition rejectingStore : Store :=
  BuildStore (fun _ _ => RestoreRejected) (fun _ _ => HeadInProgress).

(** A store in which the restore of uuid-0 is completed and every other one
    is in progress. *)
Definition halfThawedStore : Store :=
  BuildStore (fun _ _ => RestoreAccepted)
             (fun _ k => if String.eqb k "uuid-0" then HeadCompleted 1600000000
                         else HeadInProgress).

(** The statement about one pass: the outcome is fixed by the request
    records, and on the two-hour requeue every request is accepted and none
    is available in primary. *)
Definition passEndsAsStated (store : Store) (now : Z) (state : GlacierRestoreState)
    (targets : list Target) : Prop :=
  let s := Pass store now state targets in
  if allAvailable (Requests s) then
    Message s = OpFinish /\ WorkItem.Status (WorkItem s) = WorkItem.StatusSuccess
    /\ exists w, Created s = (Created state ++ [w])%list
                 /\ WorkItem.Action w = WorkItem.ActionRestore
                 /\ WorkItem.Stage w = WorkItem.StageRequested
                 /\ WorkItem.Status w = WorkItem.StatusPending
  else if anyToBeMade (Requests s) then Message s = OpRequeue (1 * Minute)
  else Message s = OpRequeue (2 * Hour)
       /\ Forall (fun r => RequestAccepted r = true /\ IsAvailableInS3 r = false)
                 (Requests s).

End GlacierScenario.

(* ===================================================================== *)
(* models/generic_file.go and platform/posix.go                          *)
(* ===================================================================== *)

Module Text.

(** The text before and after the first byte [sep] of [s], if there is one. *)
Fixpoint cut (sep : ascii) (s : string) : option (string * string) :=
  match s with
  | EmptyString => None
  | String a r =>
      if Ascii.eqb a sep then Some (EmptyString, r)
      else
        match cut sep r with
        | Some (front, back) => Some (String a front, back)
        | None => None
        end
  end.

(** strings.Split(s, sep) for a separator of one byte: the pieces between
    the separators, at least one piece. *)
Fixpoint Split (sep : ascii) (s : string) : list string :=
  match s with
  | EmptyString => [EmptyString]
  | String a r =>
      if Ascii.eqb a sep then EmptyString :: Split sep r
      else
        match Split sep r with
        | piece :: pieces => String a piece :: pieces
        | [] => [String a EmptyString]
        end
  end.

(** strings.SplitN(s, sep, n) for n >= 0 and a separator of one byte: at
    most n pieces, the last one being the unsplit remainder. *)
Fixpoint SplitN (sep : ascii) (n : nat) (s : string) : list string :=
  match n with
  | O => []
  | S O => [s]
  | S n' =>
      match cut sep s with
      | Some (front, back) => front :: SplitN sep n' back
      | None => [s]
      end
  end.

(** strings.Index(s, sep) < 0: the byte does not occur. *)
Fixpoint lacks (sep : ascii) (s : string) : bool :=
  match s with
  | EmptyString => true
  | String a r => negb (Ascii.eqb a sep) && lacks sep r
  end.

(** The last piece of a split: pieces[len(pieces)-1]. *)
Definition lastPieceOf (pieces : list string) : string :=
  nth (length pieces - 1) pieces EmptyString.

End Text.

Module GenericFileMethods.

Definition slash : ascii := "/"%char.

(** gf.OriginalPath(): the third piece of the identifier split at most
    twice at slashes, an error when there are fewer than three pieces. *)
Definition OriginalPath (gf : GenericFile.t) : Result string :=
  let parts := Text.SplitN slash 3 (GenericFile.Identifier gf) in
  if (length parts <? 3)%nat then
    Err ("GenericFile identifier '" ++ GenericFile.Identifier gf ++ "' is not valid")
  else Ok (nth 2 parts EmptyString).

(** gf.InstitutionIdentifier(). *)
Definition InstitutionIdentifier (gf : GenericFile.t) : Result string :=
  let parts := Text.Split slash (GenericFile.Identifier gf) in
  if (length parts <? 2)%nat then
    Err ("GenericFile identifier '" ++ GenericFile.Identifier gf ++ "' is not valid")
  else Ok (nth 0 parts EmptyString).

(** gf.PreservationStorageFileName(), as a function of gf.URI. *)
Definition PreservationStorageFileName (uri : string) : Result string :=
  if Text.lacks slash uri then
    Err ("Cannot get preservation storage file name because GenericFile has "
         ++ "an invalid URI")
  else
    let parts := Text.Split slash uri in
    Ok (Text.lastPieceOf parts).

Section Collections.

(** models.Checksum and models.PremisEvent are not among the sources; the
    two methods read one field of each. A nil pointer in a slice is [None]. *)
Variable Checksum : Type.
Variable Algorithm : Checksum -> string.
Variable PremisEvent : Type.
Variable EventType : PremisEvent -> string.

(** gf.GetChecksum(algorithm), as a function of gf.Checksums. *)
Fixpoint GetChecksum (checksums : list (option Checksum)) (algorithm : string)
  : option Checksum :=
  match checksums with
  | [] => None
  | Some cs :: rest =>
      if String.eqb (Algorithm cs) algorithm then Some cs
      else GetChecksum rest algorithm
  | None :: rest => GetChecksum rest algorithm
  end.

(** gf.FindEventsByType(eventType), as a function of gf.PremisEvents. *)
Fixpoint FindEventsByType (events : list (option PremisEvent)) (eventType : string)
  : list PremisEvent :=
  match events with
  | [] => []
  | Some event :: rest =>
      if String.eqb (EventType event) eventType
      then event :: FindEventsByType rest eventType
      else FindEventsByType rest eventType
  | None :: rest => FindEventsByType rest eventType
  end.

End Collections.

End GenericFileMethods.

Module Platform.

(** words[len(words)-1] of strings.Split(line, " "). *)
Definition lastWord (line : string) : string :=
  Text.lastPieceOf (Text.Split " "%char line).

(** The body of the loop of GetMountPointFromPath for one line after the
    first. maxPrefixLen is 0 throughout: the loop never assigns it. *)
Definition considerLine (path : string) (matchingMountpoint : string) (line : string)
  : string :=
  let maxPrefixLen := O in
  let mountpoint := lastWord line in
  if Go.HasPrefix path mountpoint && (maxPrefixLen <? String.length mountpoint)%nat
  then mountpoint else matchingMountpoint.

(** GetMountPointFromPath(path) on posix; [df] is what
    exec.Command("df").Output() gives. *)
Definition GetMountPointFromPath (df : Result string) (path : string) : Result string :=
  match df with
  | Err e => Err e
  | Ok out =>
      let lines := Text.Split "010"%char out in
      Ok (fold_left (considerLine path) (tl lines) EmptyString)
  end.

(** A df listing with a header and three file systems. *)
Definition dfSample : string :=
  "Filesystem 1K-blocks Used Available Use% Mounted on" ++ String "010"
  ("/dev/sda1 100 10 90 10% /" ++ String "010"
  ("/dev/sdb1 100 10 90 10% /mnt/apt" ++ String "010"
  ("tmpfs 100 0 100 0% /mnt" ++ String "010" EmptyString))).

End Platform.

(** Notions the properties of the validator's first pass are stated with. *)
Module FirstPass.

Import Fileutil Validation.

(** What the loop of addFiles sees: the items before the first error whose
    message is EOF. *)
Fixpoint beforeEOF (items : list IterItem) : list IterItem :=
  match items with
  | [] => []
  | NextError e :: rest => if String.eqb e "EOF" then [] else NextError e :: beforeEOF rest
  | item :: rest => item :: beforeEOF rest
  end.

(** The messages of the errors among the items. *)
Fixpoint errorMessages (items : list IterItem) : list string :=
  match items with
  | [] => []
  | NextError e :: rest => e :: errorMessages rest
  | Entry _ _ :: rest => errorMessages rest
  end.

(** The relative paths of the regular files among the items. *)
Fixpoint regularPaths (items : list IterItem) : list string :=
  match items with
  | [] => []
  | Entry fs _ :: rest =>
      if IsRegularFile fs then RelPath fs :: regularPaths rest else regularPaths rest
  | NextError _ :: rest => regularPaths rest
  end.

Definition isTagManifest (p : string) : bool := Go.HasPrefix p "tagmanifest-".

Definition isPayloadManifest (p : string) : bool :=
  negb (Go.HasPrefix p "tagmanifest-") && Go.HasPrefix p "manifest-".

(** The summary of [st'] is the summary of [st] with errors added at the
    end: nothing else of it differs. *)
Definition accumulates (st st' : State) : Prop :=
  WorkSummary.Attempted (summary st') = WorkSummary.Attempted (summary st)
  /\ WorkSummary.AttemptNumber (summary st') = WorkSummary.AttemptNumber (summary st)
  /\ WorkSummary.StartedAt (summary st') = WorkSummary.StartedAt (summary st)
  /\ WorkSummary.FinishedAt (summary st') = WorkSummary.FinishedAt (summary st)
  /\ exists added, WorkSummary.Errors (summary st')
                   = (WorkSummary.Errors (summary st) ++ added)%list.

(** A computation that, when it returns, has only added errors. *)
Definition accumulating {A : Type} (c : M A) : Prop :=
  forall st a st', c st = Returned (a, st') -> accumulates st st'.

(** The side-index holds under [key] the record of a file with that
    identifier. *)
Definition holdsFile (index : gmap string DbRecord) (key : string) : Prop :=
  exists gf, index !! key = Some (FileRecord gf) /\ GenericFile.Identifier gf = key.

(** A computation that, when it returns, has changed the side-index at most
    under the given keys. *)
Definition touchesOnly {A : Type} (keys : list string) (c : M A) : Prop :=
  forall st a st', c st = Returned (a, st') ->
    forall k, ~ In k keys -> db st' !! k = db st !! k.

(** A tag as parseTags records it from the tag file [rel]. *)
Definition recordedFrom (rel : string) (t : Tag.t) : Prop :=
  Tag.SourceFile t = rel /\ Tag.Label t <> EmptyString.

(** What the scanner loop of parseTags keeps true of its variables obj and
    tag: the object has the identifier [id] and the tags [base] followed by
    tags recorded from [rel], and the tag in hand, if any, is from [rel]. *)
Definition tagLoopInvariant (rel id : string) (base : list Tag.t)
    (vars : IntellectualObject.t * option Tag.t) : Prop :=
  IntellectualObject.Identifier (fst vars) = id
  /\ (exists added, IntellectualObject.IngestTags (fst vars) = (base ++ added)%list
                    /\ List.Forall (recordedFrom rel) added)
  /\ (forall t, snd vars = Some t -> Tag.SourceFile t = rel).

(** A validator for the tarred bag bag1 that parses bag-info.txt, an entry
    for the directory data, and a side-index that holds the object bag1 with
    one tag. *)
Definition tagValidator : Validator := Scenario.tarValidator "bag1" false ["bag-info.txt"].

Definition plainValidator : Validator := Scenario.tarValidator "bag1" false [].

Definition directory : FileSummary := Fileutil.Build "data" EmptyString false 0 0 0 0.

Definition titledObject : IntellectualObject.t :=
  IntellectualObject.set_IngestTags [Tag.New "aptrust-info.txt" "Title" "Bag One"]
    (IntellectualObject.set_Identifier "bag1" IntellectualObject.New).

Definition titledState : State :=
  BuildState WorkSummary.New [] [] (<["bag1" := ObjRecord titledObject]> ∅) O.

Definition byteRange (b : Z) : Prop := 0 <= b < 256.

Definition isHexDigit (a : ascii) : bool :=
  let c := Bytes.code a in
  ((48 <=? c) && (c <=? 57)) || ((97 <=? c) && (c <=? 102)).

Fixpoint allHex (s : string) : bool :=
  match s with
  | EmptyString => true
  | String a r => isHexDigit a && allHex r
  end.

End FirstPass.

(* ===================================================================== *)
(* Checks of the library model                                           *)
(* ===================================================================== *)

Example md5_abc : Hash.md5_hex "abc" = "900150983cd24fb0d6963f7d28e17f72".
Proof. vm_compute. reflexivity. Qed.

Example sha256_abc :
  Hash.sha256_hex "abc"
  = "ba7816bf8f01cfea414140de5dae2223b00361a396177a9cb410ff61f20015ad".
Proof. vm_compute. reflexivity. Qed.

Example md5_two_blocks :
  Hash.md5_hex "12345678901234567890123456789012345678901234567890123456789012345678901234567890"
  = "57edf4a22be3c955ac49da2e2107b67a".
Proof. vm_compute. reflexivity. Qed.

Example sha256_two_blocks :
  Hash.sha256_hex "abcdbcdecdefdefgefghfghighijhijkijkljklmklmnlmnomnopnopq"
  = "248d6a61d20638b8e5c026930c3e6039a33ce45964ff2167f6ecedd419db06c1".
Proof. vm_compute. reflexivity. Qed.

Example scan_crlf :
  Go.ScanLines (String "a" (String "013" (String "010" "b"))) = (["a"; "b"], false).
Proof. reflexivity. Qed.

Example scan_trailing_newline :
  Go.ScanLines (String "010" (String "010" EmptyString))
  = ([EmptyString; EmptyString], false).
Proof. reflexivity. Qed.

Example tag_line_label :
  Go.tagLineMatch "Title:  My bag " = Some ("Title:", "  My bag ").
Proof. reflexivity. Qed.

Example tag_line_continuation : Go.tagLineMatch "  more" = Some (EmptyString, "  more").
Proof. reflexivity. Qed.

Example tag_line_unparsable : Go.tagLineMatch "Title:value" = None.
Proof. reflexivity. Qed.

Example manifest_line :
  Go.manifestLineMatch "abc123  data/a.pdf" = ("abc123", "data/a.pdf").
Proof. reflexivity. Qed.

Example blank_nbsp : Go.isBlank (String "194" (String "160" " ")) = true.
Proof. reflexivity. Qed.

Example db_name_of_tarred_bag :
  Validation.DBName (Scenario.tarValidator "bag1" false []) = "/mnt/apt/bag1.valdb".
Proof. reflexivity. Qed.

Example db_name_of_directory :
  Validation.DBName (Validation.BuildValidator "/mnt/apt/bag1/" false "bag1" [] true true)
  = "/mnt/apt/bag1.valdb".
Proof. reflexivity. Qed.

Example lower_label : Go.ToLower "Source-Organization" = "source-organization".
Proof. reflexivity. Qed.

(* ===================================================================== *)
(* The validator on concrete bags                                        *)
(* ===================================================================== *)

Section ConcreteBags.

Import Fileutil Validation Scenario.

(** C2. On the bag bag1 that holds data/a.pdf and a manifest-md5.txt listing
    data/a.pdf with its true md5, parseManifest looks the file up under the
    bare path instead of its identifier bag1/data/a.pdf: the summary reports
    the file as missing from the bag, and the record of bag1/data/a.pdf is
    left without a manifest digest. *)
Theorem C2_manifest_lookup_uses_bare_path :
  errorsOf (validate (tarValidator "bag1" false []) goodChecksumBag)
  = Some ["File 'data/a.pdf' in manifest 'manifest-md5.txt' is missing from bag"]
  /\ option_map GenericFile.IngestManifestMd5
       (recordOf "bag1/data/a.pdf" (validate (tarValidator "bag1" false []) goodChecksumBag))
     = Some EmptyString
  /\ option_map GenericFile.IngestMd5
       (recordOf "bag1/data/a.pdf" (validate (tarValidator "bag1" false []) goodChecksumBag))
     = Some "5d41402abc4b2a76b9719d911017c592".
Proof. vm_compute. repeat split; reflexivity. Qed.

(** C1. Validate compares no digests. On the bag whose manifest names
    bag1/data/a.pdf with a wrong md5 the side-index ends with a record whose
    manifest digest differs from the computed one, and the summary has no
    error. On the bag of spec scenario 2 the only error is the missing-file
    error, the same one the bag with the right digest gets. *)
Theorem C1_digest_mismatch_not_reported :
  errorsOf (validate (tarValidator "bag1" false []) prefixedManifestBag) = Some []
  /\ option_map (fun gf => (GenericFile.Identifier gf, GenericFile.IngestManifestMd5 gf,
                            GenericFile.IngestMd5 gf))
       (recordOf "bag1/manifest-md5.txt"
                 (validate (tarValidator "bag1" false []) prefixedManifestBag))
     = Some ("bag1/data/a.pdf", zeros32, "5d41402abc4b2a76b9719d911017c592")
  /\ errorsOf (validate (tarValidator "bag1" false []) badChecksumBag)
     = Some ["File 'data/a.pdf' in manifest 'manifest-md5.txt' is missing from bag"]
  /\ errorsOf (validate (tarValidator "bag1" false []) badChecksumBag)
     = errorsOf (validate (tarValidator "bag1" false []) goodChecksumBag).
Proof. vm_compute. repeat split; reflexivity. Qed.

(** C3. Validate panics on a nil tag pointer when a tag file that is parsed
    as a tag file is empty, holds only white space, or starts with a
    continuation line. *)
Theorem C3_Validate_panics_on_tag_files :
  validate (tarValidator "bag1" false ["bag-info.txt"]) emptyTagFileBag
  = Panicked nilDereference
  /\ validate (tarValidator "bag1" false ["bag-info.txt"]) blankTagFileBag
     = Panicked nilDereference
  /\ validate (tarValidator "bag1" false ["bag-info.txt"]) continuationFirstBag
     = Panicked nilDereference.
Proof. vm_compute. repeat split; reflexivity. Qed.

(** C6. On the bag of spec scenario 1, validated with
    PreserveExtendedAttributes, both computed digests of the zero-byte file
    are the digests of the empty input, but the summary reports the file as
    missing from the bag, no manifest digest is recorded, and the record in
    the side-index has no file format. *)
Theorem C6_empty_payload_file_fails_validation :
  errorsOf (validate (tarValidator "bag1" true []) emptyPayloadBag)
  = Some ["File 'data/empty.txt' in manifest 'manifest-sha256.txt' is missing from bag"]
  /\ option_map (fun gf => (GenericFile.IngestMd5 gf, GenericFile.IngestSha256 gf))
       (recordOf "bag1/data/empty.txt" (validate (tarValidator "bag1" true []) emptyPayloadBag))
     = Some (emptyMd5, emptySha256)
  /\ option_map (fun gf => (GenericFile.IngestManifestSha256 gf, GenericFile.FileFormat gf))
       (recordOf "bag1/data/empty.txt" (validate (tarValidator "bag1" true []) emptyPayloadBag))
     = Some (EmptyString, EmptyString).
Proof. vm_compute. repeat split; reflexivity. Qed.

End ConcreteBags.

(* ===================================================================== *)
(* The digest engine                                                     *)
(* ===================================================================== *)

Section DigestEngine.

Import Validation Scenario.

Lemma md5_empty : Hash.md5_hex EmptyString = emptyMd5.
Proof. vm_compute. reflexivity. Qed.

Lemma sha256_empty : Hash.sha256_hex EmptyString = emptySha256.
Proof. vm_compute. reflexivity. Qed.

(** The digests calculateChecksums records for a zero-byte file. *)
Lemma calculateChecksums_empty (now : Z) (v : Validator) (gf : GenericFile.t) :
  let gf' := snd (calculateChecksums now v EmptyString gf) in
  (if calculateMd5 v then GenericFile.IngestMd5 gf' = emptyMd5
   else GenericFile.IngestMd5 gf' = GenericFile.IngestMd5 gf)
  /\ (if calculateSha256 v then GenericFile.IngestSha256 gf' = emptySha256
      else GenericFile.IngestSha256 gf' = GenericFile.IngestSha256 gf).
Proof.
  unfold calculateChecksums.
  destruct (calculateMd5 v), (calculateSha256 v), (PreserveExtendedAttributes v);
    cbn [snd]; split;
    try (change (Hash.md5_hex EmptyString = emptyMd5); exact md5_empty);
    try (change (Hash.sha256_hex EmptyString = emptySha256); exact sha256_empty);
    reflexivity.
Qed.

(** setMimeType on a zero-byte file sets text/empty on the GenericFile it
    is given, and reads nothing. *)
Lemma setMimeType_empty (guess : string -> string * option string) (reader : string)
    (gf : GenericFile.t) (st : State) :
  GenericFile.Size gf = 0 ->
  setMimeType guess reader gf st
  = Returned (GenericFile.set_FileFormat "text/empty" gf, st).
Proof.
  intros Hsize. unfold setMimeType. rewrite Hsize. reflexivity.
Qed.

(** C5 (the claim as stated fails). With no algorithm enabled
    calculateChecksums leaves the reader as it found it. *)
Lemma C5_reader_left_unread : ~ readsToEOF noAlgorithmValidator "abc".
Proof. unfold readsToEOF. vm_compute. discriminate. Qed.

(** C5 (amended). calculateChecksums reads the reader to the end when at
    least one algorithm is enabled; with none enabled it returns the reader
    and the GenericFile untouched. *)
Theorem C5_reader_drained_iff_algorithm_enabled
    (now : Z) (v : Validator) (reader : string) (gf : GenericFile.t) :
  if calculateMd5 v || calculateSha256 v
  then fst (calculateChecksums now v reader gf) = EmptyString
  else calculateChecksums now v reader gf = (reader, gf).
Proof.
  unfold calculateChecksums.
  destruct (calculateMd5 v), (calculateSha256 v); reflexivity.
Qed.

End DigestEngine.

(* ===================================================================== *)
(* The S3 upload client                                                  *)
(* ===================================================================== *)

(** C10. When the local file opens and GetS3Session returns no session and
    an error, Send returns with an empty ErrorMessage and a nil Response. *)
Theorem C10_Send_silent_when_session_fails
    (file msg region bucket key localPath contentType : string)
    (upload : string -> Network.UploadInput -> option Network.UploadOutput * option string) :
  let client :=
    Network.Send (fun _ => Ok file) (fun _ => (None, Some msg)) upload
                 (Network.NewS3Upload region bucket key localPath contentType) in
  Network.ErrorMessage client = EmptyString /\ Network.Response client = None.
Proof. split; reflexivity. Qed.

(* ===================================================================== *)
(* Tag files                                                             *)
(* ===================================================================== *)

Section TagFiles.

Import Validation Scenario TagGrammar.

Ltac bool_to_prop :=
  repeat match goal with
         | H : _ && _ = true |- _ => apply andb_true_iff in H; destruct H
         | H : _ || _ = true |- _ => apply orb_true_iff in H; destruct H
         | H : (_ <=? _) = true |- _ => apply Z.leb_le in H
         | H : (_ =? _) = true |- _ => apply Z.eqb_eq in H
         end.

Lemma append_cons (a : ascii) (l s : string) : String a l ++ s = String a (l ++ s).
Proof. reflexivity. Qed.

Lemma append_nil (s : string) : EmptyString ++ s = s.
Proof. reflexivity. Qed.

Lemma append_empty_r (s : string) : s ++ EmptyString = s.
Proof.
  induction s as [|a r IH]; [reflexivity|]. rewrite append_cons, IH. reflexivity.
Qed.

(** A white-space rune holds no colon byte. *)
Lemma spaceWidth_skips_no_colon (bs : list Z) :
  Go.spaceWidth bs <> O -> In 58 bs -> In 58 (skipn (Go.spaceWidth bs) bs).
Proof.
  destruct bs as [|b0 [|b1 [|b2 r]]]; cbn [Go.spaceWidth]; intros Hw Hin.
  - contradiction.
  - destruct (((9 <=? b0) && (b0 <=? 13)) || (b0 =? 32)) eqn:H0; [|congruence].
    bool_to_prop; cbn in *; intuition lia.
  - destruct (((9 <=? b0) && (b0 <=? 13)) || (b0 =? 32)) eqn:H0.
    { bool_to_prop; cbn in *; intuition lia. }
    destruct ((b0 =? 194) && ((b1 =? 133) || (b1 =? 160))) eqn:H1; [|congruence].
    bool_to_prop; cbn in *; intuition lia.
  - destruct (((9 <=? b0) && (b0 <=? 13)) || (b0 =? 32)) eqn:H0.
    { bool_to_prop; cbn in *; intuition lia. }
    destruct ((b0 =? 194) && ((b1 =? 133) || (b1 =? 160))) eqn:H1.
    { bool_to_prop; cbn in *; intuition lia. }
    destruct ((b0 =? 225) && (b1 =? 154) && (b2 =? 128)) eqn:H2.
    { bool_to_prop; cbn in *; intuition lia. }
    destruct ((b0 =? 226) && (b1 =? 128) &&
              (((128 <=? b2) && (b2 <=? 138)) || (b2 =? 168) || (b2 =? 169) || (b2 =? 175)))
      eqn:H3.
    { bool_to_prop; cbn in *; intuition lia. }
    destruct ((b0 =? 226) && (b1 =? 129) && (b2 =? 159)) eqn:H4.
    { bool_to_prop; cbn in *; intuition lia. }
    destruct ((b0 =? 227) && (b1 =? 128) && (b2 =? 128)) eqn:H5; [|congruence].
    bool_to_prop; cbn in *; intuition lia.
Qed.

Lemma allSpace_no_colon (fuel : nat) :
  forall bs, Go.allSpace fuel bs = true -> ~ In 58 bs.
Proof.
  induction fuel as [|fuel IH]; intros bs Hall Hin.
  - destruct bs; [contradiction | discriminate].
  - destruct bs as [|b r]; [contradiction|].
    cbn [Go.allSpace] in Hall.
    destruct (Go.spaceWidth (b :: r)) as [|w] eqn:Hw; [discriminate|].
    apply (IH _ Hall).
    rewrite <- Hw. apply spaceWidth_skips_no_colon; [congruence | exact Hin].
Qed.

(** A line that holds a colon is not blank. *)
Lemma colon_line_not_blank (label rest : string) :
  Go.isBlank (label ++ ":" ++ rest) = false.
Proof.
  destruct (Go.isBlank (label ++ ":" ++ rest)) eqn:Hb; [|reflexivity].
  exfalso. unfold Go.isBlank in Hb. apply allSpace_no_colon in Hb. apply Hb.
  unfold Bytes.of_string. clear Hb.
  induction label as [|a l IH].
  - rewrite append_nil. left. reflexivity.
  - rewrite append_cons. right. exact IH.
Qed.

Lemma spanNonSpace_label (label rest : string) :
  plainLabel label = true -> valuePart rest = true ->
  Go.spanNonSpace (label ++ ":" ++ rest) = (label ++ ":", rest).
Proof.
  intros Hl Hr. induction label as [|a l IH].
  - change (EmptyString ++ ":" ++ rest) with (String ":" rest).
    cbn [Go.spanNonSpace]. change (Go.regexSpace ":") with false. cbv iota.
    destruct rest as [|b r]; [reflexivity|].
    cbn [valuePart] in Hr. cbn [Go.spanNonSpace]. rewrite Hr. reflexivity.
  - cbn [plainLabel] in Hl.
    apply andb_true_iff in Hl as [Ha Hl]. apply andb_true_iff in Ha as [Ha _].
    rewrite append_cons. cbn [Go.spanNonSpace].
    apply negb_true_iff in Ha. rewrite Ha, (IH Hl). reflexivity.
Qed.

Lemma endsWithColon_label (label : string) : Go.endsWithColon (label ++ ":") = true.
Proof.
  induction label as [|a l IH]; [reflexivity|].
  rewrite append_cons. cbn [Go.endsWithColon].
  destruct (l ++ ":") eqn:E; [destruct l; discriminate|].
  cbn [Go.is_empty]. exact IH.
Qed.

Lemma ReplaceFirstColon_label (label : string) :
  plainLabel label = true -> Go.ReplaceFirstColon (label ++ ":") = label.
Proof.
  induction label as [|a l IH]; intros Hl; [reflexivity|].
  cbn [plainLabel] in Hl.
  apply andb_true_iff in Hl as [Ha Hl]. apply andb_true_iff in Ha as [_ Ha].
  apply negb_true_iff in Ha.
  rewrite append_cons. cbn [Go.ReplaceFirstColon]. rewrite Ha, (IH Hl). reflexivity.
Qed.

Lemma byte_is_space (a : ascii) : Go.byte_is 32 a = true -> a = " "%char.
Proof.
  unfold Go.byte_is, Bytes.code. intros H. apply Z.eqb_eq in H.
  assert (N_of_ascii a = 32%N) as E by lia.
  rewrite <- (ascii_N_embedding a), E. reflexivity.
Qed.

(** strings.Trim(s, " ") takes space bytes off both ends and nothing else. *)
Lemma TrimLeftSpaces_spec (s : string) :
  startsWithSpace (Go.TrimLeftSpaces s) = false
  /\ exists n, s = spaces n ++ Go.TrimLeftSpaces s.
Proof.
  induction s as [|a r [IH1 [n IH2]]].
  - split; [reflexivity | exists O; reflexivity].
  - cbn [Go.TrimLeftSpaces]. destruct (Go.byte_is 32 a) eqn:Ha.
    + split; [exact IH1|]. exists (S n).
      rewrite (byte_is_space a Ha).
      change (spaces (S n)) with (String " " (spaces n)).
      rewrite append_cons. f_equal. exact IH2.
    + split; [cbn; exact Ha | exists O; reflexivity].
Qed.

Lemma TrimRightSpaces_spec (s : string) :
  endsWithSpace (Go.TrimRightSpaces s) = false
  /\ startsWithSpace (Go.TrimRightSpaces s)
     = startsWithSpace s && negb (Go.is_empty (Go.TrimRightSpaces s))
  /\ exists m, s = Go.TrimRightSpaces s ++ spaces m.
Proof.
  induction s as [|a r [IH1 [IH2 [m IH3]]]].
  - repeat split; exists O; reflexivity.
  - cbn [Go.TrimRightSpaces].
    destruct (Go.byte_is 32 a) eqn:Ha; cbn [andb].
    + destruct (Go.TrimRightSpaces r) as [|b r'] eqn:Hr; cbn [Go.is_empty].
      * repeat split; [cbn; rewrite Ha; reflexivity|].
        exists (S m). rewrite append_nil in IH3 |- *.
        rewrite (byte_is_space a Ha).
        change (spaces (S m)) with (String " " (spaces m)).
        f_equal. exact IH3.
      * repeat split.
        -- cbn [endsWithSpace Go.is_empty]. exact IH1.
        -- cbn. rewrite Ha. reflexivity.
        -- exists m. rewrite append_cons. f_equal. exact IH3.
    + repeat split.
      * cbn [endsWithSpace]. destruct (Go.TrimRightSpaces r) eqn:Hr; cbn [Go.is_empty].
        -- exact Ha.
        -- exact IH1.
      * cbn. rewrite Ha. reflexivity.
      * exists m. rewrite append_cons. f_equal. exact IH3.
Qed.

Lemma Trim_spec (s : string) :
  startsWithSpace (Go.Trim s) = false
  /\ endsWithSpace (Go.Trim s) = false
  /\ exists n m, s = spaces n ++ Go.Trim s ++ spaces m.
Proof.
  unfold Go.Trim.
  destruct (TrimLeftSpaces_spec s) as [L1 [n L2]].
  destruct (TrimRightSpaces_spec (Go.TrimLeftSpaces s)) as [R1 [R2 [m R3]]].
  repeat split.
  - rewrite R2, L1. reflexivity.
  - exact R1.
  - exists n, m. rewrite <- R3. exact L2.
Qed.

(** A blank line leaves the loop variables and the summary as they are. *)
Lemma parseTagLine_blank (rel : string) (vars : IntellectualObject.t * option Tag.t)
    (line : string) (st : State) :
  Go.isBlank line = true -> parseTagLine rel vars line st = Returned (vars, st).
Proof.
  intros Hb. destruct vars as [obj tag]. unfold parseTagLine. rewrite Hb. reflexivity.
Qed.

Lemma parseTagLines_blank (rel : string) (blanks rest : list string) :
  Forall (fun l => Go.isBlank l = true) blanks ->
  forall vars st,
    parseTagLines rel vars (blanks ++ rest) st = parseTagLines rel vars rest st.
Proof.
  induction 1 as [|b bs Hb _ IH]; intros vars st; [reflexivity|].
  cbn [app parseTagLines]. unfold bind at 1.
  rewrite (parseTagLine_blank _ _ _ _ Hb). apply IH.
Qed.

(** C4 (the claim as stated fails). In the tag file Title: foo, blank line,
    continuation line bar, the tag Title is recorded with the value foo bar
    and not with the value foo it has before the blank line. *)
Lemma C4_blank_line_does_not_end_tag :
  ~ blankLineIsBoundary "bag-info.txt" ("Title: foo" ++ LF) ("  bar" ++ LF).
Proof.
  intros H. destruct (H [Tag.Build "bag-info.txt" "Title" "foo"]) as [tags' [Ht Hin]].
  - vm_compute. reflexivity.
  - vm_compute in Ht. injection Ht as <-.
    destruct (Hin (Tag.Build "bag-info.txt" "Title" "foo")) as [E|[]].
    + left. reflexivity.
    + discriminate E.
Qed.

(** C4 (amended). Blank lines are skipped without ending the current tag: a
    line that begins with white space and follows any number of blank lines
    extends the value of the tag defined before them, joined by one space. *)
Theorem C4_continuation_after_blank_lines_extends_tag
    (rel : string) (obj : IntellectualObject.t) (t : Tag.t)
    (blanks : list string) (a : ascii) (rest : string) (st : State) :
  Forall (fun l => Go.isBlank l = true) blanks ->
  Go.regexSpace a = true ->
  Go.isBlank (String a rest) = false ->
  let t' := Tag.set_Value (Tag.Value t ++ " " ++ Go.Trim (String a rest)) t in
  parseTagLines rel (obj, Some t) (blanks ++ [String a rest]) st
  = Returned ((setIntelObjTagValue obj t', Some t'), st).
Proof.
  intros Hblanks Ha Hnb t'.
  rewrite (parseTagLines_blank rel blanks _ Hblanks).
  cbn [parseTagLines]. unfold bind at 1.
  unfold parseTagLine. rewrite Hnb.
  unfold Go.tagLineMatch. cbn [Go.spanNonSpace]. rewrite Ha.
  reflexivity.
Qed.

(** The amended C4 on a tag Title: foo, two blank lines and the line bar. *)
Lemma C4_continuation_witness :
  Forall (fun l => Go.isBlank l = true) [EmptyString; "  "]
  /\ Go.regexSpace " " = true
  /\ Go.isBlank "  bar" = false
  /\ parseTagLines "bag-info.txt"
       (IntellectualObject.New, Some (Tag.New "bag-info.txt" "Title" "foo"))
       ([EmptyString; "  "] ++ ["  bar"]) newState
     = Returned ((IntellectualObject.New, Some (Tag.New "bag-info.txt" "Title" "foo bar")),
                 newState).
Proof.
  assert (Hb : Forall (fun l => Go.isBlank l = true) [EmptyString; "  "]).
  { repeat constructor. }
  split; [exact Hb|]. split; [reflexivity|]. split; [reflexivity|].
  exact (C4_continuation_after_blank_lines_extends_tag
           "bag-info.txt" IntellectualObject.New (Tag.New "bag-info.txt" "Title" "foo")
           [EmptyString; "  "] " " " bar" newState Hb eq_refl eq_refl).
Defined.

(** C9 (the claim as stated fails). The line Title, colon, two spaces, v,
    one space stores the value v, not the text after the first space. *)
Lemma C9_more_than_one_space_removed : ~ removesOneLeadingSpace "Title" " v ".
Proof. unfold removesOneLeadingSpace. vm_compute. discriminate. Qed.

(** C9 (amended). A tag line label, colon, value part stores the value part
    with all of its leading and all of its trailing space bytes removed, and
    nothing else removed: the stored value neither starts nor ends with a
    space, and the value part is the stored value between two runs of
    spaces. *)
Theorem C9_tag_value_trimmed_of_all_spaces
    (rel label rest : string) (obj : IntellectualObject.t) (tag : option Tag.t)
    (st : State) :
  label <> EmptyString ->
  plainLabel label = true ->
  valuePart rest = true ->
  let obj1 :=
    match tag with
    | Some t0 => if negb (Go.is_empty (Tag.Label t0)) then appendTag obj t0 else obj
    | None => obj
    end in
  let t := Tag.New rel label (Go.Trim rest) in
  parseTagLine rel (obj, tag) (label ++ ":" ++ rest) st
  = Returned ((setIntelObjTagValue obj1 t, Some t), st)
  /\ startsWithSpace (Tag.Value t) = false
  /\ endsWithSpace (Tag.Value t) = false
  /\ exists n m, rest = spaces n ++ Tag.Value t ++ spaces m.
Proof.
  intros Hne Hl Hr obj1 t. split; [|exact (Trim_spec rest)].
  unfold parseTagLine. rewrite colon_line_not_blank.
  unfold Go.tagLineMatch. rewrite (spanNonSpace_label _ _ Hl Hr).
  rewrite endsWithColon_label, (ReplaceFirstColon_label _ Hl).
  destruct label as [|c l]; [congruence|]. reflexivity.
Qed.

(** The amended C9 on the line Title, colon, two spaces, v, one space. *)
Lemma C9_trim_witness :
  "Title" <> EmptyString
  /\ plainLabel "Title" = true
  /\ valuePart "  v " = true
  /\ parseTagLine "bag-info.txt" (IntellectualObject.New, None) "Title:  v " newState
     = Returned ((IntellectualObject.New, Some (Tag.New "bag-info.txt" "Title" "v")),
                 newState).
Proof.
  split; [discriminate|]. split; [reflexivity|]. split; [reflexivity|].
  exact (proj1 (C9_tag_value_trimmed_of_all_spaces
                  "bag-info.txt" "Title" "  v " IntellectualObject.New None newState
                  ltac:(discriminate) eq_refl eq_refl)).
Defined.

End TagFiles.

(* ===================================================================== *)
(* The Glacier restore-init stage                                        *)
(* ===================================================================== *)

Section RestoreInit.

Import Glacier GlacierScenario.

Lemma Contains_here (sub rest : string) : Go.Contains (sub ++ rest) sub = true.
Proof.
  assert (H : String.prefix sub (sub ++ rest) = true).
  { induction sub as [|a s IH]; [destruct rest; reflexivity|].
    change (String a s ++ rest) with (String a (s ++ rest)). cbn [String.prefix].
    destruct (ascii_dec a a) as [_|N]; [exact IH | congruence]. }
  destruct (sub ++ rest); cbn [Go.Contains]; rewrite H; reflexivity.
Qed.

Lemma Contains_later (front s sub : string) :
  Go.Contains s sub = true -> Go.Contains (front ++ s) sub = true.
Proof.
  intros H. induction front as [|a f IH]; [exact H|].
  change (String a f ++ s) with (String a (f ++ s)). cbn [Go.Contains].
  rewrite IH. apply orb_true_r.
Qed.

(** Every message of the list is part of the joined text. *)
Lemma Join_contains (sep : string) (parts : list string) (e : string) :
  In e parts -> Go.Contains (Go.Join parts sep) e = true.
Proof.
  induction parts as [|p rest IH]; intros Hin; [contradiction|].
  destruct rest as [|q rest'].
  - destruct Hin as [->|[]]. cbn [Go.Join].
    rewrite <- (append_empty_r e) at 1. apply Contains_here.
  - cbn [Go.Join] in *. destruct Hin as [->|Hin].
    + apply Contains_here.
    + apply Contains_later, Contains_later, IH, Hin.
Qed.

(** C8. FinishWithError marks the work item failed, not to be retried and
    in need of admin review, finishes the queue message, and puts the
    joined error list of the WorkSummary, which holds every error message,
    into the note. *)
Theorem C8_FinishWithError_is_fail_fatal (state : GlacierRestoreState) :
  let s := FinishWithError state in
  WorkItem.Status (WorkItem s) = WorkItem.StatusFailed
  /\ WorkItem.Retry (WorkItem s) = false
  /\ WorkItem.NeedsAdminReview (WorkItem s) = true
  /\ Message s = OpFinish
  /\ WorkItem.Note (WorkItem s) = WorkSummary.AllErrorsAsString (WorkSummary state)
  /\ forall e, In e (WorkSummary.Errors (WorkSummary state)) ->
               Go.Contains (WorkItem.Note (WorkItem s)) e = true.
Proof.
  cbv zeta. repeat split. intros e He. apply Join_contains, He.
Qed.

(** C8 on the state of TestFinishWithError, with its two errors. *)
Lemma C8_two_errors_witness :
  let summary :=
    WorkSummary.AddError "Error 2" (WorkSummary.AddError "Error 1" WorkSummary.New) in
  let s := FinishWithError (BuildState item summary [] OpNone []) in
  In "Error 2" (WorkSummary.Errors summary)
  /\ WorkItem.Status (WorkItem s) = WorkItem.StatusFailed
  /\ WorkItem.Retry (WorkItem s) = false
  /\ WorkItem.NeedsAdminReview (WorkItem s) = true
  /\ Message s = OpFinish
  /\ WorkItem.Note (WorkItem s) = "Error 1" ++ String "010" "Error 2"
  /\ Go.Contains (WorkItem.Note (WorkItem s)) "Error 2" = true.
Proof.
  intros summary s.
  assert (Hin : In "Error 2" (WorkSummary.Errors summary)) by (right; left; reflexivity).
  destruct (C8_FinishWithError_is_fail_fatal (BuildState item summary [] OpNone []))
    as [Hstatus [Hretry [Hreview [Hmsg [Hnote Hall]]]]].
  split; [exact Hin|]. split; [exact Hstatus|]. split; [exact Hretry|].
  split; [exact Hreview|]. split; [exact Hmsg|]. split; [exact Hnote|].
  exact (Hall "Error 2" Hin).
Defined.

Lemma anyToBeMade_false (reqs : list GlacierRestoreRequest) :
  anyToBeMade reqs = false -> Forall (fun r => RequestAccepted r = true) reqs.
Proof.
  induction reqs as [|r rest IH]; intros H; [constructor|].
  cbn in H. apply orb_false_iff in H as [Hr Hrest].
  constructor; [apply negb_false_iff, Hr | exact (IH Hrest)].
Qed.

Lemma allAvailable_false (reqs : list GlacierRestoreRequest) :
  allAvailable reqs = false -> Exists (fun r => IsAvailableInS3 r = false) reqs.
Proof.
  induction reqs as [|r rest IH]; intros H; [discriminate|].
  cbn in H. apply andb_false_iff in H as [Hr|Hrest].
  - left. exact Hr.
  - right. exact (IH Hrest).
Qed.

(** After the scan the outcome is one of three, fixed by the records. *)
Lemma Cleanup_outcome (state : GlacierRestoreState) :
  let s := Cleanup state in
  Requests s = Requests state
  /\ ((allAvailable (Requests state) = true
       /\ Message s = OpFinish
       /\ WorkItem.Status (WorkItem s) = WorkItem.StatusSuccess
       /\ exists w, Created s = (Created state ++ [w])%list
                    /\ WorkItem.Action w = WorkItem.ActionRestore
                    /\ WorkItem.Stage w = WorkItem.StageRequested
                    /\ WorkItem.Status w = WorkItem.StatusPending)
      \/ (allAvailable (Requests state) = false
          /\ anyToBeMade (Requests state) = true
          /\ Message s = OpRequeue (1 * Minute))
      \/ (allAvailable (Requests state) = false
          /\ anyToBeMade (Requests state) = false
          /\ Message s = OpRequeue (2 * Hour)
          /\ Forall (fun r => RequestAccepted r = true) (Requests state)
          /\ Exists (fun r => IsAvailableInS3 r = false) (Requests state))).
Proof.
  unfold Cleanup.
  destruct (allAvailable (Requests state)) eqn:Hall.
  - split; [reflexivity|]. left. repeat split. eexists. repeat split.
  - destruct (anyToBeMade (Requests state)) eqn:Hany.
    + split; [reflexivity|]. right. left. repeat split.
    + split; [reflexivity|]. right. right. repeat split.
      * apply anyToBeMade_false, Hany.
      * apply allAvailable_false, Hall.
Qed.

End RestoreInit.

Section RestoreInitOutcome.

Import Glacier GlacierScenario.




End RestoreInitOutcome.

(* ===================================================================== *)
(* The two defects of the second pass, for every bag                     *)
(* ===================================================================== *)

Section SecondPass.

Import Validation.

(** parseManifest looks a listed file up under the path of the manifest
    line: whenever the side-index has no record under that bare path, the
    line is reported as missing from the bag and nothing is recorded, also
    when the file's record is there under its identifier. *)
Lemma parseManifestLine_bare_path_absent (v : Validator) (alg relPath line : string)
    (st : State) :
  Go.isBlank line = false ->
  db st !! snd (Go.manifestLineMatch line) = None ->
  parseManifestLine v alg relPath line st
  = AddError ("File '" ++ snd (Go.manifestLineMatch line) ++ "' in manifest '"
              ++ relPath ++ "' is missing from bag") st.
Proof.
  intros Hnb Hdb. unfold parseManifestLine. rewrite Hnb.
  destruct (Go.manifestLineMatch line) as [digest filePath]. cbn [snd] in Hdb.
  unfold bind, GetGenericFile. rewrite Hdb. reflexivity.
Qed.

(** parseTags panics on every tag file without a non-blank line. *)
Lemma parseTags_blank_file_panics (v : Validator) (reader relFilePath : string)
    (st st' : State) (obj : IntellectualObject.t) :
  getIntellectualObject v st = Returned (Ok obj, st') ->
  Forall (fun l => Go.isBlank l = true) (fst (Go.ScanLines reader)) ->
  parseTags v reader relFilePath st = Panicked nilDereference.
Proof.
  intros Hobj Hblank. unfold parseTags. unfold bind at 1. rewrite Hobj.
  destruct (Go.ScanLines reader) as [lines scanErr]. cbn [fst] in Hblank.
  unfold bind. rewrite <- (app_nil_r lines).
  rewrite (parseTagLines_blank relFilePath lines [] Hblank). reflexivity.
Qed.

End SecondPass.

(* ===================================================================== *)
(* Identifiers and storage names (models/generic_file.go)                *)
(* ===================================================================== *)

Section Identifiers.

Import Text GenericFileMethods.

Lemma cut_append (sep : ascii) (a b : string) :
  lacks sep a = true -> cut sep (a ++ String sep b) = Some (a, b).
Proof.
  induction a as [|c a IH]; intros Ha.
  - rewrite append_nil. cbn [cut]. rewrite Ascii.eqb_refl. reflexivity.
  - cbn [lacks] in Ha. apply andb_true_iff in Ha as [Hc Ha].
    apply negb_true_iff in Hc.
    rewrite append_cons. cbn [cut]. rewrite Hc, (IH Ha). reflexivity.
Qed.

Lemma cut_Some (sep : ascii) (s a b : string) :
  cut sep s = Some (a, b) -> s = a ++ String sep b /\ lacks sep a = true.
Proof.
  revert a. induction s as [|c s IH]; intros a H; [discriminate|].
  cbn [cut] in H. destruct (Ascii.eqb c sep) eqn:Hc.
  - apply Ascii.eqb_eq in Hc. subst c. injection H as <- <-.
    split; reflexivity.
  - destruct (cut sep s) as [[front back]|] eqn:Hcut; [|discriminate].
    injection H as <- <-. destruct (IH front eq_refl) as [-> Hl].
    split; [reflexivity|]. cbn [lacks]. rewrite Hc, Hl. reflexivity.
Qed.

Lemma cut_None (sep : ascii) (s : string) :
  cut sep s = None <-> lacks sep s = true.
Proof.
  induction s as [|c s IH]; [split; reflexivity|].
  cbn [cut lacks]. destruct (Ascii.eqb c sep); cbn [negb andb].
  - split; discriminate.
  - destruct (cut sep s) as [[front back]|].
    + split; [discriminate|]. intros H. apply IH in H. discriminate.
    + split; [intros _; apply IH; reflexivity | reflexivity].
Qed.

(** Split cuts at the first separator and goes on with the rest. *)
Lemma Split_cut (sep : ascii) (s : string) :
  Split sep s = match cut sep s with
                | Some (front, back) => front :: Split sep back
                | None => [s]
                end.
Proof.
  induction s as [|c s IH]; [reflexivity|].
  cbn [Split cut]. destruct (Ascii.eqb c sep); [reflexivity|].
  rewrite IH. destruct (cut sep s) as [[front back]|]; reflexivity.
Qed.

Lemma Split_not_nil (sep : ascii) (s : string) : Split sep s <> [].
Proof.
  rewrite Split_cut. destruct (cut sep s) as [[front back]|]; discriminate.
Qed.

Lemma Split_single (sep : ascii) (s piece : string) :
  Split sep s = [piece] -> lacks sep s = true.
Proof.
  rewrite Split_cut. destruct (cut sep s) as [[f b]|] eqn:Hc.
  - intros H. injection H as _ Hb. destruct (Split_not_nil _ _ Hb).
  - intros _. apply cut_None, Hc.
Qed.

Lemma lastPieceOf_cons (p : string) (pieces : list string) :
  pieces <> [] -> lastPieceOf (p :: pieces) = lastPieceOf pieces.
Proof.
  destruct pieces as [|q rest]; [congruence|]. intros _.
  unfold lastPieceOf. cbn [length]. rewrite !Nat.sub_succ, !Nat.sub_0_r. reflexivity.
Qed.

(** The last piece holds no separator, and the text is some prefix, a
    separator and the last piece, unless the text holds no separator. *)
Lemma Split_last (sep : ascii) (s : string) :
  lacks sep (lastPieceOf (Split sep s)) = true
  /\ (lacks sep s = true \/
      exists pre, s = pre ++ String sep (lastPieceOf (Split sep s))).
Proof.
  induction s as [|c s [IH1 IH2]]; [split; [reflexivity | left; reflexivity]|].
  cbn [Split lacks]. destruct (Ascii.eqb c sep) eqn:Hc; cbn [negb andb].
  - apply Ascii.eqb_eq in Hc. subst c.
    rewrite (lastPieceOf_cons _ _ (Split_not_nil sep s)).
    split; [exact IH1|]. right. destruct IH2 as [Hl|[pre Hpre]].
    + exists EmptyString. rewrite append_nil.
      rewrite Split_cut. apply cut_None in Hl. rewrite Hl. reflexivity.
    + exists (String sep pre). rewrite append_cons. f_equal. exact Hpre.
  - destruct (Split sep s) as [|piece pieces] eqn:Hs; [destruct (Split_not_nil _ _ Hs)|].
    destruct pieces as [|q rest].
    + pose proof (Split_single sep s piece Hs) as Hl.
      unfold lastPieceOf in *. cbn [length Nat.sub nth] in *. cbn [lacks].
      rewrite Hc, IH1. split; [reflexivity | left; exact Hl].
    + rewrite (lastPieceOf_cons (String c piece) (q :: rest)) by discriminate.
      rewrite (lastPieceOf_cons piece (q :: rest)) in IH1, IH2 by discriminate.
      split; [exact IH1|]. destruct IH2 as [Hl|[pre Hpre]]; [left; exact Hl|].
      right. exists (String c pre). rewrite append_cons. f_equal. exact Hpre.
Qed.

Lemma lacks_append_sep (sep : ascii) (pre name : string) :
  lacks sep (pre ++ String sep name) = false.
Proof.
  induction pre as [|c pre IH].
  - rewrite append_nil. cbn [lacks]. rewrite Ascii.eqb_refl. reflexivity.
  - rewrite append_cons. cbn [lacks]. rewrite IH. apply andb_false_r.
Qed.

Lemma Split_append_last (sep : ascii) (pre name : string) :
  lacks sep name = true -> lastPieceOf (Split sep (pre ++ String sep name)) = name.
Proof.
  intros Hn. induction pre as [|c pre IH].
  - rewrite append_nil. cbn [Split]. rewrite Ascii.eqb_refl.
    rewrite (lastPieceOf_cons _ _ (Split_not_nil sep name)).
    rewrite Split_cut. apply cut_None in Hn. rewrite Hn. reflexivity.
  - rewrite append_cons. cbn [Split]. destruct (Ascii.eqb c sep).
    + rewrite (lastPieceOf_cons _ _ (Split_not_nil sep _)). exact IH.
    + destruct (Split sep (pre ++ String sep name)) as [|piece pieces] eqn:Hs;
        [destruct (Split_not_nil _ _ Hs)|].
      destruct pieces as [|q rest].
      * apply Split_single in Hs. rewrite lacks_append_sep in Hs. discriminate.
      * rewrite (lastPieceOf_cons (String c piece) (q :: rest)) by discriminate.
        rewrite (lastPieceOf_cons piece (q :: rest)) in IH by discriminate.
        exact IH.
Qed.

(** X1. OriginalPath returns a path exactly for identifiers of the form
    institution, slash, bag name, slash, path, where institution and bag
    name hold no slash; the path it returns is everything after the second
    slash, further slashes included. *)
Theorem OriginalPath_after_second_slash (gf : GenericFile.t) (path : string) :
  OriginalPath gf = Ok path
  <-> exists inst bag,
        lacks slash inst = true /\ lacks slash bag = true
        /\ GenericFile.Identifier gf = inst ++ "/" ++ bag ++ "/" ++ path.
Proof.
  unfold OriginalPath. set (id := GenericFile.Identifier gf). clearbody id.
  cbn [SplitN]. split.
  - destruct (cut slash id) as [[inst r1]|] eqn:H1; [|discriminate].
    destruct (cut slash r1) as [[bag r2]|] eqn:H2; [|discriminate].
    cbn. intros H. injection H as <-.
    apply cut_Some in H1 as [-> Hi]. apply cut_Some in H2 as [-> Hb].
    exists inst, bag. repeat split; assumption.
  - intros [inst [bag [Hi [Hb ->]]]].
    change (inst ++ "/" ++ bag ++ "/" ++ path)
      with (inst ++ String slash (bag ++ String slash path)).
    rewrite (cut_append slash inst _ Hi), (cut_append slash bag _ Hb). reflexivity.
Qed.

(** X2. InstitutionIdentifier returns an institution exactly when the
    identifier is that institution, a slash and more text, the institution
    holding no slash: the text before the first slash. An identifier without
    a slash is an error. *)
Theorem InstitutionIdentifier_before_first_slash (gf : GenericFile.t) (inst : string) :
  InstitutionIdentifier gf = Ok inst
  <-> lacks slash inst = true
      /\ exists rest, GenericFile.Identifier gf = inst ++ "/" ++ rest.
Proof.
  unfold InstitutionIdentifier. set (id := GenericFile.Identifier gf). clearbody id.
  rewrite Split_cut. split.
  - destruct (cut slash id) as [[front back]|] eqn:Hc; [|discriminate].
    pose proof (Split_not_nil slash back) as Hne.
    destruct (Split slash back) as [|p ps]; [congruence|].
    cbn. intros H. injection H as <-.
    apply cut_Some in Hc as [-> Hl]. split; [exact Hl | exists back; reflexivity].
  - intros [Hl [rest ->]].
    change (inst ++ "/" ++ rest) with (inst ++ String slash rest).
    rewrite (cut_append slash inst rest Hl).
    pose proof (Split_not_nil slash rest) as Hne.
    destruct (Split slash rest) as [|p ps]; [congruence|]. reflexivity.
Qed.

(** X3. PreservationStorageFileName returns a name exactly when the URI is
    some prefix, a slash and that name, the name holding no slash: the text
    after the last slash. A URI without a slash is an error. *)
Theorem PreservationStorageFileName_after_last_slash (uri name : string) :
  PreservationStorageFileName uri = Ok name
  <-> lacks slash name = true /\ exists pre, uri = pre ++ "/" ++ name.
Proof.
  unfold PreservationStorageFileName. split.
  - destruct (lacks slash uri) eqn:Hl; [discriminate|].
    intros H. injection H as <-.
    destruct (Split_last slash uri) as [H1 [H2|[pre Hpre]]].
    + congruence.
    + split; [exact H1 | exists pre; exact Hpre].
  - intros [Hn [pre ->]].
    change (pre ++ "/" ++ name) with (pre ++ String slash name).
    rewrite lacks_append_sep.
    f_equal. exact (Split_append_last slash pre name Hn).
Qed.

Section Collections.

Variable Checksum : Type.
Variable Algorithm : Checksum -> string.
Variable PremisEvent : Type.
Variable EventType : PremisEvent -> string.

(** X4. GetChecksum returns a checksum of the list with the algorithm asked
    for, skipping nil entries, and returns nil only when no checksum of the
    list has that algorithm. *)
Theorem GetChecksum_finds_algorithm (checksums : list (option Checksum))
    (algorithm : string) :
  match GetChecksum Checksum Algorithm checksums algorithm with
  | Some cs => In (Some cs) checksums /\ Algorithm cs = algorithm
  | None => forall cs, In (Some cs) checksums -> Algorithm cs <> algorithm
  end.
Proof.
  induction checksums as [|[c|] rest IH]; cbn [GetChecksum].
  - intros cs [].
  - destruct (String.eqb (Algorithm c) algorithm) eqn:E.
    + apply String.eqb_eq in E. split; [left; reflexivity | exact E].
    + apply String.eqb_neq in E.
      destruct (GetChecksum Checksum Algorithm rest algorithm) as [cs|].
      * destruct IH as [Hin Ha]. split; [right; exact Hin | exact Ha].
      * intros cs [Heq|Hin]; [injection Heq as <-; exact E | exact (IH cs Hin)].
  - destruct (GetChecksum Checksum Algorithm rest algorithm) as [cs|].
    + destruct IH as [Hin Ha]. split; [right; exact Hin | exact Ha].
    + intros cs [Heq|Hin]; [discriminate | exact (IH cs Hin)].
Qed.

(** X5. FindEventsByType returns exactly the non-nil events of the list
    that have the type asked for. *)
Theorem FindEventsByType_exactly_that_type (events : list (option PremisEvent))
    (eventType : string) (event : PremisEvent) :
  In event (FindEventsByType PremisEvent EventType events eventType)
  <-> In (Some event) events /\ EventType event = eventType.
Proof.
  induction events as [|[e|] rest IH]; cbn [FindEventsByType].
  - split; [intros [] | intros [[] _]].
  - destruct (String.eqb (EventType e) eventType) eqn:E.
    + apply String.eqb_eq in E. split.
      * intros [<-|Hin]; [split; [left; reflexivity | exact E]|].
        apply IH in Hin as [H1 H2]. split; [right; exact H1 | exact H2].
      * intros [[Heq|Hin] Ht]; [injection Heq as <-; left; reflexivity|].
        right. apply IH. split; assumption.
    + apply String.eqb_neq in E. split.
      * intros Hin. apply IH in Hin as [H1 H2]. split; [right; exact H1 | exact H2].
      * intros [[Heq|Hin] Ht]; [injection Heq as <-; contradiction|].
        apply IH. split; assumption.
  - split.
    + intros Hin. apply IH in Hin as [H1 H2]. split; [right; exact H1 | exact H2].
    + intros [[Heq|Hin] Ht]; [discriminate|]. apply IH. split; assumption.
Qed.

End Collections.

End Identifiers.

(* ===================================================================== *)
(* Names of the validation database (validator.go, DBName)               *)
(* ===================================================================== *)

Section DatabaseName.

Import Validation.

Lemma length_append (a b : string) :
  String.length (a ++ b) = (String.length a + String.length b)%nat.
Proof.
  induction a as [|c a IH]; [reflexivity|].
  rewrite append_cons. cbn [String.length]. rewrite IH. reflexivity.
Qed.

Lemma append_assoc (a b c : string) : (a ++ b) ++ c = a ++ b ++ c.
Proof.
  induction a as [|x a IH]; [reflexivity|].
  rewrite !append_cons, IH. reflexivity.
Qed.

Lemma substring_all (s : string) : String.substring 0 (String.length s) s = s.
Proof.
  induction s as [|c s IH]; [reflexivity|]. cbn. rewrite IH. reflexivity.
Qed.

Lemma substring_front (a b : string) :
  String.substring 0 (String.length a) (a ++ b) = a.
Proof.
  induction a as [|c a IH]; [destruct b; reflexivity|].
  rewrite append_cons. cbn. rewrite IH. reflexivity.
Qed.

Lemma substring_back (a b : string) :
  String.substring (String.length a) (String.length b) (a ++ b) = b.
Proof.
  induction a as [|c a IH]; [rewrite append_nil; apply substring_all|].
  rewrite append_cons. cbn. exact IH.
Qed.

(** A string is its first n bytes followed by the rest. *)
Lemma substring_split (s : string) :
  forall n, (n <= String.length s)%nat ->
    s = String.substring 0 n s ++ String.substring n (String.length s - n) s.
Proof.
  induction s as [|c s IH]; intros n Hn.
  - cbn in Hn. assert (n = O) as -> by lia. reflexivity.
  - destruct n as [|n].
    + cbn [String.substring]. rewrite append_nil.
      change (String.length (String c s) - 0)%nat with (S (String.length s)).
      cbn [String.substring]. rewrite substring_all. reflexivity.
    + cbn [String.length] in Hn |- *. cbn [String.substring Nat.sub].
      rewrite append_cons. f_equal. apply IH. lia.
Qed.

Lemma HasSuffix_append (a suf : string) : Go.HasSuffix (a ++ suf) suf = true.
Proof.
  unfold Go.HasSuffix. rewrite length_append.
  replace (String.length a + String.length suf - String.length suf)%nat
    with (String.length a) by lia.
  rewrite substring_back, String.eqb_refl.
  apply andb_true_iff. split; [apply Nat.leb_le; lia | reflexivity].
Qed.

Lemma HasSuffix_inv (s suf : string) :
  Go.HasSuffix s suf = true -> exists pre, s = pre ++ suf.
Proof.
  unfold Go.HasSuffix. intros H. apply andb_true_iff in H as [Hk He].
  apply Nat.leb_le in Hk. apply String.eqb_eq in He.
  exists (String.substring 0 (String.length s - String.length suf) s).
  rewrite <- He at 2.
  rewrite (substring_split s (String.length s - String.length suf)) at 1 by lia.
  f_equal. f_equal. lia.
Qed.

Lemma same_last_byte (a b : string) (c d : ascii) :
  a ++ String c EmptyString = b ++ String d EmptyString -> c = d.
Proof.
  revert b. induction a as [|x a IH]; intros [|y b] H.
  - rewrite !append_nil in H. congruence.
  - rewrite append_nil, append_cons in H. injection H as _ H.
    destruct b; discriminate.
  - rewrite append_nil, append_cons in H. injection H as _ H.
    destruct a; discriminate.
  - rewrite !append_cons in H. injection H as _ H. exact (IH b H).
Qed.

Lemma slash_is_no_tar_suffix (p : string) : Go.HasSuffix (p ++ "/") ".tar" = false.
Proof.
  destruct (Go.HasSuffix (p ++ "/") ".tar") eqn:H; [|reflexivity].
  apply HasSuffix_inv in H as [pre H].
  change ".tar" with (".ta" ++ String "r" EmptyString) in H.
  rewrite <- append_assoc in H. apply same_last_byte in H. discriminate.
Qed.

(** X6. A tarred bag, the untarred directory of the same name and that
    directory written with a trailing path separator all use the same
    validation database: the name without the .tar suffix and without the
    trailing separator, followed by .valdb. *)
Theorem DBName_same_for_tar_and_directory
    (p : string) (preserve : bool) (obj : string) (tagFiles : list string) (m s : bool) :
  Go.HasSuffix p ".tar" = false ->
  Go.HasSuffix p "/" = false ->
  DBName (BuildValidator p preserve obj tagFiles m s) = p ++ ".valdb"
  /\ DBName (BuildValidator (p ++ ".tar") preserve obj tagFiles m s) = p ++ ".valdb"
  /\ DBName (BuildValidator (p ++ "/") preserve obj tagFiles m s) = p ++ ".valdb".
Proof.
  intros Htar Hsep. unfold DBName. cbn [PathToBag]. repeat split.
  - rewrite Htar, Hsep. reflexivity.
  - rewrite HasSuffix_append, length_append.
    replace (String.length p + String.length ".tar" - 4)%nat with (String.length p)
      by (cbn [String.length]; lia).
    rewrite substring_front, Hsep. reflexivity.
  - rewrite slash_is_no_tar_suffix, HasSuffix_append, length_append.
    replace (String.length p + String.length "/" - 1)%nat with (String.length p)
      by (cbn [String.length]; lia).
    rewrite substring_front. reflexivity.
Qed.

(** X6 on the bag path /mnt/apt/bag1. *)
Lemma DBName_witness :
  Go.HasSuffix "/mnt/apt/bag1" ".tar" = false
  /\ Go.HasSuffix "/mnt/apt/bag1" "/" = false
  /\ DBName (BuildValidator "/mnt/apt/bag1.tar" true "bag1" [] true true)
     = "/mnt/apt/bag1.valdb"
  /\ DBName (BuildValidator "/mnt/apt/bag1/" true "bag1" [] true true)
     = "/mnt/apt/bag1.valdb".
Proof.
  split; [reflexivity|]. split; [reflexivity|].
  pose proof (DBName_same_for_tar_and_directory
                "/mnt/apt/bag1" true "bag1" [] true true eq_refl eq_refl)
    as [_ [Htar Hdir]].
  split; [exact Htar | exact Hdir].
Defined.

End DatabaseName.

(* ===================================================================== *)
(* The form of the computed digests (validator.go, calculateChecksums)   *)
(* ===================================================================== *)

Section DigestForm.

Import Validation FirstPass.

Lemma hexdigit_is_hex (d : Z) : 0 <= d < 16 -> isHexDigit (Bytes.hexdigit d) = true.
Proof.
  intros H.
  assert (d = 0 \/ d = 1 \/ d = 2 \/ d = 3 \/ d = 4 \/ d = 5 \/ d = 6 \/ d = 7 \/ d = 8
          \/ d = 9 \/ d = 10 \/ d = 11 \/ d = 12 \/ d = 13 \/ d = 14 \/ d = 15) as Hd by lia.
  repeat (destruct Hd as [->|Hd]; [reflexivity|]). subst d. reflexivity.
Qed.

Lemma hex_form (bs : list Z) :
  Forall byteRange bs ->
  String.length (Bytes.hex bs) = (2 * length bs)%nat /\ allHex (Bytes.hex bs) = true.
Proof.
  induction 1 as [|b bs Hb _ [IH1 IH2]]; [split; reflexivity|].
  cbn [Bytes.hex String.length allHex length]. split; [rewrite IH1; lia|].
  unfold byteRange in Hb.
  rewrite !hexdigit_is_hex, IH2; [reflexivity| |].
  - change 15 with (Z.ones 4). rewrite Z.land_ones by lia.
    change (2 ^ 4) with 16. apply Z.mod_pos_bound. lia.
  - rewrite Z.shiftr_div_pow2 by lia. change (2 ^ 4) with 16.
    split; [apply Z.div_pos; lia | apply Z.div_lt_upper_bound; lia].
Qed.

Lemma le_bytes_form (n : nat) :
  forall x, length (Bytes.le_bytes n x) = n /\ Forall byteRange (Bytes.le_bytes n x).
Proof.
  induction n as [|n IH]; intros x; [split; [reflexivity | constructor]|].
  cbn [Bytes.le_bytes length]. destruct (IH (x / 256)) as [H1 H2].
  split; [rewrite H1; reflexivity|].
  constructor; [apply Z.mod_pos_bound; lia | exact H2].
Qed.

Lemma be_bytes_form (n : nat) (x : Z) :
  length (Bytes.be_bytes n x) = n /\ Forall byteRange (Bytes.be_bytes n x).
Proof.
  unfold Bytes.be_bytes. destruct (le_bytes_form n x) as [H1 H2].
  split; [rewrite length_rev; exact H1 | apply Forall_rev; exact H2].
Qed.

Lemma md5_sum_form (msg : list Z) :
  length (Hash.md5_sum msg) = 16%nat /\ Forall byteRange (Hash.md5_sum msg).
Proof.
  unfold Hash.md5_sum.
  destruct (fold_left Hash.md5_block _ _) as [[[a b] c] d].
  destruct (le_bytes_form 4 a) as [La Fa]. destruct (le_bytes_form 4 b) as [Lb Fb].
  destruct (le_bytes_form 4 c) as [Lc Fc]. destruct (le_bytes_form 4 d) as [Ld Fd].
  split.
  - rewrite !length_app, La, Lb, Lc, Ld. reflexivity.
  - repeat (apply Forall_app; split); assumption.
Qed.

Lemma sha_round_length (w st : list Z) (i : nat) :
  length (Hash.sha_round w st i) = length st.
Proof.
  destruct st as [|a [|b [|c [|d [|e [|f [|g [|h [|x r]]]]]]]]]; reflexivity.
Qed.

Lemma add32_all_length (xs : list Z) :
  forall ys, length ys = length xs -> length (Hash.add32_all xs ys) = length xs.
Proof.
  induction xs as [|x xs IH]; intros [|y ys] H; try discriminate; [reflexivity|].
  cbn [Hash.add32_all length]. rewrite IH; [reflexivity|]. injection H as H. exact H.
Qed.

Lemma sha_block_length (st blk : list Z) :
  length (Hash.sha_block st blk) = length st.
Proof.
  unfold Hash.sha_block. apply add32_all_length.
  generalize (seq 0 64). intros l. revert st.
  induction l as [|i l IH]; intros st; [reflexivity|].
  cbn [fold_left]. rewrite IH. apply sha_round_length.
Qed.

Lemma sha256_sum_form (msg : list Z) :
  length (Hash.sha256_sum msg) = 32%nat /\ Forall byteRange (Hash.sha256_sum msg).
Proof.
  unfold Hash.sha256_sum.
  assert (H : length (fold_left Hash.sha_block
                        (Bytes.blocks (length (Bytes.pad (Bytes.be_bytes 8) msg) / 64)
                                      (Bytes.pad (Bytes.be_bytes 8) msg))
                        Hash.shaH) = 8%nat).
  { generalize (Bytes.blocks (length (Bytes.pad (Bytes.be_bytes 8) msg) / 64)
                             (Bytes.pad (Bytes.be_bytes 8) msg)).
    intros blocks. change 8%nat with (length Hash.shaH).
    generalize Hash.shaH. induction blocks as [|blk blocks IH]; intros st; [reflexivity|].
    cbn [fold_left]. rewrite IH. apply sha_block_length. }
  revert H. generalize (fold_left Hash.sha_block
                        (Bytes.blocks (length (Bytes.pad (Bytes.be_bytes 8) msg) / 64)
                                      (Bytes.pad (Bytes.be_bytes 8) msg))
                        Hash.shaH).
  intros st Hst.
  assert (G : forall l : list Z,
             length (flat_map (Bytes.be_bytes 4) l) = (4 * length l)%nat
             /\ Forall byteRange (flat_map (Bytes.be_bytes 4) l)).
  { induction l as [|x l [IH1 IH2]]; [split; [reflexivity | constructor]|].
    cbn [flat_map]. destruct (be_bytes_form 4 x) as [H1 H2]. split.
    - rewrite length_app, H1, IH1. cbn [length]. lia.
    - apply Forall_app. split; assumption. }
  destruct (G st) as [G1 G2]. split; [rewrite G1, Hst; reflexivity | exact G2].
Qed.

(** X7. Whatever the file holds, the md5 digest calculateChecksums records
    is 32 lower-case hexadecimal digits and the sha256 digest is 64; the
    digest of an algorithm that is not enabled is left as it was. *)
Theorem computed_digests_are_hexadecimal
    (now : Z) (v : Validator) (reader : string) (gf : GenericFile.t) :
  let gf' := snd (calculateChecksums now v reader gf) in
  (if calculateMd5 v
   then String.length (GenericFile.IngestMd5 gf') = 32%nat
        /\ allHex (GenericFile.IngestMd5 gf') = true
   else GenericFile.IngestMd5 gf' = GenericFile.IngestMd5 gf)
  /\ (if calculateSha256 v
      then String.length (GenericFile.IngestSha256 gf') = 64%nat
           /\ allHex (GenericFile.IngestSha256 gf') = true
      else GenericFile.IngestSha256 gf' = GenericFile.IngestSha256 gf).
Proof.
  assert (Hmd5 : String.length (Hash.md5_hex reader) = 32%nat
                 /\ allHex (Hash.md5_hex reader) = true).
  { unfold Hash.md5_hex. destruct (md5_sum_form (Bytes.of_string reader)) as [L F].
    destruct (hex_form _ F) as [H1 H2]. rewrite H1, L. split; [reflexivity | exact H2]. }
  assert (Hsha : String.length (Hash.sha256_hex reader) = 64%nat
                 /\ allHex (Hash.sha256_hex reader) = true).
  { unfold Hash.sha256_hex. destruct (sha256_sum_form (Bytes.of_string reader)) as [L F].
    destruct (hex_form _ F) as [H1 H2]. rewrite H1, L. split; [reflexivity | exact H2]. }
  unfold calculateChecksums.
  destruct (calculateMd5 v), (calculateSha256 v), (PreserveExtendedAttributes v);
    cbn [snd]; split; first [exact Hmd5 | exact Hsha | reflexivity].
Qed.

End DigestForm.

(* ===================================================================== *)
(* Mime types of small files (validator.go, setMimeType)                 *)
(* ===================================================================== *)

Section MimeTypes.

Import Validation.

(** X8. A file of at most one byte is given the format text/empty without
    being read and without a guess of its mime type: the one-byte file is
    treated like the empty one. *)
Theorem setMimeType_at_most_one_byte
    (guess : string -> string * option string) (reader : string)
    (gf : GenericFile.t) (st : State) :
  -9223372036854775808 < GenericFile.Size gf <= 1 ->
  setMimeType guess reader gf st
  = Returned (GenericFile.set_FileFormat "text/empty" gf, st).
Proof.
  intros [Hlo Hhi]. unfold setMimeType.
  assert (H128 : (GenericFile.Size gf <? 128) = true) by (apply Z.ltb_lt; lia).
  rewrite H128.
  assert (Hw : wrap64 (GenericFile.Size gf - 1) = GenericFile.Size gf - 1).
  { unfold wrap64. rewrite Z.mod_small; lia. }
  rewrite Hw.
  assert (H1 : (GenericFile.Size gf - 1 <? 1) = true) by (apply Z.ltb_lt; lia).
  rewrite H1. reflexivity.
Qed.

Lemma setMimeType_one_byte_witness :
  -9223372036854775808 < GenericFile.Size (GenericFile.set_Size 1 GenericFile.New) <= 1
  /\ setMimeType Scenario.guessMime "x" (GenericFile.set_Size 1 GenericFile.New) newState
     = Returned (GenericFile.set_FileFormat "text/empty"
                   (GenericFile.set_Size 1 GenericFile.New), newState).
Proof.
  assert (H : -9223372036854775808
              < GenericFile.Size (GenericFile.set_Size 1 GenericFile.New) <= 1)
    by (cbn; lia).
  split; [exact H|].
  exact (setMimeType_at_most_one_byte Scenario.guessMime "x"
           (GenericFile.set_Size 1 GenericFile.New) newState H).
Defined.

Lemma substring_length_enough (s : string) :
  forall n, (n <= String.length s)%nat -> String.length (String.substring 0 n s) = n.
Proof.
  induction s as [|c s IH]; intros n Hn.
  - cbn in Hn. assert (n = O) as -> by lia. reflexivity.
  - destruct n as [|n]; [reflexivity|]. cbn in Hn |- *. rewrite IH; [reflexivity | lia].
Qed.

(** X9. For a file of two bytes or more the mime type is guessed from the
    first bytes of the file: 128 bytes when the file has at least 128, and
    otherwise one byte less than its size. When the reader holds that many
    bytes and the guess succeeds, no error is reported. *)
Theorem setMimeType_guesses_from_first_bytes
    (guess : string -> string * option string) (reader : string)
    (gf : GenericFile.t) (st : State) :
  2 <= GenericFile.Size gf < 9223372036854775808 ->
  let n := if GenericFile.Size gf <? 128 then GenericFile.Size gf - 1 else 128 in
  n <= Z.of_nat (String.length reader) ->
  snd (guess (String.substring 0 (Z.to_nat n) reader)) = None ->
  1 <= n <= 128
  /\ String.length (String.substring 0 (Z.to_nat n) reader) = Z.to_nat n
  /\ setMimeType guess reader gf st
     = Returned (GenericFile.set_FileFormat
                   (fst (guess (String.substring 0 (Z.to_nat n) reader))) gf, st).
Proof.
  intros [Hlo Hhi] n Hlen Hguess.
  assert (Hn : 1 <= n <= 128).
  { subst n. destruct (GenericFile.Size gf <? 128) eqn:H; [|lia].
    apply Z.ltb_lt in H. lia. }
  assert (Hsub : String.length (String.substring 0 (Z.to_nat n) reader) = Z.to_nat n).
  { apply substring_length_enough. lia. }
  split; [exact Hn|]. split; [exact Hsub|].
  unfold setMimeType.
  assert (Hbuf : (if GenericFile.Size gf <? 128
                  then wrap64 (GenericFile.Size gf - 1) else 128) = n).
  { subst n. destruct (GenericFile.Size gf <? 128); [|reflexivity].
    unfold wrap64. rewrite Z.mod_small; lia. }
  rewrite Hbuf.
  assert (H1 : (n <? 1) = false) by (apply Z.ltb_ge; lia).
  rewrite H1, andb_false_r.
  assert (H2 : (maxAlloc <? n) = false) by (apply Z.ltb_ge; unfold maxAlloc; lia).
  rewrite H2. unfold readBuffer. rewrite Hsub, Nat.sub_diag. cbn [repeat string_of_list_ascii].
  rewrite append_empty_r.
  assert (Hne : Go.is_empty reader = false).
  { destruct reader; [cbn in Hlen; lia | reflexivity]. }
  rewrite Hne. unfold bind, ret.
  destruct (guess (String.substring 0 (Z.to_nat n) reader)) as [format err] eqn:Hg.
  cbn [fst snd] in *. subst err. reflexivity.
Qed.

Lemma setMimeType_guess_witness :
  let gf := GenericFile.set_Size 5 GenericFile.New in
  2 <= GenericFile.Size gf < 9223372036854775808
  /\ 4 <= Z.of_nat (String.length "hello")
  /\ snd (Scenario.guessMime (String.substring 0 (Z.to_nat 4) "hello")) = None
  /\ setMimeType Scenario.guessMime "hello" gf newState
     = Returned (GenericFile.set_FileFormat "application/octet-stream" gf, newState).
Proof.
  intros gf.
  assert (H1 : 2 <= GenericFile.Size gf < 9223372036854775808) by (cbn; lia).
  assert (H2 : 4 <= Z.of_nat (String.length "hello")) by (cbn; lia).
  split; [exact H1|]. split; [exact H2|]. split; [reflexivity|].
  exact (proj2 (proj2 (setMimeType_guesses_from_first_bytes
                         Scenario.guessMime "hello" gf newState H1 H2 eq_refl))).
Defined.

End MimeTypes.

(* ===================================================================== *)
(* Mount points (platform/posix.go)                                      *)
(* ===================================================================== *)

Section MountPoints.

Import Platform.

Lemma last_cons_default (A : Type) (l : list A) (x d : A) :
  List.last (x :: l) d = List.last l x.
Proof.
  revert x d. induction l as [|y l IH]; intros x d; [reflexivity|].
  change (List.last (x :: y :: l) d) with (List.last (y :: l) d).
  rewrite (IH y d), (IH y x). reflexivity.
Qed.

Lemma considerLine_choice (path acc line : string) :
  considerLine path acc line
  = if Go.HasPrefix path (lastWord line) && negb (Go.is_empty (lastWord line))
    then lastWord line else acc.
Proof.
  unfold considerLine. destruct (lastWord line); reflexivity.
Qed.

Lemma mount_point_fold (path : string) (lines : list string) :
  forall acc,
    fold_left (considerLine path) lines acc
    = List.last (List.filter (fun m => Go.HasPrefix path m && negb (Go.is_empty m))
                        (map lastWord lines)) acc.
Proof.
  induction lines as [|line lines IH]; intros acc; [reflexivity|].
  cbn [fold_left map List.filter]. rewrite IH, considerLine_choice.
  destruct (Go.HasPrefix path (lastWord line) && negb (Go.is_empty (lastWord line)));
    [rewrite last_cons_default|]; reflexivity.
Qed.

(** X10. GetMountPointFromPath returns the last column of the last line of
    the df output, the header line apart, whose last column is not empty and
    is a prefix of the path, and the empty string when there is no such
    line. It is the last such line, not the one with the longest mount
    point. *)
Theorem GetMountPointFromPath_last_matching_line (out path : string) :
  GetMountPointFromPath (Ok out) path
  = Ok (List.last (List.filter (fun m => Go.HasPrefix path m && negb (Go.is_empty m))
                          (map lastWord (tl (Text.Split "010" out))))
                  EmptyString).
Proof.
  unfold GetMountPointFromPath. f_equal. apply mount_point_fold.
Qed.

(** X11. The mount point GetMountPointFromPath returns is empty or a prefix
    of the path. *)
Theorem GetMountPointFromPath_is_prefix (out path mount : string) :
  GetMountPointFromPath (Ok out) path = Ok mount ->
  mount = EmptyString \/ Go.HasPrefix path mount = true.
Proof.
  unfold GetMountPointFromPath. intros H. injection H as <-.
  generalize (tl (Text.Split "010" out)). intros lines.
  assert (G : forall acc,
             (acc = EmptyString \/ Go.HasPrefix path acc = true) ->
             fold_left (considerLine path) lines acc = EmptyString
             \/ Go.HasPrefix path (fold_left (considerLine path) lines acc) = true).
  { induction lines as [|line lines IH]; intros acc Hacc; [exact Hacc|].
    cbn [fold_left]. apply IH. rewrite considerLine_choice.
    destruct (Go.HasPrefix path (lastWord line)) eqn:Hp; cbn [andb]; [|exact Hacc].
    destruct (Go.is_empty (lastWord line)); cbn [negb]; [exact Hacc | right; exact Hp]. }
  apply G. left. reflexivity.
Qed.

Lemma GetMountPointFromPath_witness :
  GetMountPointFromPath (Ok Platform.dfSample) "/mnt/apt/bag1.tar" = Ok "/mnt"
  /\ ("/mnt" = EmptyString \/ Go.HasPrefix "/mnt/apt/bag1.tar" "/mnt" = true).
Proof.
  assert (H : GetMountPointFromPath (Ok Platform.dfSample) "/mnt/apt/bag1.tar" = Ok "/mnt")
    by reflexivity.
  split; [exact H|].
  exact (GetMountPointFromPath_is_prefix Platform.dfSample "/mnt/apt/bag1.tar" "/mnt" H).
Defined.

End MountPoints.

(* ===================================================================== *)
(* Sessions and uploads (network/s3_upload.go)                           *)
(* ===================================================================== *)

Section Uploads.

Import Network.

(** X12. A session once obtained is kept: after a GetSession that returned
    a session, every later GetSession returns the same session and leaves
    the client as it is, whatever GetS3Session would answer by then. *)
Theorem GetSession_reuses_session
    (first later : string -> option string * option string)
    (client : S3Upload) (s : string) :
  snd (GetSession first client) = Some s ->
  GetSession later (fst (GetSession first client))
  = (fst (GetSession first client), Some s).
Proof.
  unfold GetSession. destruct (session client) as [s0|] eqn:Hs.
  - cbn [fst snd]. intros H. injection H as ->. rewrite Hs. reflexivity.
  - destruct (first (AWSRegion client)) as [got err]. cbn [fst snd session].
    intros ->. reflexivity.
Qed.

Lemma GetSession_witness :
  let client := NewS3Upload "us-east-1" "bucket" "key" "/tmp/file" "text/plain" in
  snd (GetSession (fun r => (Some r, None)) client) = Some "us-east-1"
  /\ snd (GetSession (fun _ => (None, Some "no credentials"))
                     (fst (GetSession (fun r => (Some r, None)) client)))
     = Some "us-east-1".
Proof.
  intros client.
  assert (H : snd (GetSession (fun r => (Some r, None)) client) = Some "us-east-1")
    by reflexivity.
  split; [exact H|].
  rewrite (GetSession_reuses_session (fun r => (Some r, None))
             (fun _ => (None, Some "no credentials")) client "us-east-1" H).
  reflexivity.
Defined.

(** X13. Send leaves the region, the local path, the bucket, the key, the
    content type and the metadata of the upload as they were. On an upload
    that has no response yet, a response after Send means that the local
    file was opened, a session was there, and Upload returned that response
    for the request with the file as its body. *)
Theorem Send_response_comes_from_upload
    (os_Open : string -> Result string)
    (GetS3Session : string -> option string * option string)
    (Upload : string -> UploadInput -> option UploadOutput * option string)
    (client : S3Upload) :
  let sent := Send os_Open GetS3Session Upload client in
  AWSRegion sent = AWSRegion client
  /\ LocalPath sent = LocalPath client
  /\ Bucket (Input sent) = Bucket (Input client)
  /\ Key (Input sent) = Key (Input client)
  /\ ContentType (Input sent) = ContentType (Input client)
  /\ Metadata (Input sent) = Metadata (Input client)
  /\ (Response client = None ->
      forall out, Response sent = Some out ->
        exists file s,
          os_Open (LocalPath client) = Ok file
          /\ session sent = Some s
          /\ Body (Input sent) = Some file
          /\ fst (Upload s (Input sent)) = Some out).
Proof.
  cbv zeta. unfold Send.
  destruct (os_Open (LocalPath client)) as [file|e] eqn:Hopen.
  - unfold GetSession. destruct (session client) as [s0|] eqn:Hs.
    + destruct (Upload s0 _) as [response err] eqn:Hup. cbn.
      repeat split. intros _ out ->. exists file, s0.
      rewrite Hup. repeat split. exact Hs.
    + destruct (GetS3Session (AWSRegion client)) as [[s1|] gerr].
      * cbn [AWSRegion LocalPath ErrorMessage Input Response session].
        destruct (Upload s1 _) as [response err] eqn:Hup. cbn.
        repeat split. intros _ out ->. exists file, s1.
        rewrite Hup. repeat split.
      * cbn. repeat split. intros -> out H. discriminate H.
  - cbn. repeat split. intros -> out H. discriminate H.
Qed.

Lemma Send_witness :
  let client := NewS3Upload "us-east-1" "bucket" "key" "/tmp/file" "text/plain" in
  let sent := Send (fun _ => Ok "bytes") (fun r => (Some r, None))
                   (fun _ i => (Some (BuildOutput ("https://s3/" ++ Key i)), None))
                   client in
  Response client = None
  /\ Response sent = Some (BuildOutput "https://s3/key")
  /\ exists file s, Body (Input sent) = Some file /\ session sent = Some s.
Proof.
  intros client sent.
  assert (H1 : Response client = None) by reflexivity.
  assert (H2 : Response sent = Some (BuildOutput "https://s3/key")) by reflexivity.
  split; [exact H1|]. split; [exact H2|].
  destruct (Send_response_comes_from_upload
              (fun _ => Ok "bytes") (fun r => (Some r, None))
              (fun _ i => (Some (BuildOutput ("https://s3/" ++ Key i)), None)) client)
    as [_ [_ [_ [_ [_ [_ H]]]]]].
  destruct (H H1 _ H2) as [file [s [_ [Hs [Hb _]]]]].
  exists file, s. split; [exact Hb | exact Hs].
Defined.

End Uploads.

(* ===================================================================== *)
(* Errors only accumulate (validator.go, Validate and what it calls)     *)
(* ===================================================================== *)

Section Accumulation.

Import Fileutil Validation FirstPass.

Lemma accumulates_refl (st : State) : accumulates st st.
Proof.
  repeat split. exists []. rewrite app_nil_r. reflexivity.
Qed.

Lemma accumulates_trans (st1 st2 st3 : State) :
  accumulates st1 st2 -> accumulates st2 st3 -> accumulates st1 st3.
Proof.
  intros [A1 [B1 [C1 [D1 [l1 E1]]]]] [A2 [B2 [C2 [D2 [l2 E2]]]]].
  repeat split; try congruence.
  exists (l1 ++ l2)%list. rewrite E2, E1, app_assoc. reflexivity.
Qed.

Lemma accumulating_ret (A : Type) (a : A) : accumulating (ret a).
Proof. intros st x st' H. injection H as _ <-. apply accumulates_refl. Qed.

Lemma accumulating_panic (A : Type) (msg : string) : accumulating (@panic A msg).
Proof. intros st x st' H. discriminate H. Qed.

Lemma accumulating_bind (A B : Type) (c : M A) (k : A -> M B) :
  accumulating c -> (forall a, accumulating (k a)) -> accumulating (bind c k).
Proof.
  intros Hc Hk st b st' H. unfold bind in H.
  destruct (c st) as [[a st1]|msg] eqn:E; [|discriminate].
  exact (accumulates_trans _ _ _ (Hc _ _ _ E) (Hk a _ _ _ H)).
Qed.

Lemma accumulating_AddError (msg : string) : accumulating (AddError msg).
Proof.
  intros st x st' H. injection H as _ <-. repeat split. exists [msg]. reflexivity.
Qed.

Lemma accumulating_same_summary (A : Type) (c : M A) :
  (forall st a st', c st = Returned (a, st') -> summary st' = summary st) ->
  accumulating c.
Proof.
  intros Hc st a st' H. unfold accumulates. rewrite (Hc _ _ _ H).
  repeat split. exists []. rewrite app_nil_r. reflexivity.
Qed.

Lemma accumulating_HasErrors : accumulating HasErrors.
Proof. apply accumulating_same_summary. intros st a st' H. injection H as _ <-. reflexivity. Qed.

Lemma accumulating_Save (key : string) (r : DbRecord) : accumulating (Save key r).
Proof. apply accumulating_same_summary. intros st a st' H. injection H as _ <-. reflexivity. Qed.

Lemma accumulating_GetGenericFile (key : string) : accumulating (GetGenericFile key).
Proof.
  apply accumulating_same_summary. intros st a st' H. unfold GetGenericFile in H.
  destruct (db st !! key) as [[o|gf]|]; injection H as _ <-; reflexivity.
Qed.

Lemma accumulating_GetIntellectualObject (key : string) :
  accumulating (GetIntellectualObject key).
Proof.
  apply accumulating_same_summary. intros st a st' H. unfold GetIntellectualObject in H.
  destruct (db st !! key) as [[o|gf]|]; injection H as _ <-; reflexivity.
Qed.

Lemma accumulating_appendManifest (p : string) : accumulating (appendManifest p).
Proof. apply accumulating_same_summary. intros st a st' H. injection H as _ <-. reflexivity. Qed.

Lemma accumulating_appendTagManifest (p : string) : accumulating (appendTagManifest p).
Proof. apply accumulating_same_summary. intros st a st' H. injection H as _ <-. reflexivity. Qed.

Lemma accumulating_getManifests : accumulating getManifests.
Proof. apply accumulating_same_summary. intros st a st' H. injection H as _ <-. reflexivity. Qed.

Lemma accumulating_getTagManifests : accumulating getTagManifests.
Proof. apply accumulating_same_summary. intros st a st' H. injection H as _ <-. reflexivity. Qed.

Lemma accumulating_drawUUID (NewV4 : nat -> string) : accumulating (drawUUID NewV4).
Proof. apply accumulating_same_summary. intros st a st' H. injection H as _ <-. reflexivity. Qed.

(** Steps through a computation of the validator: binds, branches and the
    operations on the state. *)
Ltac accumulate_step :=
  first
    [ apply accumulating_ret
    | apply accumulating_panic
    | apply accumulating_AddError
    | apply accumulating_HasErrors
    | apply accumulating_Save
    | apply accumulating_GetGenericFile
    | apply accumulating_GetIntellectualObject
    | apply accumulating_appendManifest
    | apply accumulating_appendTagManifest
    | apply accumulating_getManifests
    | apply accumulating_getTagManifests
    | apply accumulating_drawUUID
    | assumption
    | apply accumulating_bind; [|intros ?]
    | match goal with
      | |- accumulating (if ?c then _ else _) => destruct c
      | |- accumulating (match ?x with _ => _ end) => destruct x
      end ].

Ltac accumulate := repeat accumulate_step.

Section Pieces.

Variable now : Z.
Variable NewV4 : nat -> string.
Variable guess : string -> string * option string.
Variable v : Validator.

Lemma accumulating_getIntellectualObject : accumulating (getIntellectualObject v).
Proof. unfold getIntellectualObject, initIntellectualObject. accumulate. Qed.

Lemma accumulating_addFile (item : IterItem) : accumulating (addFile now NewV4 v item).
Proof. unfold addFile, setFileType. accumulate. Qed.

Lemma accumulating_addFilesLoop (items : list IterItem) :
  accumulating (addFilesLoop now NewV4 v items).
Proof.
  induction items as [|item items IH]; cbn [addFilesLoop]; [accumulate|].
  apply accumulating_bind; [apply accumulating_addFile|]. intros err. accumulate.
Qed.

Lemma accumulating_parseTagLine (rel : string)
    (vars : IntellectualObject.t * option Tag.t) (line : string) :
  accumulating (parseTagLine rel vars line).
Proof. unfold parseTagLine. accumulate. Qed.

Lemma accumulating_parseTagLines (rel : string) (lines : list string) :
  forall vars, accumulating (parseTagLines rel vars lines).
Proof.
  induction lines as [|line lines IH]; intros vars; cbn [parseTagLines]; [accumulate|].
  apply accumulating_bind; [apply accumulating_parseTagLine | intros vars'; apply IH].
Qed.

Lemma accumulating_parseTags (reader rel : string) : accumulating (parseTags v reader rel).
Proof.
  unfold parseTags.
  apply accumulating_bind; [apply accumulating_getIntellectualObject|].
  intros [obj|e]; [|accumulate].
  destruct (Go.ScanLines reader) as [lines scanErr].
  apply accumulating_bind; [apply accumulating_parseTagLines|]. intros vars. accumulate.
Qed.

Lemma accumulating_parseManifestLine (alg rel line : string) :
  accumulating (parseManifestLine v alg rel line).
Proof. unfold parseManifestLine. accumulate. Qed.

Lemma accumulating_parseManifestLines (alg rel : string) (lines : list string) :
  accumulating (parseManifestLines v alg rel lines).
Proof.
  induction lines as [|line lines IH]; cbn [parseManifestLines]; [accumulate|].
  apply accumulating_bind; [apply accumulating_parseManifestLine | intros _; exact IH].
Qed.

Lemma accumulating_parseManifest (reader : string) (fs : FileSummary) :
  accumulating (parseManifest v reader fs).
Proof.
  unfold parseManifest.
  destruct (Go.Contains (RelPath fs) Constants.AlgSha256);
    [apply accumulating_parseManifestLines|].
  destruct (Go.Contains (RelPath fs) Constants.AlgMd5);
    [apply accumulating_parseManifestLines | accumulate].
Qed.

Lemma accumulating_setMimeType (reader : string) (gf : GenericFile.t) :
  accumulating (setMimeType guess reader gf).
Proof. unfold setMimeType. accumulate. Qed.

Lemma accumulating_parseOrSetMimeType (reader : string) (gf : GenericFile.t)
    (fs : FileSummary) :
  accumulating (parseOrSetMimeType guess v reader gf fs).
Proof.
  unfold parseOrSetMimeType.
  repeat first [ apply accumulating_parseTags | apply accumulating_parseManifest
               | apply accumulating_setMimeType | accumulate_step ].
Qed.

Lemma accumulating_secondPassLoop (items : list IterItem) :
  accumulating (secondPassLoop guess v items).
Proof.
  induction items as [|item items IH]; cbn [secondPassLoop]; [accumulate|].
  repeat first [ apply accumulating_parseOrSetMimeType | accumulate_step ].
Qed.

Lemma accumulating_readBag (bag : Result (list IterItem)) :
  accumulating (readBag now NewV4 guess v bag).
Proof.
  unfold readBag, addFiles, parseManifestsTagFilesAndMimeTypes.
  repeat first [ apply accumulating_getIntellectualObject | apply accumulating_addFilesLoop
               | apply accumulating_secondPassLoop | accumulate_step ].
Qed.

(** X14. When Validate returns, the summary it returns is the validator's
    summary, marked attempted, with the attempt number raised by one and
    the start and finish times set, and every error the summary held before
    is still there, in the same order, before the errors of this run. *)
Theorem Validate_only_adds_errors
    (contents : gmap string DbRecord) (bag : Result (list IterItem))
    (st st' : State) (r : Result WorkSummary.t) :
  Validate now NewV4 guess v (Ok contents) bag st = Returned (r, st') ->
  r = Ok (summary st')
  /\ WorkSummary.Attempted (summary st') = true
  /\ WorkSummary.AttemptNumber (summary st')
     = WorkSummary.AttemptNumber (summary st) + 1
  /\ WorkSummary.StartedAt (summary st') = now
  /\ WorkSummary.FinishedAt (summary st') = now
  /\ exists added,
       WorkSummary.Errors (summary st')
       = (WorkSummary.Errors (summary st) ++ added)%list.
Proof.
  unfold Validate. intros H.
  unfold bind at 1 in H. cbn [openDB] in H.
  unfold bind at 1 in H. cbn [updSummary summary manifests tagManifests db uuids] in H.
  unfold bind at 1 in H. cbn [updSummary summary manifests tagManifests db uuids] in H.
  unfold bind at 1 in H. cbn [updSummary summary manifests tagManifests db uuids] in H.
  unfold bind at 1 in H.
  match type of H with
  | match readBag _ _ _ _ _ ?s0 with _ => _ end = _ =>
      destruct (readBag now NewV4 guess v bag s0) as [[u st1]|msg] eqn:Hread;
        [|discriminate]
  end.
  apply accumulating_readBag in Hread.
  destruct Hread as [A [B [C [D [added E]]]]].
  cbn [summary WorkSummary.Attempted WorkSummary.AttemptNumber WorkSummary.StartedAt
       WorkSummary.FinishedAt WorkSummary.Errors WorkSummary.set_AttemptNumber
       WorkSummary.set_Attempted WorkSummary.Start] in A, B, C, D, E.
  unfold bind, HasErrors, ret, updSummary in H.
  destruct (negb (WorkSummary.HasErrors (summary st1))); injection H as <- <-;
    cbn [summary WorkSummary.Finish WorkSummary.Attempted WorkSummary.AttemptNumber
         WorkSummary.StartedAt WorkSummary.FinishedAt WorkSummary.Errors];
    (repeat split; try assumption; exists added; exact E).
Qed.

End Pieces.

Lemma Validate_witness :
  let v := Scenario.tarValidator "bag1" false [] in
  let st0 := BuildState (WorkSummary.AddError "left over" WorkSummary.New) [] [] ∅ O in
  exists r st',
    Validate Scenario.clock Scenario.uuid Scenario.guessMime v (Ok ∅)
             (Ok Scenario.badChecksumBag) st0 = Returned (r, st')
    /\ WorkSummary.AttemptNumber (summary st') = 1
    /\ exists added, WorkSummary.Errors (summary st') = ("left over" :: added)%list.
Proof.
  intros v st0.
  destruct (Validate Scenario.clock Scenario.uuid Scenario.guessMime v (Ok ∅)
                     (Ok Scenario.badChecksumBag) st0) as [[r st']|msg] eqn:H.
  - exists r, st'. split; [reflexivity|].
    destruct (Validate_only_adds_errors _ _ _ _ _ _ _ _ _ H) as [_ [_ [Hn [_ [_ He]]]]].
    split; [exact Hn | exact He].
  - vm_compute in H. discriminate H.
Defined.

End Accumulation.


(* ===================================================================== *)
(* Formats without operands (fmt.Sprintf as AddError uses it)            *)
(* ===================================================================== *)

Section Formats.

Import Text.

(** The renderer on the formats of the documentation of package fmt. *)
Lemma format_missing_operand : Go.Sprintf "hi%d" = "hi%!d(MISSING)".
Proof. reflexivity. Qed.

Lemma format_percent_at_end : Go.Sprintf "disk is 100%" = "disk is 100%!(NOVERB)".
Proof. reflexivity. Qed.

Lemma format_doubled_percent : Go.Sprintf "50%% of %v" = "50% of %!v(MISSING)".
Proof. reflexivity. Qed.

Lemma format_width_and_precision : Go.Sprintf "%-8.3f|%*d" = "%!f(MISSING)|%!(BADWIDTH)%!d(MISSING)".
Proof. reflexivity. Qed.

Lemma format_bad_index : Go.Sprintf "%[1]d and %.[2]d" = "%!d(BADINDEX) and %!d(BADINDEX)".
Proof. reflexivity. Qed.

Lemma dropFlags_length (s : string) :
  (String.length (Go.dropFlags s) <= String.length s)%nat.
Proof.
  induction s as [|a r IH]; [apply Nat.le_refl|].
  cbn [Go.dropFlags]. destruct (Go.isFlag a); cbn [String.length]; lia.
Qed.

Lemma parsenumFrom_length (s : string) :
  forall num isnum,
    (String.length (snd (Go.parsenumFrom num isnum s)) <= String.length s)%nat.
Proof.
  induction s as [|a r IH]; intros num isnum; [apply Nat.le_refl|].
  cbn [Go.parsenumFrom]. destruct (Go.isDigit a); [|apply Nat.le_refl].
  destruct (1000000 <? num); cbn [snd String.length]; [lia|].
  specialize (IH (num * 10 + (Bytes.code a - 48)) true). lia.
Qed.

Lemma cutBracket_length (s inner after : string) :
  Go.cutBracket s = Some (inner, after) ->
  (String.length after < String.length s)%nat.
Proof.
  revert inner. induction s as [|a r IH]; intros inner H; [discriminate|].
  cbn [Go.cutBracket] in H. destruct (Go.byte_is 93 a).
  - injection H as _ <-. cbn [String.length]. lia.
  - destruct (Go.cutBracket r) as [[i0 a0]|]; [|discriminate].
    injection H as _ <-. specialize (IH i0 eq_refl). cbn [String.length]. lia.
Qed.

Lemma tail_length (s : string) : (String.length (Go.tail s) <= String.length s)%nat.
Proof. destruct s; cbn [Go.tail String.length]; lia. Qed.

Lemma argNumber_length (s : string) :
  (String.length (snd (fst (Go.argNumber s))) <= String.length s)%nat.
Proof.
  unfold Go.argNumber. destruct s as [|a r]; [apply Nat.le_refl|].
  destruct (Go.byte_is 91 a); [|apply Nat.le_refl].
  destruct (String.length (String a r) <? 3)%nat; [cbn [fst snd String.length]; lia|].
  destruct (Go.cutBracket r) as [[inner after]|] eqn:Hcut.
  - destruct (Go.parsenum inner) as [isnum remains]. cbn [fst snd].
    pose proof (cutBracket_length _ _ _ Hcut). cbn [String.length]. lia.
  - cbn [fst snd String.length]. lia.
Qed.

Lemma writeRune_length (a : ascii) (r : string) :
  (String.length (snd (Go.writeRune a r)) <= String.length r)%nat.
Proof.
  unfold Go.writeRune.
  repeat match goal with
         | |- context [if ?c then _ else _] => destruct c
         | |- context [match ?x with EmptyString => _ | String _ _ => _ end] =>
             is_var x; destruct x
         end;
    cbn [snd String.length]; lia.
Qed.

Lemma width_length (state : bool * string * bool) :
  (String.length (snd (fst (snd (Go.width state)))) <= String.length (snd (fst state)))%nat.
Proof.
  destruct state as [[good s] afterIndex]. unfold Go.width.
  destruct (Go.startsWith 42 s).
  - cbn [fst snd]. apply tail_length.
  - unfold Go.parsenum. pose proof (parsenumFrom_length s 0 false) as H.
    destruct (Go.parsenumFrom 0 false s) as [widPresent s']. exact H.
Qed.

Lemma precision_length (state : bool * string * bool) :
  (String.length (snd (fst (snd (Go.precision state))))
   <= String.length (snd (fst state)))%nat.
Proof.
  destruct state as [[good s] afterIndex]. unfold Go.precision.
  destruct (Go.startsWith 46 s && (1 <? String.length s)%nat); [|apply Nat.le_refl].
  pose proof (argNumber_length (Go.tail s)) as H1. pose proof (tail_length s) as H0.
  destruct (Go.argNumber (Go.tail s)) as [[good' s'] afterIndex']. cbn [fst snd] in *.
  destruct (Go.startsWith 42 s'); cbn [fst snd].
  - pose proof (tail_length s'). lia.
  - pose proof (parsenumFrom_length s' 0 false). unfold Go.parsenum. lia.
Qed.

Lemma lastIndex_length (state : bool * string * bool) :
  (String.length (snd (Go.lastIndex state)) <= String.length (snd (fst state)))%nat.
Proof.
  destruct state as [[good s] afterIndex]. unfold Go.lastIndex.
  destruct afterIndex; [apply Nat.le_refl|].
  pose proof (argNumber_length s) as H.
  destruct (Go.argNumber s) as [[good' s'] found]. exact H.
Qed.

Lemma verb_length (good : bool) (s : string) :
  (String.length (snd (Go.verb good s)) <= String.length s)%nat.
Proof.
  destruct s as [|a r]; [apply Nat.le_refl|]. cbn [Go.verb].
  pose proof (writeRune_length a r) as H.
  destruct (Go.writeRune a r) as [rune rest]. cbn [snd] in H.
  destruct (Go.byte_is 37 a); [|destruct good]; cbn [snd String.length]; lia.
Qed.

(** The text after a verb is no longer than the text after its percent
    sign. *)
Lemma directive_length (s : string) :
  (String.length (snd (Go.directive s)) <= String.length s)%nat.
Proof.
  unfold Go.directive.
  pose proof (dropFlags_length s) as H0.
  pose proof (argNumber_length (Go.dropFlags s)) as H1.
  pose proof (width_length (Go.argNumber (Go.dropFlags s))) as H2.
  destruct (Go.width (Go.argNumber (Go.dropFlags s))) as [outW state1].
  pose proof (precision_length state1) as H3.
  destruct (Go.precision state1) as [outP state2].
  pose proof (lastIndex_length state2) as H4.
  destruct (Go.lastIndex state2) as [good s4].
  pose proof (verb_length good s4) as H5.
  destruct (Go.verb good s4) as [out rest].
  cbn [fst snd] in *. lia.
Qed.

(** The length of the format is fuel enough: more fuel gives the same
    text. *)
Lemma doPrintf_fuel (fuel : nat) :
  forall s more, (String.length s <= fuel)%nat ->
    Go.doPrintf (fuel + more) s = Go.doPrintf fuel s.
Proof.
  induction fuel as [|fuel IH]; intros s more Hlen.
  - destruct s; [|cbn in Hlen; lia]. destruct more; reflexivity.
  - destruct s as [|a r]; [reflexivity|].
    cbn [Nat.add Go.doPrintf]. cbn [String.length] in Hlen.
    destruct (Go.byte_is 37 a).
    + pose proof (directive_length r) as Hd.
      destruct (Go.directive r) as [out rest]. cbn [snd] in Hd.
      rewrite IH by lia. reflexivity.
    + rewrite IH by lia. reflexivity.
Qed.

Lemma doPrintf_plain (s : string) :
  lacks "%" s = true -> forall fuel, (String.length s <= fuel)%nat -> Go.doPrintf fuel s = s.
Proof.
  induction s as [|a r IH]; intros Hplain fuel Hfuel.
  - destruct fuel; reflexivity.
  - destruct fuel as [|fuel]; [cbn in Hfuel; lia|].
    cbn [lacks] in Hplain. apply andb_true_iff in Hplain as [Ha Hr].
    cbn [Go.doPrintf].
    assert (Hb : Go.byte_is 37 a = false).
    { unfold Go.byte_is. apply Z.eqb_neq. intros Hc.
      apply negb_true_iff, Ascii.eqb_neq in Ha. apply Ha.
      rewrite <- (ascii_N_embedding a). unfold Bytes.code in Hc.
      replace (N_of_ascii a) with 37%N by lia. reflexivity. }
    rewrite Hb. f_equal. apply IH; [exact Hr|]. cbn in Hfuel. lia.
Qed.

(** A format without a percent sign is rendered as it is. *)
Lemma Sprintf_plain (s : string) : lacks "%" s = true -> Go.Sprintf s = s.
Proof. intros H. apply doPrintf_plain; [exact H | lia]. Qed.

End Formats.

(* ===================================================================== *)
(* The first pass (validator.go, addFile and addFiles)                   *)
(* ===================================================================== *)

Section FirstPassEffect.

Import Fileutil Validation FirstPass Text.

Variable now : Z.
Variable NewV4 : nat -> string.
Variable v : Validator.

(** What addFile does with a regular file. *)
Lemma addFile_regular_effect (fs : FileSummary) (content : string) (st : State) :
  IsRegularFile fs = true ->
  exists gf st',
    addFile now NewV4 v (Entry fs content) st = Returned (None, st')
    /\ summary st' = summary st
    /\ manifests st'
       = (manifests st ++ if isPayloadManifest (RelPath fs) then [RelPath fs] else [])%list
    /\ tagManifests st'
       = (tagManifests st ++ if isTagManifest (RelPath fs) then [RelPath fs] else [])%list
    /\ db st' = <[objIdentifier v ++ "/" ++ RelPath fs := FileRecord gf]> (db st)
    /\ GenericFile.Identifier gf = objIdentifier v ++ "/" ++ RelPath fs
    /\ GenericFile.IngestMd5 gf
       = (if calculateMd5 v then Hash.md5_hex content else EmptyString)
    /\ GenericFile.IngestSha256 gf
       = (if calculateSha256 v then Hash.sha256_hex content else EmptyString)
    /\ GenericFile.IngestManifestMd5 gf = EmptyString
    /\ GenericFile.IngestManifestSha256 gf = EmptyString.
Proof.
  intros Hreg. unfold addFile. rewrite Hreg. cbn [negb].
  unfold setFileType, isPayloadManifest, isTagManifest, calculateChecksums.
  destruct (Go.HasPrefix (RelPath fs) "tagmanifest-");
    destruct (Go.HasPrefix (RelPath fs) "manifest-");
    destruct (Go.HasPrefix (RelPath fs) "data/");
    destruct (PreserveExtendedAttributes v);
    destruct (calculateMd5 v); destruct (calculateSha256 v);
    (eexists; eexists; split; [reflexivity|];
     cbn [summary manifests tagManifests db negb andb];
     rewrite ?app_nil_r; repeat split; reflexivity).
Qed.

Lemma addFile_irregular (fs : FileSummary) (content : string) (st : State) :
  IsRegularFile fs = false ->
  addFile now NewV4 v (Entry fs content) st = Returned (None, st).
Proof. intros H. unfold addFile. rewrite H. reflexivity. Qed.

(** What the loop of addFiles does. *)
Lemma addFilesLoop_effect (items : list IterItem) :
  forall st,
    exists st',
      addFilesLoop now NewV4 v items st = Returned (tt, st')
      /\ WorkSummary.Errors (summary st')
         = (WorkSummary.Errors (summary st)
            ++ map Go.Sprintf (errorMessages (beforeEOF items)))%list
      /\ manifests st'
         = (manifests st
            ++ List.filter isPayloadManifest (regularPaths (beforeEOF items)))%list
      /\ tagManifests st'
         = (tagManifests st
            ++ List.filter isTagManifest (regularPaths (beforeEOF items)))%list
      /\ (forall k, holdsFile (db st) k -> holdsFile (db st') k)
      /\ (forall p, In p (regularPaths (beforeEOF items)) ->
                    holdsFile (db st') (objIdentifier v ++ "/" ++ p))
      /\ (forall k, (forall p, In p (regularPaths (beforeEOF items)) ->
                               k <> objIdentifier v ++ "/" ++ p) ->
                    db st' !! k = db st !! k).
Proof.
  induction items as [|item items IH]; intros st.
  - exists st. cbn. rewrite !app_nil_r. repeat split; try reflexivity; tauto.
  - destruct item as [fs content|e].
    + cbn [addFilesLoop beforeEOF errorMessages regularPaths].
      destruct (IsRegularFile fs) eqn:Hreg.
      * destruct (addFile_regular_effect fs content st Hreg)
          as [gf [st1 [Hadd [Hs [Hm [Ht [Hdb [Hid _]]]]]]]].
        destruct (IH st1) as [st' [Hloop [He [Hm' [Ht' [Hkeep [Hnew Hframe]]]]]]].
        exists st'. unfold bind at 1. rewrite Hadd. split; [exact Hloop|].
        assert (Hhere : holdsFile (db st1) (objIdentifier v ++ "/" ++ RelPath fs)).
        { exists gf. rewrite Hdb, lookup_insert_eq. split; [reflexivity | exact Hid]. }
        assert (Hstep : forall k, holdsFile (db st) k -> holdsFile (db st1) k).
        { intros k Hk. destruct (decide (k = objIdentifier v ++ "/" ++ RelPath fs)) as [->|Hne].
          - exact Hhere.
          - destruct Hk as [g [Hg1 Hg2]]. exists g. rewrite Hdb, lookup_insert_ne by congruence.
            split; assumption. }
        split; [rewrite He, Hs; reflexivity|].
        split.
        { rewrite Hm', Hm. cbn [List.filter].
          destruct (isPayloadManifest (RelPath fs)); rewrite <- app_assoc; reflexivity. }
        split.
        { rewrite Ht', Ht. cbn [List.filter].
          destruct (isTagManifest (RelPath fs)); rewrite <- app_assoc; reflexivity. }
        split; [intros k Hk; exact (Hkeep k (Hstep k Hk))|].
        split.
        { intros p [<-|Hp]; [exact (Hkeep _ Hhere) | exact (Hnew p Hp)]. }
        intros k Hk. rewrite Hframe by (intros p Hp; apply Hk; right; exact Hp).
        rewrite Hdb. apply lookup_insert_ne. intros Heq. apply (Hk (RelPath fs)).
        -- left. reflexivity.
        -- symmetry. exact Heq.
      * destruct (IH st) as [st' H]. exists st'. unfold bind at 1.
        rewrite (addFile_irregular fs content st Hreg). exact H.
    + cbn [addFilesLoop beforeEOF]. unfold bind at 1. cbn [addFile]. unfold ret at 1.
      destruct (String.eqb e "EOF").
      * exists st. cbn. rewrite !app_nil_r. repeat split; try reflexivity; tauto.
      * destruct (IH (BuildState (WorkSummary.AddError (Go.Sprintf e) (summary st))
                                 (manifests st)
                                 (tagManifests st) (db st) (uuids st)))
          as [st' [Hloop [He [Hm' [Ht' [Hkeep [Hnew Hframe]]]]]]].
        exists st'. unfold bind at 1. cbn [AddError]. split; [exact Hloop|].
        cbn [errorMessages regularPaths map].
        cbn [summary manifests tagManifests db WorkSummary.AddError WorkSummary.Errors]
          in He, Hm', Ht', Hkeep, Hframe.
        split; [rewrite He, <- app_assoc; reflexivity|].
        repeat split; assumption.
Qed.



(** X17. The loop of addFiles always returns, and afterwards the list of
    payload manifests has grown by the regular files whose path starts with
    manifest-, and the list of tag manifests by those whose path starts with
    tagmanifest-, each in the order the iterator gave them. *)
Theorem addFilesLoop_queues_manifests (items : list IterItem) (st : State) :
  exists st',
    addFilesLoop now NewV4 v items st = Returned (tt, st')
    /\ manifests st'
       = (manifests st
          ++ List.filter isPayloadManifest (regularPaths (beforeEOF items)))%list
    /\ tagManifests st'
       = (tagManifests st
          ++ List.filter isTagManifest (regularPaths (beforeEOF items)))%list.
Proof.
  destruct (addFilesLoop_effect items st) as [st' [H1 [_ [H3 [H4 _]]]]].
  exists st'. repeat split; assumption.
Qed.


End FirstPassEffect.


(* ===================================================================== *)
(* The second pass (validator.go, readBag and what it calls)             *)
(* ===================================================================== *)

Section SecondPassEffect.

Import Fileutil Validation FirstPass.

Lemma touchesOnly_ret (A : Type) (keys : list string) (a : A) : touchesOnly keys (ret a).
Proof. intros st x st' H k _. injection H as _ <-. reflexivity. Qed.

Lemma touchesOnly_panic (A : Type) (keys : list string) (msg : string) :
  touchesOnly keys (@panic A msg).
Proof. intros st x st' H. discriminate H. Qed.

Lemma touchesOnly_bind (A B : Type) (keys : list string) (c : M A) (k : A -> M B) :
  touchesOnly keys c -> (forall a, touchesOnly keys (k a)) -> touchesOnly keys (bind c k).
Proof.
  intros Hc Hk st b st' H key Hkey. unfold bind in H.
  destruct (c st) as [[a st1]|msg] eqn:E; [|discriminate].
  rewrite (Hk a _ _ _ H key Hkey). exact (Hc _ _ _ E key Hkey).
Qed.

Lemma touchesOnly_same_index (A : Type) (keys : list string) (c : M A) :
  (forall st a st', c st = Returned (a, st') -> db st' = db st) -> touchesOnly keys c.
Proof. intros Hc st a st' H k _. rewrite (Hc _ _ _ H). reflexivity. Qed.

Lemma touchesOnly_AddError (keys : list string) (msg : string) :
  touchesOnly keys (AddError msg).
Proof. apply touchesOnly_same_index. intros st a st' H. injection H as _ <-. reflexivity. Qed.

Lemma touchesOnly_GetGenericFile (keys : list string) (key : string) :
  touchesOnly keys (GetGenericFile key).
Proof.
  apply touchesOnly_same_index. intros st a st' H. unfold GetGenericFile in H.
  destruct (db st !! key) as [[o|gf]|]; injection H as _ <-; reflexivity.
Qed.

Lemma touchesOnly_GetIntellectualObject (keys : list string) (key : string) :
  touchesOnly keys (GetIntellectualObject key).
Proof.
  apply touchesOnly_same_index. intros st a st' H. unfold GetIntellectualObject in H.
  destruct (db st !! key) as [[o|gf]|]; injection H as _ <-; reflexivity.
Qed.

Lemma touchesOnly_getManifests (keys : list string) : touchesOnly keys getManifests.
Proof. apply touchesOnly_same_index. intros st a st' H. injection H as _ <-. reflexivity. Qed.

Lemma touchesOnly_getTagManifests (keys : list string) : touchesOnly keys getTagManifests.
Proof. apply touchesOnly_same_index. intros st a st' H. injection H as _ <-. reflexivity. Qed.

Lemma touchesOnly_Save (keys : list string) (key : string) (r : DbRecord) :
  In key keys -> touchesOnly keys (Save key r).
Proof.
  intros Hin st a st' H k Hk. injection H as _ <-. cbn [db].
  apply lookup_insert_ne. intros ->. exact (Hk Hin).
Qed.

Ltac touch_step :=
  first
    [ apply touchesOnly_ret
    | apply touchesOnly_panic
    | apply touchesOnly_AddError
    | apply touchesOnly_GetGenericFile
    | apply touchesOnly_GetIntellectualObject
    | apply touchesOnly_getManifests
    | apply touchesOnly_getTagManifests
    | apply touchesOnly_Save; cbn [In]; tauto
    | apply touchesOnly_bind; [|intros ?]
    | match goal with
      | |- touchesOnly _ (if ?c then _ else _) => destruct c
      | |- touchesOnly _ (match ?x with _ => _ end) => destruct x
      end ].

Variable guess : string -> string * option string.
Variable v : Validator.

Lemma touchesOnly_getIntellectualObject (keys : list string) :
  In (objIdentifier v) keys -> touchesOnly keys (getIntellectualObject v).
Proof.
  intros Hin. unfold getIntellectualObject, initIntellectualObject.
  repeat first [ apply touchesOnly_Save; destruct (Go.HasSuffix _ _); exact Hin
               | touch_step ].
Qed.

Lemma touchesOnly_parseTagLines (keys : list string) (rel : string) (lines : list string) :
  forall vars, touchesOnly keys (parseTagLines rel vars lines).
Proof.
  induction lines as [|line lines IH]; intros vars; cbn [parseTagLines]; [touch_step|].
  apply touchesOnly_bind; [|intros vars'; apply IH].
  unfold parseTagLine. repeat touch_step.
Qed.

Lemma touchesOnly_parseTags (keys : list string) (reader rel : string) :
  In (objIdentifier v) keys -> touchesOnly keys (parseTags v reader rel).
Proof.
  intros Hin. unfold parseTags.
  apply touchesOnly_bind; [apply touchesOnly_getIntellectualObject, Hin|].
  intros [obj|e]; [|repeat touch_step].
  destruct (Go.ScanLines reader) as [lines scanErr].
  apply touchesOnly_bind; [apply touchesOnly_parseTagLines|]. intros vars.
  repeat first [ apply touchesOnly_Save; exact Hin | touch_step ].
Qed.

Lemma touchesOnly_parseManifestLines (alg rel : string) (lines : list string) :
  touchesOnly [objIdentifier v ++ "/" ++ rel] (parseManifestLines v alg rel lines).
Proof.
  induction lines as [|line lines IH]; cbn [parseManifestLines]; [touch_step|].
  apply touchesOnly_bind; [|intros _; exact IH].
  unfold parseManifestLine. repeat touch_step.
Qed.

Lemma touchesOnly_parseManifest (reader : string) (fs : FileSummary) :
  touchesOnly [objIdentifier v ++ "/" ++ RelPath fs] (parseManifest v reader fs).
Proof.
  unfold parseManifest.
  destruct (Go.Contains (RelPath fs) Constants.AlgSha256);
    [apply touchesOnly_parseManifestLines|].
  destruct (Go.Contains (RelPath fs) Constants.AlgMd5);
    [apply touchesOnly_parseManifestLines | touch_step].
Qed.

Lemma touchesOnly_more (A : Type) (keys more : list string) (c : M A) :
  (forall k, In k keys -> In k more) -> touchesOnly keys c -> touchesOnly more c.
Proof.
  intros Hsub Hc st a st' H k Hk. apply (Hc _ _ _ H). intros Hin. exact (Hk (Hsub k Hin)).
Qed.

Lemma touchesOnly_setMimeType (keys : list string) (reader : string) (gf : GenericFile.t) :
  touchesOnly keys (setMimeType guess reader gf).
Proof. unfold setMimeType. repeat touch_step. Qed.

Lemma touchesOnly_parseOrSetMimeType (reader : string) (gf : GenericFile.t)
    (fs : FileSummary) :
  touchesOnly [objIdentifier v; objIdentifier v ++ "/" ++ RelPath fs]
              (parseOrSetMimeType guess v reader gf fs).
Proof.
  unfold parseOrSetMimeType.
  repeat first
    [ apply touchesOnly_parseTags; left; reflexivity
    | apply (touchesOnly_more _ [objIdentifier v ++ "/" ++ RelPath fs]);
        [intros k [<-|[]]; right; left; reflexivity | apply touchesOnly_parseManifest]
    | apply touchesOnly_setMimeType
    | touch_step ].
Qed.

Lemma parseManifestLines_returns (alg rel : string) (lines : list string) :
  forall st, exists st', parseManifestLines v alg rel lines st = Returned (tt, st').
Proof.
  induction lines as [|line lines IH]; intros st; [exists st; reflexivity|].
  cbn [parseManifestLines]. unfold bind at 1.
  assert (H : exists st1, parseManifestLine v alg rel line st = Returned (tt, st1)).
  { unfold parseManifestLine. destruct (Go.isBlank line); [exists st; reflexivity|].
    destruct (Go.manifestLineMatch line) as [digest filePath].
    unfold bind, GetGenericFile.
    destruct (db st !! filePath) as [[o|gf]|]; cbn.
    - eexists. reflexivity.
    - destruct (String.eqb alg Constants.AlgMd5); [eexists; reflexivity|].
      destruct (String.eqb alg Constants.AlgSha256); eexists; reflexivity.
    - eexists. reflexivity. }
  destruct H as [st1 ->]. apply IH.
Qed.

(** X19. parseManifest always returns, and whatever the manifest lists it
    changes the side-index at most under the manifest's own identifier: the
    record of no other file is written. *)
Theorem parseManifest_writes_only_own_record (reader : string) (fs : FileSummary)
    (st : State) :
  exists st',
    parseManifest v reader fs st = Returned (tt, st')
    /\ forall k, k <> objIdentifier v ++ "/" ++ RelPath fs -> db st' !! k = db st !! k.
Proof.
  assert (H : exists st', parseManifest v reader fs st = Returned (tt, st')).
  { unfold parseManifest.
    destruct (Go.Contains (RelPath fs) Constants.AlgSha256);
      [apply parseManifestLines_returns|].
    destruct (Go.Contains (RelPath fs) Constants.AlgMd5);
      [apply parseManifestLines_returns | exists st; reflexivity]. }
  destruct H as [st' H]. exists st'. split; [exact H|].
  intros k Hk. apply (touchesOnly_parseManifest reader fs _ _ _ H).
  intros [Heq|[]]. exact (Hk (eq_sym Heq)).
Qed.

Variable now : Z.
Variable NewV4 : nat -> string.

Lemma append_inj (a p q : string) : a ++ p = a ++ q -> p = q.
Proof.
  induction a as [|c a IH]; intros H.
  - rewrite !append_nil in H. exact H.
  - rewrite !append_cons in H. injection H as H. exact (IH H).
Qed.

Lemma file_key_is_no_object_key (obj p : string) : obj ++ "/" ++ p <> obj.
Proof.
  intros H. apply (f_equal String.length) in H.
  rewrite !length_append in H. cbn [String.length] in H. lia.
Qed.

Lemma accumulates_keeps_error (st st' : State) (msg : string) :
  accumulates st st' -> In msg (WorkSummary.Errors (summary st)) ->
  In msg (WorkSummary.Errors (summary st')).
Proof.
  intros [_ [_ [_ [_ [added ->]]]]] H. apply in_or_app. left. exact H.
Qed.

Lemma accumulates_keeps_errors (st st' : State) :
  accumulates st st' -> WorkSummary.Errors (summary st) <> [] ->
  WorkSummary.Errors (summary st') <> [].
Proof.
  intros [_ [_ [_ [_ [added ->]]]]] H Hnil. apply app_eq_nil in Hnil. tauto.
Qed.

(** The second pass reports every entry whose record the side-index lacks
    when the pass starts. *)
Lemma secondPassLoop_missing_record (fs : FileSummary) (content : string)
    (items : list IterItem) :
  forall st st',
    In (Entry fs content) items ->
    db st !! (objIdentifier v ++ "/" ++ RelPath fs) = None ->
    secondPassLoop guess v items st = Returned (tt, st') ->
    In ("Cannot find '" ++ (objIdentifier v ++ "/" ++ RelPath fs) ++ "' in validation db")
       (WorkSummary.Errors (summary st')).
Proof.
  induction items as [|item items IH]; intros st st' Hin Hnone Hrun; [destruct Hin|].
  destruct item as [fs' content'|e].
  - cbn [secondPassLoop] in Hrun. unfold bind at 1 in Hrun. unfold GetGenericFile in Hrun.
    destruct (db st !! (objIdentifier v ++ "/" ++ RelPath fs')) as [[o|gf]|] eqn:Hlook.
    + destruct Hin as [Heq|Hin]; [injection Heq as -> _; congruence|].
      unfold bind at 1 in Hrun. cbn [AddError] in Hrun.
      refine (IH _ _ Hin _ Hrun); exact Hnone.
    + destruct Hin as [Heq|Hin]; [injection Heq as -> _; congruence|].
      unfold bind at 1 in Hrun.
      destruct (parseOrSetMimeType guess v content' gf fs' st) as [[gf' st1]|msg] eqn:Hp;
        [|discriminate].
      apply (IH st1 st' Hin); [|exact Hrun].
      rewrite (touchesOnly_parseOrSetMimeType content' gf fs' _ _ _ Hp); [exact Hnone|].
      intros [Heq|[Heq|[]]].
      * exact (file_key_is_no_object_key _ _ (eq_sym Heq)).
      * rewrite Heq in Hlook. congruence.
    + unfold bind at 1 in Hrun. cbn [AddError] in Hrun.
      destruct Hin as [Heq|Hin].
      * injection Heq as -> _.
        apply (accumulates_keeps_error _ _ _ (accumulating_secondPassLoop guess v items _ _ _ Hrun)).
        cbn [summary WorkSummary.AddError WorkSummary.Errors].
        apply in_or_app. right. left. reflexivity.
      * refine (IH _ _ Hin _ Hrun); exact Hnone.
  - destruct Hin as [Heq|Hin]; [discriminate|].
    cbn [secondPassLoop] in Hrun. unfold bind at 1 in Hrun. cbn [AddError] in Hrun.
    refine (IH _ _ Hin _ Hrun); exact Hnone.
Qed.

(** What readBag leaves for a listing with an entry that is no regular
    file. *)
Lemma readBag_irregular_entry (fs : FileSummary) (content : string)
    (items : list IterItem) (st st' : State) :
  In (Entry fs content) items ->
  (forall p, In p (regularPaths (beforeEOF items)) -> p <> RelPath fs) ->
  db st !! (objIdentifier v ++ "/" ++ RelPath fs) = None ->
  readBag now NewV4 guess v (Ok items) st = Returned (tt, st') ->
  WorkSummary.Errors (summary st') <> [].
Proof.
  intros Hin Hfresh Hnone Hrun. unfold readBag in Hrun. unfold bind at 1 in Hrun.
  destruct (getIntellectualObject v st) as [[[obj|e] st0]|msg] eqn:Hget; [| |discriminate].
  - assert (Hnone0 : db st0 !! (objIdentifier v ++ "/" ++ RelPath fs) = None).
    { rewrite (touchesOnly_getIntellectualObject [objIdentifier v] (or_introl eq_refl)
                 _ _ _ Hget); [exact Hnone|].
      intros [Heq|[]]. exact (file_key_is_no_object_key _ _ (eq_sym Heq)). }
    unfold bind at 1 in Hrun. cbn [addFiles] in Hrun.
    destruct (addFilesLoop_effect now NewV4 v items st0)
      as [st1 [Hloop [_ [_ [_ [_ [_ Hframe]]]]]]].
    rewrite Hloop in Hrun. unfold bind at 1 in Hrun. unfold HasErrors at 1 in Hrun.
    unfold WorkSummary.HasErrors in Hrun.
    destruct (WorkSummary.Errors (summary st1)) as [|e1 es] eqn:Herrs.
    + cbn [parseManifestsTagFilesAndMimeTypes] in Hrun.
      assert (Hnone1 : db st1 !! (objIdentifier v ++ "/" ++ RelPath fs) = None).
      { rewrite Hframe; [exact Hnone0|]. intros p Hp Heq.
        apply append_inj in Heq. apply append_inj in Heq.
        exact (Hfresh p Hp (eq_sym Heq)). }
      intros Hnil.
      pose proof (secondPassLoop_missing_record fs content items st1 st' Hin Hnone1 Hrun)
        as Hmsg.
      rewrite Hnil in Hmsg. destruct Hmsg.
    + injection Hrun as <-. rewrite Herrs. discriminate.
  - cbn [AddError] in Hrun. injection Hrun as <-.
    cbn [summary WorkSummary.AddError WorkSummary.Errors].
    intros Hnil. apply app_eq_nil in Hnil. destruct Hnil as [_ Hnil]. discriminate.
Qed.

(** X20. The second pass reports every entry of the listing for which the
    side-index holds no record when the pass starts: if the pass returns,
    the summary holds the message that the entry's identifier cannot be
    found in the validation db. *)
Theorem second_pass_reports_entry_without_record (fs : FileSummary) (content : string)
    (items : list IterItem) (st st' : State) :
  In (Entry fs content) items ->
  db st !! (objIdentifier v ++ "/" ++ RelPath fs) = None ->
  parseManifestsTagFilesAndMimeTypes guess v (Ok items) st = Returned (tt, st') ->
  In ("Cannot find '" ++ (objIdentifier v ++ "/" ++ RelPath fs) ++ "' in validation db")
     (WorkSummary.Errors (summary st')).
Proof.
  intros Hin Hnone Hrun. exact (secondPassLoop_missing_record fs content items st st' Hin Hnone Hrun).
Qed.

(** X21. A listing with an entry whose path no regular file of the first
    pass has, a directory for one, is never found free of errors: when the
    side-index opens without a record under the entry's identifier, the
    summary Validate returns has errors. *)
Theorem Validate_never_passes_listing_with_directory (fs : FileSummary) (content : string)
    (items : list IterItem) (contents : gmap string DbRecord)
    (st st' : State) (r : Result WorkSummary.t) :
  In (Entry fs content) items ->
  (forall p, In p (regularPaths (beforeEOF items)) -> p <> RelPath fs) ->
  contents !! (objIdentifier v ++ "/" ++ RelPath fs) = None ->
  Validate now NewV4 guess v (Ok contents) (Ok items) st = Returned (r, st') ->
  exists s, r = Ok s /\ WorkSummary.HasErrors s = true.
Proof.
  intros Hin Hfresh Hnone Hrun. unfold Validate in Hrun.
  unfold bind at 1 in Hrun. cbn [openDB] in Hrun.
  unfold bind at 1 in Hrun. cbn [updSummary] in Hrun.
  unfold bind at 1 in Hrun. cbn [updSummary] in Hrun.
  unfold bind at 1 in Hrun. cbn [updSummary] in Hrun.
  unfold bind at 1 in Hrun.
  match type of Hrun with
  | context [readBag _ _ _ _ _ ?s0] =>
      destruct (readBag now NewV4 guess v (Ok items) s0) as [[[] st1]|msg] eqn:Hbag;
        [|discriminate]
  end.
  apply readBag_irregular_entry with (fs := fs) (content := content) in Hbag;
    [|exact Hin|exact Hfresh|exact Hnone].
  cbv [bind HasErrors ret updSummary] in Hrun.
  destruct (negb _) in Hrun; injection Hrun as <- <-;
    (eexists; split; [reflexivity|]);
    unfold WorkSummary.HasErrors; cbn [WorkSummary.Finish WorkSummary.Errors summary];
    destruct (WorkSummary.Errors (summary st1)); congruence.
Qed.

(** X22. When the summary holds an error after the first pass, one it held
    before or one the iterator reported, readBag stops there: it leaves what
    the first pass leaves, and no manifest or tag file is parsed. *)
Theorem readBag_stops_after_first_pass_errors (items : list IterItem)
    (st st0 : State) (obj : IntellectualObject.t) :
  getIntellectualObject v st = Returned (Ok obj, st0) ->
  WorkSummary.Errors (summary st) <> [] \/ errorMessages (beforeEOF items) <> [] ->
  readBag now NewV4 guess v (Ok items) st = addFilesLoop now NewV4 v items st0.
Proof.
  intros Hget Herr. unfold readBag. unfold bind at 1. rewrite Hget.
  unfold bind at 1. cbn [addFiles].
  destruct (addFilesLoop_effect now NewV4 v items st0) as [st1 [Hloop [He _]]].
  rewrite Hloop. unfold bind at 1. unfold HasErrors at 1. unfold WorkSummary.HasErrors.
  destruct (WorkSummary.Errors (summary st1)) as [|e1 es] eqn:Herrs; [|reflexivity].
  exfalso. symmetry in He. apply app_eq_nil in He. destruct He as [He1 He2].
  destruct Herr as [Herr|Herr]; [|exact (Herr (map_eq_nil _ _ He2))].
  exact (accumulates_keeps_errors _ _ (accumulating_getIntellectualObject v _ _ _ Hget)
           Herr He1).
Qed.

(** X23. getIntellectualObject makes the object's record when the
    side-index has none and reads it otherwise: the object it returns is the
    one the side-index then holds under the object identifier, a second call
    returns the same object and changes nothing, and no other key of the
    side-index is touched. *)
Theorem getIntellectualObject_settles (st st1 : State) (obj : IntellectualObject.t) :
  getIntellectualObject v st = Returned (Ok obj, st1) ->
  db st1 !! objIdentifier v = Some (ObjRecord obj)
  /\ getIntellectualObject v st1 = Returned (Ok obj, st1)
  /\ (forall k, k <> objIdentifier v -> db st1 !! k = db st !! k)
  /\ (db st !! objIdentifier v = None ->
      IntellectualObject.Identifier obj = objIdentifier v
      /\ IntellectualObject.IngestTags obj = []
      /\ (if Go.HasSuffix (PathToBag v) ".tar"
          then IntellectualObject.IngestTarFilePath obj = PathToBag v
          else IntellectualObject.IngestUntarredPath obj = PathToBag v)).
Proof.
  intros Hget.
  assert (Hframe : forall k, k <> objIdentifier v -> db st1 !! k = db st !! k).
  { intros k Hk.
    apply (touchesOnly_getIntellectualObject [objIdentifier v] (or_introl eq_refl)
             _ _ _ Hget).
    intros [Heq|[]]. exact (Hk (eq_sym Heq)). }
  unfold getIntellectualObject in Hget. unfold bind at 1 in Hget.
  unfold GetIntellectualObject in Hget.
  destruct (db st !! objIdentifier v) as [[o|gf]|] eqn:Hlook.
  - injection Hget as <- <-.
    split; [exact Hlook|]. split.
    { unfold getIntellectualObject, bind, GetIntellectualObject. rewrite Hlook. reflexivity. }
    split; [exact Hframe|]. intros H. discriminate H.
  - discriminate Hget.
  - unfold initIntellectualObject, bind, Save, ret in Hget.
    destruct (Go.HasSuffix (PathToBag v) ".tar") eqn:Htar;
      injection Hget as <- <-; cbn [db];
      (split; [apply lookup_insert_eq|]);
      (split; [unfold getIntellectualObject, bind, GetIntellectualObject; cbn [db];
               rewrite lookup_insert_eq; reflexivity|]);
      (split; [exact Hframe|]); intros _; repeat split.
Qed.

End SecondPassEffect.

Section SecondPassWitnesses.

Import Fileutil Validation FirstPass.

Lemma second_pass_witness :
  In (Entry directory EmptyString) [Entry directory EmptyString]
  /\ db newState !! (objIdentifier plainValidator ++ "/" ++ RelPath directory) = None
  /\ exists st',
       parseManifestsTagFilesAndMimeTypes Scenario.guessMime plainValidator
         (Ok [Entry directory EmptyString]) newState = Returned (tt, st')
       /\ In "Cannot find 'bag1/data' in validation db" (WorkSummary.Errors (summary st')).
Proof.
  assert (Hin : In (Entry directory EmptyString) [Entry directory EmptyString])
    by (left; reflexivity).
  assert (Hnone : db newState !! (objIdentifier plainValidator ++ "/" ++ RelPath directory) = None)
    by reflexivity.
  split; [exact Hin|]. split; [exact Hnone|].
  destruct (parseManifestsTagFilesAndMimeTypes Scenario.guessMime plainValidator
              (Ok [Entry directory EmptyString]) newState) as [[[] st']|msg] eqn:Hrun;
    [|vm_compute in Hrun; discriminate Hrun].
  exists st'. split; [reflexivity|].
  exact (second_pass_reports_entry_without_record Scenario.guessMime plainValidator directory
           EmptyString _ newState st' Hin Hnone Hrun).
Defined.

Lemma Validate_directory_witness :
  let items := Entry directory EmptyString :: Scenario.goodChecksumBag in
  In (Entry directory EmptyString) items
  /\ IsRegularFile directory = false
  /\ (forall p, In p (regularPaths (beforeEOF items)) -> p <> RelPath directory)
  /\ (∅ : gmap string DbRecord) !! (objIdentifier plainValidator ++ "/" ++ RelPath directory) = None
  /\ exists s st',
       Validate Scenario.clock Scenario.uuid Scenario.guessMime plainValidator (Ok ∅) (Ok items) newState
       = Returned (Ok s, st')
       /\ WorkSummary.HasErrors s = true.
Proof.
  intros items.
  assert (Hin : In (Entry directory EmptyString) items) by (left; reflexivity).
  assert (Hreg : IsRegularFile directory = false) by reflexivity.
  assert (Hfresh : forall p, In p (regularPaths (beforeEOF items)) -> p <> RelPath directory).
  { intros p [<-|[<-|[]]]; discriminate. }
  assert (Hnone : (∅ : gmap string DbRecord) !! (objIdentifier plainValidator ++ "/" ++ RelPath directory)
                  = None) by reflexivity.
  split; [exact Hin|]. split; [exact Hreg|]. split; [exact Hfresh|]. split; [exact Hnone|].
  destruct (Validate Scenario.clock Scenario.uuid Scenario.guessMime plainValidator (Ok ∅) (Ok items)
              newState) as [[r st']|msg] eqn:Hrun;
    [|vm_compute in Hrun; discriminate Hrun].
  destruct (Validate_never_passes_listing_with_directory Scenario.guessMime plainValidator
              Scenario.clock Scenario.uuid directory EmptyString items ∅ newState st' r
              Hin Hfresh Hnone Hrun) as [s [-> Hs]].
  exists s, st'. split; [reflexivity | exact Hs].
Defined.

Lemma readBag_witness :
  let items := NextError "archive/tar: invalid tar header" :: Scenario.goodChecksumBag in
  exists obj st0,
    getIntellectualObject plainValidator newState = Returned (Ok obj, st0)
    /\ (WorkSummary.Errors (summary newState) <> [] \/ errorMessages (beforeEOF items) <> [])
    /\ readBag Scenario.clock Scenario.uuid Scenario.guessMime plainValidator (Ok items) newState
       = addFilesLoop Scenario.clock Scenario.uuid plainValidator items st0.
Proof.
  intros items.
  destruct (getIntellectualObject plainValidator newState) as [[[obj|e] st0]|msg] eqn:Hget;
    [|vm_compute in Hget; discriminate Hget|vm_compute in Hget; discriminate Hget].
  assert (Herr : WorkSummary.Errors (summary newState) <> []
                 \/ errorMessages (beforeEOF items) <> [])
    by (right; discriminate).
  exists obj, st0. split; [reflexivity|]. split; [exact Herr|].
  exact (readBag_stops_after_first_pass_errors Scenario.guessMime plainValidator Scenario.clock
           Scenario.uuid items newState st0 obj Hget Herr).
Defined.

Lemma getIntellectualObject_witness :
  exists obj st1,
    getIntellectualObject plainValidator newState = Returned (Ok obj, st1)
    /\ db st1 !! "bag1" = Some (ObjRecord obj)
    /\ IntellectualObject.IngestTarFilePath obj = "/mnt/apt/bag1.tar".
Proof.
  destruct (getIntellectualObject plainValidator newState) as [[[obj|e] st1]|msg] eqn:Hget;
    [|vm_compute in Hget; discriminate Hget|vm_compute in Hget; discriminate Hget].
  destruct (getIntellectualObject_settles plainValidator newState st1 obj Hget) as [Hdb [_ [_ Hnew]]].
  destruct (Hnew eq_refl) as [_ [_ Htar]].
  exists obj, st1. split; [reflexivity|]. split; [exact Hdb | exact Htar].
Defined.

End SecondPassWitnesses.

(* ===================================================================== *)
(* Tag files (validator.go, parseTags)                                   *)
(* ===================================================================== *)

Section TagRecording.

Import Fileutil Validation FirstPass.

Variable v : Validator.

Lemma setIntelObjTagValue_keeps (obj : IntellectualObject.t) (t : Tag.t) :
  IntellectualObject.Identifier (setIntelObjTagValue obj t) = IntellectualObject.Identifier obj
  /\ IntellectualObject.IngestTags (setIntelObjTagValue obj t)
     = IntellectualObject.IngestTags obj.
Proof.
  unfold setIntelObjTagValue.
  repeat match goal with |- context [if ?c then _ else _] => destruct c end;
    split; reflexivity.
Qed.

Lemma tagLoopInvariant_step (rel id : string) (base : list Tag.t)
    (obj : IntellectualObject.t) (tag : option Tag.t) (t : Tag.t) :
  tagLoopInvariant rel id base (obj, tag) ->
  Tag.SourceFile t = rel ->
  tagLoopInvariant rel id base (setIntelObjTagValue obj t, Some t).
Proof.
  intros [Hid [[added [Htags Hall]] _]] Ht. cbn [fst snd] in *.
  destruct (setIntelObjTagValue_keeps obj t) as [H1 H2].
  split; [cbn [fst]; congruence|]. split.
  - exists added. cbn [fst]. rewrite H2. split; assumption.
  - cbn [snd]. intros t' H. injection H as <-. exact Ht.
Qed.

Lemma tagLoopInvariant_append (rel id : string) (base : list Tag.t)
    (obj : IntellectualObject.t) (t : Tag.t) :
  tagLoopInvariant rel id base (obj, Some t) ->
  tagLoopInvariant rel id base
    ((if negb (Go.is_empty (Tag.Label t)) then appendTag obj t else obj), Some t).
Proof.
  intros [Hid [[added [Htags Hall]] Hfrom]]. cbn [fst snd] in *.
  destruct (Tag.Label t) as [|c l] eqn:Hl; cbn [Go.is_empty negb].
  - split; [exact Hid|]. split; [exists added; split; assumption | exact Hfrom].
  - split; [exact Hid|]. split; [|exact Hfrom].
    exists (added ++ [t])%list. cbn [fst appendTag IntellectualObject.set_IngestTags
                                    IntellectualObject.IngestTags].
    rewrite Htags, <- app_assoc. split; [reflexivity|].
    apply List.Forall_app. split; [exact Hall|].
    constructor; [|constructor]. split; [exact (Hfrom t eq_refl)|].
    rewrite Hl. discriminate.
Qed.

Lemma parseTagLine_keeps_invariant (rel id : string) (base : list Tag.t) (line : string)
    (vars vars' : IntellectualObject.t * option Tag.t) (st st' : State) :
  tagLoopInvariant rel id base vars ->
  parseTagLine rel vars line st = Returned (vars', st') ->
  tagLoopInvariant rel id base vars'.
Proof.
  intros Hinv Hrun. destruct vars as [obj tag]. unfold parseTagLine in Hrun.
  destruct (Go.isBlank line); [injection Hrun as <- _; exact Hinv|].
  destruct (Go.tagLineMatch line) as [[data1 data2]|].
  - destruct (negb (Go.is_empty (Go.ReplaceFirstColon data1))).
    + injection Hrun as <- _.
      destruct tag as [t|].
      * apply (tagLoopInvariant_step rel id base _ (Some t)); [|reflexivity].
        apply tagLoopInvariant_append. exact Hinv.
      * apply (tagLoopInvariant_step rel id base obj None); [exact Hinv | reflexivity].
    + destruct tag as [t|]; [|discriminate].
      injection Hrun as <- _.
      apply (tagLoopInvariant_step rel id base obj (Some t)); [exact Hinv|].
      destruct Hinv as [_ [_ Hfrom]]. exact (Hfrom t eq_refl).
  - unfold bind, AddError, ret in Hrun. injection Hrun as <- _. exact Hinv.
Qed.

Lemma parseTagLines_keeps_invariant (rel id : string) (base : list Tag.t)
    (lines : list string) :
  forall vars vars' st st',
    tagLoopInvariant rel id base vars ->
    parseTagLines rel vars lines st = Returned (vars', st') ->
    tagLoopInvariant rel id base vars'.
Proof.
  induction lines as [|line lines IH]; intros vars vars' st st' Hinv Hrun.
  - injection Hrun as <- _. exact Hinv.
  - cbn [parseTagLines] in Hrun. unfold bind at 1 in Hrun.
    destruct (parseTagLine rel vars line st) as [[vars1 st1]|msg] eqn:Hline; [|discriminate].
    exact (IH _ _ _ _ (parseTagLine_keeps_invariant _ _ _ _ _ _ _ _ Hinv Hline) Hrun).
Qed.

Lemma parseTagLines_keeps_index (rel : string) (lines : list string) :
  forall vars vars' st st',
    parseTagLines rel vars lines st = Returned (vars', st') -> db st' = db st.
Proof.
  induction lines as [|line lines IH]; intros vars vars' st st' Hrun.
  - injection Hrun as _ <-. reflexivity.
  - cbn [parseTagLines] in Hrun. unfold bind at 1 in Hrun.
    destruct (parseTagLine rel vars line st) as [[vars1 st1]|msg] eqn:Hline; [|discriminate].
    rewrite (IH _ _ _ _ Hrun).
    destruct vars as [obj tag]. unfold parseTagLine in Hline.
    destruct (Go.isBlank line); [injection Hline as _ <-; reflexivity|].
    destruct (Go.tagLineMatch line) as [[data1 data2]|].
    + destruct (negb (Go.is_empty (Go.ReplaceFirstColon data1)));
        [injection Hline as _ <-; reflexivity|].
      destruct tag; [injection Hline as _ <-; reflexivity | discriminate].
    + unfold bind, AddError, ret in Hline. injection Hline as _ <-. reflexivity.
Qed.

(** X24. parseTags only adds to the tags of the object: when the side-index
    holds the object and parseTags returns, the object it saves has the same
    identifier and the tags it had before, in their order, followed by new
    ones, and every new tag names the parsed file as its source and has a
    label that is not empty. *)
Theorem parseTags_only_appends_tags (reader rel : string) (st st' : State)
    (obj : IntellectualObject.t) :
  db st !! objIdentifier v = Some (ObjRecord obj) ->
  parseTags v reader rel st = Returned (tt, st') ->
  exists obj' added,
    db st' !! objIdentifier v = Some (ObjRecord obj')
    /\ IntellectualObject.Identifier obj' = IntellectualObject.Identifier obj
    /\ IntellectualObject.IngestTags obj' = (IntellectualObject.IngestTags obj ++ added)%list
    /\ List.Forall (recordedFrom rel) added.
Proof.
  intros Hlook Hrun. unfold parseTags in Hrun. unfold bind at 1 in Hrun.
  unfold getIntellectualObject in Hrun. unfold bind at 1 in Hrun.
  unfold GetIntellectualObject in Hrun. rewrite Hlook in Hrun. unfold ret at 1 in Hrun.
  destruct (Go.ScanLines reader) as [lines scanErr].
  unfold bind at 1 in Hrun.
  destruct (parseTagLines rel (obj, None) lines st) as [[[obj1 tag1] st1]|msg] eqn:Hloop;
    [|discriminate].
  assert (Hinv0 : tagLoopInvariant rel (IntellectualObject.Identifier obj)
                    (IntellectualObject.IngestTags obj) (obj, None)).
  { split; [reflexivity|]. split.
    - exists []. cbn [fst]. rewrite app_nil_r. split; [reflexivity | constructor].
    - intros t H. discriminate H. }
  pose proof (parseTagLines_keeps_invariant _ _ _ _ _ _ _ _ Hinv0 Hloop) as Hinv1.
  destruct tag1 as [t|]; [|discriminate].
  destruct (tagLoopInvariant_append _ _ _ _ _ Hinv1) as [Hid [[added [Htags Hall]] _]].
  cbn [fst] in Hid, Htags.
  exists (if negb (Go.is_empty (Tag.Label t)) then appendTag obj1 t else obj1), added.
  split; [|split; [exact Hid | split; [exact Htags | exact Hall]]].
  destruct scanErr; unfold bind, AddError, ret, Save in Hrun; injection Hrun as <-;
    cbn [db]; apply lookup_insert_eq.
Qed.

End TagRecording.

Lemma parseTags_witness :
  let reader := "Source-Organization: UVA" ++ Scenario.LF in
  exists st',
    Validation.db FirstPass.titledState !! Validation.objIdentifier FirstPass.tagValidator
    = Some (Validation.ObjRecord FirstPass.titledObject)
    /\ Validation.parseTags FirstPass.tagValidator reader "bag-info.txt"
         FirstPass.titledState = Validation.Returned (tt, st')
    /\ exists obj' added,
         Validation.db st' !! "bag1" = Some (Validation.ObjRecord obj')
         /\ IntellectualObject.IngestTags obj'
            = (Tag.New "aptrust-info.txt" "Title" "Bag One" :: added)%list.
Proof.
  intros reader.
  assert (Hlook : Validation.db FirstPass.titledState
                    !! Validation.objIdentifier FirstPass.tagValidator
                  = Some (Validation.ObjRecord FirstPass.titledObject)) by reflexivity.
  destruct (Validation.parseTags FirstPass.tagValidator reader "bag-info.txt"
              FirstPass.titledState) as [[[] st']|msg] eqn:Hrun;
    [|vm_compute in Hrun; discriminate Hrun].
  exists st'. split; [exact Hlook|]. split; [reflexivity|].
  destruct (parseTags_only_appends_tags FirstPass.tagValidator reader "bag-info.txt"
              FirstPass.titledState st' FirstPass.titledObject Hlook Hrun)
    as [obj' [added [Hdb [_ [Htags _]]]]].
  exists obj', added. split; [exact Hdb | exact Htags].
Defined.
